(** * go-micro: request admission, middleware pipeline and error envelope

    A shallow embedding of package [micro] (rate limiter registry and its
    evictor, the middleware stages, the error normalisation path and the
    start-up / shutdown code) and the properties of it that the
    specification states.

    Go objects that are shared by pointer ([*rate.Limiter], [*APIError],
    [*loggingResponseWriter]) live in stores indexed by location, so that
    aliasing and in-place mutation are visible.  Code that can panic runs in
    a state monad whose result is either a value or a panic. *)

From Stdlib Require Import ZArith QArith Ascii String List Bool Lia.
From stdpp Require Import gmap strings list fin_maps.

Set Default Proof Using "Type".

Open Scope string_scope.
Open Scope list_scope.
Open Scope Z_scope.

(** ** Data model *)

(** [time.Time] and [time.Duration]: readings of the monotonic clock and
    their differences, in nanoseconds. *)
Definition Time := Z.
Definition Duration := Z.

(** [context.Context].  Keys are interface values: a key of the named type
    [contextKey] and a key of type [string] never compare equal, whatever
    their contents. *)
Inductive ctxKey :=
| KContextKey (name : string)   (* contextKey(name) *)
| KString (name : string).      (* name, as a plain string *)

Inductive ctxVal :=
| VString (s : string)
| VTime (t : Time).

Inductive Context :=
| Background
| WithValue (parent : Context) (key : ctxKey) (val : ctxVal)
| WithTimeout (parent : Context) (deadline : Time).

Definition ctxKey_eqb (a b : ctxKey) : bool :=
  match a, b with
  | KContextKey x, KContextKey y => String.eqb x y
  | KString x, KString y => String.eqb x y
  | _, _ => false
  end.

(** [ctx.Value(key)]: the innermost binding of [key], [None] for Go's nil. *)
Fixpoint Value (ctx : Context) (key : ctxKey) : option ctxVal :=
  match ctx with
  | Background => None
  | WithValue parent k v => if ctxKey_eqb k key then Some v else Value parent key
  | WithTimeout parent _ => Value parent key
  end.

Definition contextKeyRequestID : ctxKey := KContextKey "request_id".

(** [*http.Request], the parts the pipeline reads. *)
Record Request := mkRequest {
  Method : string;
  URLPath : string;
  RemoteAddr : string;
  Header : gmap string string;
  rContext : Context
}.

Definition WithContext (r : Request) (ctx : Context) : Request :=
  mkRequest (Method r) (URLPath r) (RemoteAddr r) (Header r) ctx.

(** [r.Header.Get(key)]: the empty string when the header is missing. *)
Definition Header_Get (r : Request) (key : string) : string :=
  default "" (Header r !! key).

(** [http.ResponseWriter] values.  [RawWriter] is the writer the server
    hands to the outermost handler (any writer that is not a
    [*loggingResponseWriter]); a [LoggingWriter] embeds the writer it wraps
    and the context captured when it was built; its mutable [statusCode]
    lives in the store, at [cell]. *)
Inductive ResponseWriter :=
| RawWriter
| LoggingWriter (cell : nat) (context : option Context) (inner : ResponseWriter).

(** [APIError]. [Details] is [None] for a nil map. *)
Record APIError := mkAPIError {
  Code : Z;
  Message : string;
  Details : option (gmap string string);
  RequestID : string
}.

(** Go [error] values that reach the error path: a [*APIError] (by
    location), an opaque error, or an error wrapping another ([%w]). *)
Inductive error :=
| ErrAPI (p : nat)
| ErrPlain (msg : string)
| ErrWrap (msg : string) (inner : error).

(** JSON documents written by [json.NewEncoder(w).Encode]. *)
Inductive JSON :=
| JNum (n : Z)
| JStr (s : string)
| JMap (m : gmap string string).

Inductive Body :=
| BodyJSON (fields : list (string * JSON))
| BodyRaw (data : string).

(** Structured log lines (zap). *)
Inductive Level := LInfo | LWarn | LError.

Inductive Field :=
| FString (key val : string)
| FInt (key : string) (val : Z)
| FDuration (key : string) (val : Duration)
| FError (err : error)
| FAny (key val : string).

Record LogEntry := mkLog { lvl : Level; msg : string; fields : list Field }.

(** Prometheus observations (durations kept in nanoseconds; the code hands
    them over in seconds). *)
Inductive MetricEvent :=
| CounterInc (method path : string) (status : Z)
| HistogramObserve (method path : string) (d : Duration).

(** Stages of the pipeline, for the record of which stage bodies started. *)
Inductive Stage :=
| SRequestID | SSecurityHeaders | SRateLimit | SMetrics | SLog
| SRecovery | STimeout | SCORS | STerminal.

Global Instance Stage_eq_dec : EqDecision Stage.
Proof. solve_decision. Defined.

(** ** Configuration

    The fields of [Config] the pipeline and the lifecycle read. *)

Record RateLimiterConfig := mkRateLimiterConfig {
  Enabled : bool;
  RequestsPerS : Q;
  Burst : Z;
  TTL : Duration;
  Strategy : string
}.

Record CORSConfig := mkCORSConfig {
  CORSEnabled : bool;
  AllowedOrigins : list string;
  AllowedMethods : list string;
  AllowedHeaders : list string;
  ExposedHeaders : list string;
  AllowCredentials : bool;
  MaxAge : Z
}.

Record Config := mkConfig {
  LogLevel : string;
  MetricsEnabled : bool;
  HandlerTimeout : Duration;
  ShutdownTimeout : Duration;
  RateLimiter : RateLimiterConfig;
  CORS : CORSConfig
}.

(** [handlers.CORSOption] values, as [setupDefaultMiddleware] builds them. *)
Inductive CORSOption :=
| OptAllowedOrigins (l : list string)
| OptAllowedMethods (l : list string)
| OptAllowedHeaders (l : list string)
| OptExposedHeaders (l : list string)
| OptAllowCredentials
| OptMaxAge (n : Z).

(** What the CORS handler of gorilla/handlers does with a request: answer
    it itself (a preflight) or add headers and call the next handler. *)
Inductive CORSDecision :=
| CorsRespond (hdrs : list (string * string)) (status : Z)
| CorsPass (hdrs : list (string * string)).

(** The middleware values the application registers. *)
Inductive Middleware :=
| MwRequestID
| MwSecurityHeaders
| MwRateLimiter
| MwMetrics
| MwLog
| MwRecovery
| MwTimeout (timeout : Duration)
| MwCORS (opts : list CORSOption).

Definition stageOf (m : Middleware) : Stage :=
  match m with
  | MwRequestID => SRequestID
  | MwSecurityHeaders => SSecurityHeaders
  | MwRateLimiter => SRateLimit
  | MwMetrics => SMetrics
  | MwLog => SLog
  | MwRecovery => SRecovery
  | MwTimeout _ => STimeout
  | MwCORS _ => SCORS
  end.

(** [visitorLimiter]: the limiter is held by pointer. *)
Record visitorLimiter := mkVisitor {
  limiter : nat;
  lastSeen : Time
}.

(** ** The world a request runs in *)

Inductive Result (A : Type) :=
| Ok (a : A)
| Panic (v : string).
Arguments Ok {A} a.
Arguments Panic {A} v.

(** The response under construction: the live header map, the status line
    with the headers that went out with it once [WriteHeader] has run, and
    the body chunks [Write] has accepted so far.  What the transport makes
    of them is outside: it sends no body in answer to a HEAD request (of the
    routes here only /health and /metrics match one, the others are bound
    to their method), and it keeps count against a declared Content-Length,
    which no code of the repository sets. *)
Record Response := mkResponse {
  respHeader : gmap string string;
  wroteHeader : option (Z * gmap string string);
  respBody : list Body
}.

Section Micro.

(** *** External collaborators

    [golang.org/x/time/rate] (the token bucket itself), the clock,
    [xid.New] and the CORS handler of gorilla/handlers are libraries the
    repository calls; they are parameters of the development. *)
Context {Limiter : Type}.
Variable NewLimiter : Q -> Z -> Limiter.
Variable Allow : Limiter -> Time -> bool * Limiter.
Variable clock : nat -> Time.
Variable xid : nat -> string.
Variable cors : list CORSOption -> Request -> CORSDecision.

Record World := mkWorld {
  resp : Response;
  lrwStatus : list Z;                       (* statusCode of each loggingResponseWriter *)
  logs : list LogEntry;
  metrics : list MetricEvent;
  limiters : gmap string visitorLimiter;    (* rl.limiters *)
  limiterHeap : list Limiter;               (* the rate.Limiter objects *)
  errHeap : list APIError;                  (* the APIError objects *)
  clockReads : nat;                         (* calls of time.Now so far *)
  xidReads : nat;                           (* calls of xid.New so far *)
  wg : Z;                                   (* counter of App.wg *)
  trace : list Stage                        (* stage bodies started, oldest first *)
}.

Definition set_resp (f : Response -> Response) (s : World) : World :=
  mkWorld (f (resp s)) (lrwStatus s) (logs s) (metrics s) (limiters s) (limiterHeap s)
          (errHeap s) (clockReads s) (xidReads s) (wg s) (trace s).
Definition set_lrwStatus (f : list Z -> list Z) (s : World) : World :=
  mkWorld (resp s) (f (lrwStatus s)) (logs s) (metrics s) (limiters s) (limiterHeap s)
          (errHeap s) (clockReads s) (xidReads s) (wg s) (trace s).
Definition set_logs (f : list LogEntry -> list LogEntry) (s : World) : World :=
  mkWorld (resp s) (lrwStatus s) (f (logs s)) (metrics s) (limiters s) (limiterHeap s)
          (errHeap s) (clockReads s) (xidReads s) (wg s) (trace s).
Definition set_metrics (f : list MetricEvent -> list MetricEvent) (s : World) : World :=
  mkWorld (resp s) (lrwStatus s) (logs s) (f (metrics s)) (limiters s) (limiterHeap s)
          (errHeap s) (clockReads s) (xidReads s) (wg s) (trace s).
Definition set_limiters (f : gmap string visitorLimiter -> gmap string visitorLimiter)
    (s : World) : World :=
  mkWorld (resp s) (lrwStatus s) (logs s) (metrics s) (f (limiters s)) (limiterHeap s)
          (errHeap s) (clockReads s) (xidReads s) (wg s) (trace s).
Definition set_limiterHeap (f : list Limiter -> list Limiter) (s : World) : World :=
  mkWorld (resp s) (lrwStatus s) (logs s) (metrics s) (limiters s) (f (limiterHeap s))
          (errHeap s) (clockReads s) (xidReads s) (wg s) (trace s).
Definition set_errHeap (f : list APIError -> list APIError) (s : World) : World :=
  mkWorld (resp s) (lrwStatus s) (logs s) (metrics s) (limiters s) (limiterHeap s)
          (f (errHeap s)) (clockReads s) (xidReads s) (wg s) (trace s).
Definition set_clockReads (f : nat -> nat) (s : World) : World :=
  mkWorld (resp s) (lrwStatus s) (logs s) (metrics s) (limiters s) (limiterHeap s)
          (errHeap s) (f (clockReads s)) (xidReads s) (wg s) (trace s).
Definition set_xidReads (f : nat -> nat) (s : World) : World :=
  mkWorld (resp s) (lrwStatus s) (logs s) (metrics s) (limiters s) (limiterHeap s)
          (errHeap s) (clockReads s) (f (xidReads s)) (wg s) (trace s).
Definition set_wg (f : Z -> Z) (s : World) : World :=
  mkWorld (resp s) (lrwStatus s) (logs s) (metrics s) (limiters s) (limiterHeap s)
          (errHeap s) (clockReads s) (xidReads s) (f (wg s)) (trace s).
Definition set_trace (f : list Stage -> list Stage) (s : World) : World :=
  mkWorld (resp s) (lrwStatus s) (logs s) (metrics s) (limiters s) (limiterHeap s)
          (errHeap s) (clockReads s) (xidReads s) (wg s) (f (trace s)).

(** *** The monad: state, and a result that is a value or a panic *)

Definition M (A : Type) : Type := World -> Result A * World.

Definition ret {A} (a : A) : M A := fun s => (Ok a, s).

Definition bind {A B} (m : M A) (k : A -> M B) : M B :=
  fun s =>
    match m s with
    | (Ok a, s') => k a s'
    | (Panic v, s') => (Panic v, s')
    end.

Definition panic {A} (v : string) : M A := fun s => (Panic v, s).

Definition modify (f : World -> World) : M unit := fun s => (Ok tt, f s).

Definition gets {A} (f : World -> A) : M A := fun s => (Ok (f s), s).

(** [defer func() { if err := recover(); err != nil { ... } }()] around
    [body]: a panic of [body] is handed to [onPanic] and the function then
    returns normally (or with the panic [onPanic] itself raises). *)
Definition deferRecover (body : M unit) (onPanic : string -> M unit) : M unit :=
  fun s =>
    match body s with
    | (Ok a, s') => (Ok a, s')
    | (Panic v, s') => onPanic v s'
    end.

Notation "'let*' x ':=' m 'in' k" := (bind m (fun x => k))
  (at level 10, x binder, m at level 100, k at level 200).
Notation "m ';;;' k" := (bind m (fun _ => k))
  (at level 100, k at level 200, right associativity).

(** *** Primitive effects *)

(** [time.Now()]. *)
Definition Now : M Time :=
  fun s => (Ok (clock (clockReads s)), set_clockReads S s).

(** [time.Since(t)]. *)
Definition Since (t : Time) : M Duration :=
  let* now := Now in ret (now - t).

(** [xid.New().String()]. *)
Definition xid_New : M string :=
  fun s => (Ok (xid (xidReads s)), set_xidReads S s).

Definition logf (l : Level) (m : string) (fs : list Field) : M unit :=
  modify (set_logs (fun ls => ls ++ [mkLog l m fs])).

(** [utf8.ValidString], on the bytes of the string: the well-formed
    sequences of one to four bytes, without over-long forms, surrogates or
    values above U+10FFFF. *)
Fixpoint bytesOf (s : string) : list nat :=
  match s with
  | EmptyString => []
  | String c rest => Ascii.nat_of_ascii c :: bytesOf rest
  end.

Definition between (lo hi c : nat) : bool := (lo <=? c)%nat && (c <=? hi)%nat.

Fixpoint validBytes (l : list nat) : bool :=
  match l with
  | [] => true
  | b :: rest =>
      if (b <? 128)%nat then validBytes rest
      else if between 194 223 b then
        match rest with
        | c1 :: rest => between 128 191 c1 && validBytes rest
        | _ => false
        end
      else if between 224 239 b then
        match rest with
        | c1 :: c2 :: rest =>
            (if (b =? 224)%nat then between 160 191 c1
             else if (b =? 237)%nat then between 128 159 c1
             else between 128 191 c1)
            && between 128 191 c2 && validBytes rest
        | _ => false
        end
      else if between 240 244 b then
        match rest with
        | c1 :: c2 :: c3 :: rest =>
            (if (b =? 240)%nat then between 144 191 c1
             else if (b =? 244)%nat then between 128 143 c1
             else between 128 191 c1)
            && between 128 191 c2 && between 128 191 c3 && validBytes rest
        | _ => false
        end
      else false
  end.

Definition utf8_ValidString (s : string) : bool := validBytes (bytesOf s).

(** The label values of an observation that come from the request; the
    status label is the output of [strconv.Itoa], digits and a sign. *)
Definition labelValues (e : MetricEvent) : list string :=
  match e with
  | CounterInc method path _ => [method; path]
  | HistogramObserve method path _ => [method; path]
  end.

(** [vec.WithLabelValues(lvs...)] followed by [Inc] or [Observe]:
    [WithLabelValues] panics on the error of [GetMetricWithLabelValues],
    which a label value that is not valid UTF-8 gives. *)
Definition observe (e : MetricEvent) : M unit :=
  if forallb utf8_ValidString (labelValues e)
  then modify (set_metrics (fun ms => ms ++ [e]))
  else panic "label value is not valid UTF-8".

Definition enter (st : Stage) : M unit :=
  modify (set_trace (fun t => t ++ [st])).

(** [w.Header().Set(k, v)]: every writer shares the header map of the
    response it finally writes to. *)
Definition Header_Set (w : ResponseWriter) (k v : string) : M unit :=
  modify (set_resp (fun r => mkResponse (<[k := v]> (respHeader r)) (wroteHeader r) (respBody r))).

(** [WriteHeader] of the server's [http.response]: a second call is ignored, a code
    outside 100..999 panics, a 1xx code other than 101 is an informational
    response and leaves the final status open. *)
Definition raw_WriteHeader (code : Z) : M unit :=
  fun s =>
    match wroteHeader (resp s) with
    | Some _ => (Ok tt, s)
    | None =>
        if (code <? 100) || (999 <? code) then (Panic "invalid WriteHeader code", s)
        else if (100 <=? code) && (code <=? 199) && negb (code =? 101) then (Ok tt, s)
        else (Ok tt, set_resp (fun r =>
                mkResponse (respHeader r) (Some (code, respHeader r)) (respBody r)) s)
    end.

(** [w.WriteHeader(code)]; for a logging writer this is
    the [WriteHeader] method of [loggingResponseWriter]. *)
Fixpoint WriteHeader (w : ResponseWriter) (code : Z) : M unit :=
  match w with
  | RawWriter => raw_WriteHeader code
  | LoggingWriter cell _ inner =>
      modify (set_lrwStatus (fun l => <[cell := code]> l)) ;;;
      WriteHeader inner code
  end.

(** [bodyAllowedForStatus] of net/http. *)
Definition bodyAllowedForStatus (status : Z) : bool :=
  if (100 <=? status) && (status <=? 199) then false
  else if status =? 204 then false
  else if status =? 304 then false
  else true.

(** [http.ErrBodyNotAllowed]. *)
Definition ErrBodyNotAllowed : string :=
  "http: request method or response status code does not allow body".

(** [Write] of the server's [http.response]: it sends status 200 first
    when none was sent, and takes the data only if the status sent allows a
    body; otherwise it writes nothing and returns [ErrBodyNotAllowed]. *)
Definition raw_Write (b : Body) : M (option string) :=
  raw_WriteHeader 200 ;;;
  fun s =>
    let status := match wroteHeader (resp s) with
                  | Some (status, _) => status
                  | None => 0
                  end in
    if bodyAllowedForStatus status
    then (Ok None,
          set_resp (fun r => mkResponse (respHeader r) (wroteHeader r) (respBody r ++ [b])) s)
    else (Ok (Some ErrBodyNotAllowed), s).

(** [json.NewEncoder(w).Encode(v)], with the error of the write as result;
    [loggingResponseWriter] does not define [Write], the embedded writer's
    is promoted, so the call lands on the server's response. *)
Definition Encode (w : ResponseWriter) (b : Body) : M (option string) :=
  raw_Write b.

(** [w.Write(data)] or [Encode] where the caller drops the result. *)
Definition Write (w : ResponseWriter) (b : Body) : M unit :=
  raw_Write b ;;; ret tt.

(** [&loggingResponseWriter{ResponseWriter: w, statusCode: http.StatusOK, context: ctx}]. *)
Definition newLoggingResponseWriter (w : ResponseWriter) (ctx : Context) : M ResponseWriter :=
  fun s => (Ok (LoggingWriter (length (lrwStatus s)) (Some ctx) w),
            set_lrwStatus (fun l => l ++ [200]) s).

(** [lrw.statusCode]. *)
Definition statusCode (w : ResponseWriter) : M Z :=
  match w with
  | LoggingWriter cell _ _ => gets (fun s => default 0 (lrwStatus s !! cell))
  | RawWriter => ret 0
  end.

(** [ctx.Value(key).(string)], the one-result form: panics unless the
    value is a string. *)
Definition Value_string (ctx : Context) (key : ctxKey) : M string :=
  match Value ctx key with
  | Some (VString v) => ret v
  | _ => panic "interface conversion: interface {} is not string"
  end.

(** ** Errors: [NewAPIError], [normalizeError], [handleError] *)

Record App := mkApp {
  appConfig : Config;
  middleware : list Middleware;         (* a.middleware *)
  routerMiddleware : list Middleware;   (* the middlewares of a.Router *)
  rateLimiterSet : bool                 (* a.rateLimiter != nil *)
}.

(** [NewAPIError(code, message, details...)]: a new object, returned by
    pointer. *)
Definition NewAPIError (code : Z) (message : string)
    (details : list (option (gmap string string))) : M nat :=
  fun s =>
    let err := mkAPIError code message None "" in
    let err := match details with
               | d :: _ => mkAPIError (Code err) (Message err) d (RequestID err)
               | [] => err
               end in
    (Ok (length (errHeap s)), set_errHeap (fun h => h ++ [err]) s).

(** The package-level [ErrInternalServer = NewAPIError(500, "internal server
    error")] is the first object allocated, at program start. *)
Definition ErrInternalServer : nat := 0%nat.

Definition initialErrHeap : list APIError :=
  [mkAPIError 500 "internal server error" None ""].

(** Reading and writing through a [*APIError]; a pointer that does not
    name an object stands for nil. *)
Definition loadAPIError (p : nat) : M APIError :=
  fun s =>
    match errHeap s !! p with
    | Some e => (Ok e, s)
    | None => (Panic "invalid memory address or nil pointer dereference", s)
    end.

Definition storeAPIError (p : nat) (f : APIError -> APIError) : M unit :=
  fun s =>
    match errHeap s !! p with
    | Some e => (Ok tt, set_errHeap (fun h => <[p := f e]> h) s)
    | None => (Panic "invalid memory address or nil pointer dereference", s)
    end.

(** [errors.As(err, &apiErr)] for a target of type [*APIError]. *)
Fixpoint errors_As (err : error) : option nat :=
  match err with
  | ErrAPI p => Some p
  | ErrPlain _ => None
  | ErrWrap _ inner => errors_As inner
  end.

(** [getRequestIDFromContext]: the type assertion on [w] has the
    one-result form and panics on any other writer; the lookup uses the
    string "request_id" as key and the two-result assertion to string. *)
Definition getRequestIDFromContext (w : ResponseWriter) : M string :=
  match w with
  | LoggingWriter _ context _ =>
      match context with
      | Some ctx =>
          match Value ctx (KString "request_id") with
          | Some (VString reqID) => ret reqID
          | _ => ret ""
          end
      | None => ret ""
      end
  | RawWriter =>
      panic "interface conversion: http.ResponseWriter is not *micro.loggingResponseWriter"
  end.

Definition normalizeError (a : App) (err : error) (requestID : string) : M nat :=
  let* apiErr := match errors_As err with
                 | Some p => ret p
                 | None => NewAPIError 500 "internal server error" []
                 end in
  storeAPIError apiErr (fun e => mkAPIError (Code e) (Message e) (Details e) requestID) ;;;
  (if negb (String.eqb (LogLevel (appConfig a)) "debug")
   then storeAPIError apiErr (fun e => mkAPIError (Code e) (Message e) None (RequestID e))
   else ret tt) ;;;
  ret apiErr.

(** The JSON encoding of an [APIError], with its [omitempty] fields. *)
Definition encodeAPIError (e : APIError) : list (string * JSON) :=
  [("code", JNum (Code e)); ("message", JStr (Message e))]
  ++ match Details e with
     | Some d => if bool_decide (d = ∅) then [] else [("details", JMap d)]
     | None => []
     end
  ++ (if String.eqb (RequestID e) "" then [] else [("request_id", JStr (RequestID e))]).

Definition handleError (a : App) (w : ResponseWriter) (err : error) : M unit :=
  let* reqID := getRequestIDFromContext w in
  let* apiError := normalizeError a err reqID in
  let* e := loadAPIError apiError in
  logf LError "request error"
       [FError err; FString "request_id" reqID; FInt "status_code" (Code e)] ;;;
  Header_Set w "Content-Type" "application/json" ;;;
  WriteHeader w (Code e) ;;;
  Write w (BodyJSON (encodeAPIError e)).

Definition JSONError (a : App) (w : ResponseWriter) (err : error) : M unit :=
  handleError a w err.

(** ** The registry: [getLimiter] and the evictor *)

(** [rate.NewLimiter(...)]: a new limiter object, returned by pointer. *)
Definition allocLimiter (l : Limiter) : M nat :=
  fun s => (Ok (length (limiterHeap s)), set_limiterHeap (fun h => h ++ [l]) s).

Definition getLimiter (rl : RateLimiterConfig) (key : string) : M nat :=
  let* found := gets (fun s => limiters s !! key) in
  match found with
  | None =>
      let* lim := allocLimiter (NewLimiter (RequestsPerS rl) (Burst rl)) in
      let* now := Now in
      modify (set_limiters (fun m => <[key := mkVisitor lim now]> m)) ;;;
      ret lim
  | Some v =>
      let* now := Now in
      modify (set_limiters (fun m => <[key := mkVisitor (limiter v) now]> m)) ;;;
      ret (limiter v)
  end.

(** [limiter.Allow()], on the object [p] points to. *)
Definition limiterAllow (p : nat) : M bool :=
  let* now := Now in
  fun s =>
    match limiterHeap s !! p with
    | Some l =>
        let '(ok, l') := Allow l now in
        (Ok ok, set_limiterHeap (fun h => <[p := l']> h) s)
    | None => (Panic "invalid memory address or nil pointer dereference", s)
    end.

(** One tick of [cleanupStaleVisitors]: the body of its [for range
    rl.cleanup.C] loop, with [now] the clock reading of the sweep. *)
Definition sweep (rl : RateLimiterConfig) (now : Time)
    (m : gmap string visitorLimiter) : gmap string visitorLimiter :=
  map_fold (fun key v acc => if TTL rl <? now - lastSeen v then delete key acc else acc) m m.

Definition cleanupStaleVisitors (rl : RateLimiterConfig) (now : Time) : M unit :=
  modify (set_limiters (sweep rl now)).

(** ** Client identity and the rate-limit gate *)

Definition getClientIdentifier (a : App) (r : Request) : string :=
  let strategy := Strategy (RateLimiter (appConfig a)) in
  if String.eqb strategy "ip" then
    let ip := Header_Get r "X-Forwarded-For" in
    if String.eqb ip "" then RemoteAddr r else ip
  else if String.eqb strategy "token" then Header_Get r "Authorization"
  else if String.eqb strategy "global" then "global"
  else RemoteAddr r.

Definition HandlerFunc : Type := ResponseWriter -> Request -> M unit.

(** [a.rateLimiter] is nil unless rate limiting was enabled when the
    application was built; calling [getLimiter] through it then panics. *)
Definition rateLimiterMiddleware (a : App) (next : HandlerFunc) : HandlerFunc :=
  fun w r =>
    enter SRateLimit ;;;
    if negb (Enabled (RateLimiter (appConfig a))) then next w r
    else
      let clientID := getClientIdentifier a r in
      if String.eqb clientID "" && negb (String.eqb (Strategy (RateLimiter (appConfig a))) "global")
      then next w r
      else
        let* lim := (if rateLimiterSet a then getLimiter (RateLimiter (appConfig a)) clientID
                     else panic "invalid memory address or nil pointer dereference") in
        let* allowed := limiterAllow lim in
        if negb allowed then
          let* requestID := Value_string (rContext r) contextKeyRequestID in
          logf LWarn "rate limit exceeded"
               [FString "client_id" clientID; FString "path" (URLPath r);
                FString "request_id" requestID] ;;;
          let* apiErr := NewAPIError 429 "Rate limit exceeded" [] in
          Header_Set w "Retry-After" "60" ;;;
          JSONError a w (ErrAPI apiErr)
        else next w r.

(** ** The other stages *)

Definition requestIDMiddleware (a : App) (next : HandlerFunc) : HandlerFunc :=
  fun w r =>
    enter SRequestID ;;;
    let* requestID := xid_New in
    Header_Set w "X-Request-ID" requestID ;;;
    let ctx := WithValue (rContext r) contextKeyRequestID (VString requestID) in
    next w (WithContext r ctx).

(** [lrw.context.Value(contextKeyRequestID).(string)]. *)
Definition lrwRequestID (lrw : ResponseWriter) : M string :=
  match lrw with
  | LoggingWriter _ (Some ctx) _ => Value_string ctx contextKeyRequestID
  | _ => panic "invalid memory address or nil pointer dereference"
  end.

Definition logMiddleware (a : App) (next : HandlerFunc) : HandlerFunc :=
  fun w r =>
    enter SLog ;;;
    let* start := Now in
    let* lrw := newLoggingResponseWriter w (rContext r) in
    next lrw r ;;;
    let* status := statusCode lrw in
    let* d := Since start in
    let* requestID := lrwRequestID lrw in
    logf LInfo "request processed"
         [FString "method" (Method r); FString "path" (URLPath r);
          FString "remote_addr" (RemoteAddr r); FInt "status" status;
          FDuration "duration" d; FString "request_id" requestID].

Definition recoveryMiddleware (a : App) (next : HandlerFunc) : HandlerFunc :=
  fun w r =>
    enter SRecovery ;;;
    deferRecover (next w r) (fun err =>
      let* requestID := Value_string (rContext r) contextKeyRequestID in
      logf LError "panic recovered" [FAny "error" err; FString "request_id" requestID] ;;;
      let* apiErr := NewAPIError 500 "Internal server error" [] in
      handleError a w (ErrAPI apiErr)).

(** [context.WithTimeout] reads the clock for the deadline; the deferred
    [cancel()] only releases the timer. *)
Definition timeoutMiddleware (a : App) (timeout : Duration) (next : HandlerFunc) : HandlerFunc :=
  fun w r =>
    enter STimeout ;;;
    let* now := Now in
    let ctx := WithTimeout (rContext r) (now + timeout) in
    next w (WithContext r ctx).

Definition metricsMiddleware (a : App) (next : HandlerFunc) : HandlerFunc :=
  fun w r =>
    enter SMetrics ;;;
    let* start := Now in
    let* lrw := newLoggingResponseWriter w (rContext r) in
    next lrw r ;;;
    let* duration := Since start in
    let* status := statusCode lrw in
    observe (CounterInc (Method r) (URLPath r) status) ;;;
    observe (HistogramObserve (Method r) (URLPath r) duration).

Definition securityHeadersMiddleware (a : App) (next : HandlerFunc) : HandlerFunc :=
  fun w r =>
    enter SSecurityHeaders ;;;
    Header_Set w "X-Content-Type-Options" "nosniff" ;;;
    Header_Set w "X-Frame-Options" "DENY" ;;;
    Header_Set w "X-XSS-Protection" "1; mode=block" ;;;
    Header_Set w "Strict-Transport-Security" "max-age=63072000; includeSubDomain" ;;;
    next w r.

Fixpoint setHeaders (w : ResponseWriter) (hdrs : list (string * string)) : M unit :=
  match hdrs with
  | [] => ret tt
  | (k, v) :: rest => Header_Set w k v ;;; setHeaders w rest
  end.

(** [handlers.CORS(opts...)], through the decision of the library. *)
Definition corsMiddleware (opts : list CORSOption) (next : HandlerFunc) : HandlerFunc :=
  fun w r =>
    enter SCORS ;;;
    match cors opts r with
    | CorsRespond hdrs status => setHeaders w hdrs ;;; WriteHeader w status
    | CorsPass hdrs => setHeaders w hdrs ;;; next w r
    end.

(** ** The terminal handler

    A [Handler] is business code behind the pipeline.  It may read the
    world, build [APIError] objects, use its writer, and then returns nil,
    returns an error, or panics. *)
Inductive WriterOp :=
| OpHeaderSet (k v : string)
| OpWriteHeader (code : Z)
| OpWrite (data : Body).

Inductive HandlerReturn :=
| ReturnNil
| ReturnErr (err : error)
| Panics (v : string).

Record HandlerAct := mkHandlerAct {
  hNewErrors : list APIError;
  hOps : list WriterOp;
  hReturn : HandlerReturn
}.

Definition Handler : Type := World -> Context -> Request -> HandlerAct.

Fixpoint runOps (w : ResponseWriter) (ops : list WriterOp) : M unit :=
  match ops with
  | [] => ret tt
  | OpHeaderSet k v :: rest => Header_Set w k v ;;; runOps w rest
  | OpWriteHeader code :: rest => WriteHeader w code ;;; runOps w rest
  | OpWrite data :: rest => Write w data ;;; runOps w rest
  end.

(** The closure [Handle] registers on the router for a route. *)
Definition Handle (a : App) (handler : Handler) : HandlerFunc :=
  fun w r =>
    enter STerminal ;;;
    let ctx := rContext r in
    let* act := gets (fun s => handler s ctx r) in
    modify (set_errHeap (fun h => h ++ hNewErrors act)) ;;;
    runOps w (hOps act) ;;;
    match hReturn act with
    | ReturnNil => ret tt
    | ReturnErr err => handleError a w err
    | Panics v => panic v
    end.

(** ** Start-up: building the chain *)

Definition Use (a : App) (m : Middleware) : App :=
  mkApp (appConfig a) (middleware a ++ [m]) (routerMiddleware a) (rateLimiterSet a).

(** [a.Router.Use(m)]. *)
Definition Router_Use (a : App) (m : Middleware) : App :=
  mkApp (appConfig a) (middleware a) (routerMiddleware a ++ [m]) (rateLimiterSet a).

Definition corsOptions (c : CORSConfig) : list CORSOption :=
  (if (0 <? length (AllowedOrigins c))%nat then [OptAllowedOrigins (AllowedOrigins c)] else [])
  ++ (if (0 <? length (AllowedMethods c))%nat then [OptAllowedMethods (AllowedMethods c)] else [])
  ++ (if (0 <? length (AllowedHeaders c))%nat then [OptAllowedHeaders (AllowedHeaders c)] else [])
  ++ (if (0 <? length (ExposedHeaders c))%nat then [OptExposedHeaders (ExposedHeaders c)] else [])
  ++ (if AllowCredentials c then [OptAllowCredentials] else [])
  ++ (if 0 <? MaxAge c then [OptMaxAge (MaxAge c)] else []).

Definition setupDefaultMiddleware (a : App) : App :=
  let a := Use a MwRequestID in
  let a := Use a MwSecurityHeaders in
  let a := if Enabled (RateLimiter (appConfig a)) then Use a MwRateLimiter else a in
  let a := if MetricsEnabled (appConfig a) then Use a MwMetrics else a in
  let a := Use a MwLog in
  let a := Use a MwRecovery in
  let a := Use a (MwTimeout (HandlerTimeout (appConfig a))) in
  if CORSEnabled (CORS (appConfig a))
  then Router_Use a (MwCORS (corsOptions (CORS (appConfig a))))
  else a.

(** [NewApp], for a configuration that loaded and validated. *)
Definition NewApp (config : Config) : App :=
  let app := mkApp config [] [] false in
  let app := if Enabled (RateLimiter (appConfig app))
             then mkApp (appConfig app) (middleware app) (routerMiddleware app) true
             else app in
  setupDefaultMiddleware app.

Definition applyMiddleware (a : App) : App :=
  fold_left Router_Use (middleware a) a.

(** [Start], up to the point where the server begins to serve. *)
Definition Start (a : App) : App := applyMiddleware a.

Definition middlewareFunc (a : App) (m : Middleware) : HandlerFunc -> HandlerFunc :=
  match m with
  | MwRequestID => requestIDMiddleware a
  | MwSecurityHeaders => securityHeadersMiddleware a
  | MwRateLimiter => rateLimiterMiddleware a
  | MwMetrics => metricsMiddleware a
  | MwLog => logMiddleware a
  | MwRecovery => recoveryMiddleware a
  | MwTimeout timeout => timeoutMiddleware a timeout
  | MwCORS opts => corsMiddleware opts
  end.

(** gorilla/mux wraps the matched route's handler with the router's
    middlewares from the last registered to the first, so the first
    registered runs first. *)
Definition wrap (a : App) (mws : list Middleware) (h : HandlerFunc) : HandlerFunc :=
  fold_right (middlewareFunc a) h mws.

(** A request for a registered route, served by the router.  A panic
    that reaches the server aborts the connection. *)
Definition ServeHTTP (a : App) (handler : Handler) (r : Request) : M unit :=
  wrap a (routerMiddleware a) (Handle a handler) RawWriter r.

(** ** Shutdown *)

Record Lifecycle := mkLifecycle {
  ctxCancelled : bool;       (* a.cancel() was called *)
  cleanupStopped : bool      (* rl.cleanup.Stop() was called *)
}.

(** What [a.server.Shutdown(ctx)] and [a.server.Close()] return: [None]
    is nil.  [Shutdown] returns the context's error when the shutdown
    timeout elapses before the connections have drained. *)
Record ServerEnv := mkServerEnv {
  shutdownErr : option string;
  closeErr : option string
}.

Inductive ShutdownResult :=
| Returned (err : option string)
| Blocked.                    (* waits in a.wg.Wait() *)

Definition gracefulShutdown (a : App) (env : ServerEnv) (lc : Lifecycle) (s : World)
    : ShutdownResult * Lifecycle * World :=
  let lc := mkLifecycle true (cleanupStopped lc) in
  let lc := if rateLimiterSet a then mkLifecycle (ctxCancelled lc) true else lc in
  match shutdownErr env with
  | Some err =>
      let s := set_logs (fun ls => ls ++ [mkLog LError "graceful shutdown failed" [FError (ErrPlain err)]]) s in
      match closeErr env with
      | Some closeErr => (Returned (Some ("forced shutdown error: " +:+ closeErr)), lc, s)
      | None => (Returned (Some ("graceful shutdown failed: " +:+ err)), lc, s)
      end
  | None =>
      if wg s =? 0
      then (Returned None, lc,
            set_logs (fun ls => ls ++ [mkLog LInfo "server shutdown complete" []]) s)
      else (Blocked, lc, s)
  end.

(** ** Notions the statements use *)

(** A sequence of [getLimiter] calls, with the handles they return. *)
Fixpoint acquireAll (rl : RateLimiterConfig) (keys : list string) : M (list nat) :=
  match keys with
  | [] => ret []
  | key :: rest =>
      let* h := getLimiter rl key in
      let* hs := acquireAll rl rest in
      ret (h :: hs)
  end.

(** The bucket the registry holds for a key. *)
Definition bucketOf (s : World) (key : string) : option nat :=
  limiter <$> limiters s !! key.

(** A registry as the code builds it: every entry points at an allocated
    limiter, and no limiter is shared by two keys. *)
Definition registry_wf (s : World) : Prop :=
  (forall k v, limiters s !! k = Some v -> (limiter v < length (limiterHeap s))%nat) /\
  (forall k1 k2 v1 v2,
      limiters s !! k1 = Some v1 -> limiters s !! k2 = Some v2 ->
      limiter v1 = limiter v2 -> k1 = k2).

(** The [*APIError] an error carries, if any, points at an object. *)
Definition pointsTo (s : World) (err : error) : Prop :=
  match errors_As err with
  | Some p => is_Some (errHeap s !! p)
  | None => True
  end.

(** [LogLevel != "debug"]. *)
Definition production (a : App) : bool :=
  negb (String.eqb (LogLevel (appConfig a)) "debug").

(** The gate's question to the registry: the bucket of the request's
    client, and whether it grants a token. *)
Definition consult (a : App) (r : Request) : M bool :=
  let* lim := (if rateLimiterSet a
               then getLimiter (RateLimiter (appConfig a)) (getClientIdentifier a r)
               else panic "invalid memory address or nil pointer dereference") in
  limiterAllow lim.

(** The gate does not ask: rate limiting is disabled, or the client
    identifier is empty under a strategy other than "global". *)
Definition bypasses (a : App) (r : Request) : bool :=
  negb (Enabled (RateLimiter (appConfig a)))
  || (String.eqb (getClientIdentifier a r) ""
      && negb (String.eqb (Strategy (RateLimiter (appConfig a))) "global")).

(** The gate denies the request in world [s]: it asks, and the bucket
    refuses. *)
Definition denies (a : App) (r : Request) (s : World) : Prop :=
  bypasses a r = false /\ exists s', consult a r s = (Ok false, s').

(** The gate lets the request through. *)
Definition grants (a : App) (r : Request) (s : World) : Prop :=
  bypasses a r = true \/ exists s', consult a r s = (Ok true, s').

(** The CORS stage, if the configuration installs one, hands the request
    on. *)
Definition corsPasses (config : Config) (r : Request) : Prop :=
  CORSEnabled (CORS config) = true ->
  exists hdrs, cors (corsOptions (CORS config)) r = CorsPass hdrs.

(** The chain [setupDefaultMiddleware] and [applyMiddleware] leave on the
    router. *)
Definition routerChain (config : Config) : list Middleware :=
  (if CORSEnabled (CORS config) then [MwCORS (corsOptions (CORS config))] else [])
  ++ [MwRequestID; MwSecurityHeaders]
  ++ (if Enabled (RateLimiter config) then [MwRateLimiter] else [])
  ++ (if MetricsEnabled config then [MwMetrics] else [])
  ++ [MwLog; MwRecovery; MwTimeout (HandlerTimeout config)].

(** The order the specification gives for the stages. *)
Definition specifiedOrder : list Stage :=
  [SRequestID; SSecurityHeaders; SRateLimit; SMetrics; SLog; SRecovery; STimeout; SCORS].

(** A computation leaves a component of the world as it found it. *)
Definition keeps {A X : Type} (f : World -> X) (m : M A) : Prop :=
  forall s, f (snd (m s)) = f s.

(** The headers a list of [Header().Set] calls leaves in the response. *)
Definition addHeaders (hdrs : list (string * string)) (r : Response) : Response :=
  mkResponse (fold_left (fun h kv => <[kv.1 := kv.2]> h) hdrs (respHeader r))
             (wroteHeader r) (respBody r).

(** What the client has received: the status line with its headers, and
    the body. *)
Definition sent (s : World) : option (Z * gmap string string) * list Body :=
  (wroteHeader (resp s), respBody (resp s)).

(** Two worlds show the gate the same registry and clock. *)
Definition sameRegistry (s1 s2 : World) : Prop :=
  limiters s1 = limiters s2 /\ limiterHeap s1 = limiterHeap s2 /\ clockReads s1 = clockReads s2.

(** The branch of the gate for a refused request. *)
Definition denyResponse (a : App) (w : ResponseWriter) (r : Request) : M unit :=
  let* requestID := Value_string (rContext r) contextKeyRequestID in
  logf LWarn "rate limit exceeded"
       [FString "client_id" (getClientIdentifier a r); FString "path" (URLPath r);
        FString "request_id" requestID] ;;;
  let* apiErr := NewAPIError 429 "Rate limit exceeded" [] in
  Header_Set w "Retry-After" "60" ;;;
  JSONError a w (ErrAPI apiErr).

(** A handler that, wherever it is called, starts exactly the stages
    [suffix], in this order. *)
Definition extends (h : HandlerFunc) (suffix : list Stage) : Prop :=
  forall w r s, trace (snd (h w r s)) = trace s ++ suffix.

(** The stages that hand on every request. *)
Definition forwards (m : Middleware) : bool :=
  match m with
  | MwRateLimiter | MwCORS _ => false
  | _ => true
  end.

(** A handler that is shown [n] as the counter of [App.wg], whatever the
    counter is when it runs. *)
Definition shownPending (n : Z) (handler : Handler) : Handler :=
  fun s ctx r => handler (set_wg (fun _ => n) s) ctx r.

(** Two handlers that behave alike wherever the counter is [n]. *)
Definition agree (n : Z) (h1 h2 : HandlerFunc) : Prop :=
  forall w r s, wg s = n -> h1 w r s = h2 w r s.

(** ** The registry *)

Lemma getLimiter_run rl key s :
  getLimiter rl key s =
  match limiters s !! key with
  | None =>
      (Ok (length (limiterHeap s)),
       set_limiters (fun m => <[key := mkVisitor (length (limiterHeap s)) (clock (clockReads s))]> m)
         (set_clockReads S
            (set_limiterHeap (fun h => h ++ [NewLimiter (RequestsPerS rl) (Burst rl)]) s)))
  | Some v =>
      (Ok (limiter v),
       set_limiters (fun m => <[key := mkVisitor (limiter v) (clock (clockReads s))]> m)
         (set_clockReads S s))
  end.
Proof.
  unfold getLimiter, bind, gets. destruct (limiters s !! key); reflexivity.
Qed.

Lemma getLimiter_bucket rl key s :
  exists h s', getLimiter rl key s = (Ok h, s') /\ bucketOf s' key = Some h /\
    (forall h0, bucketOf s key = Some h0 -> h = h0) /\
    (forall k, k <> key -> bucketOf s' k = bucketOf s k) /\
    (registry_wf s -> registry_wf s') /\
    (length (limiterHeap s') + size (limiters s) = length (limiterHeap s) + size (limiters s'))%nat.
Proof.
  rewrite getLimiter_run. unfold bucketOf.
  destruct (limiters s !! key) as [v|] eqn:E; eexists _, _; (split; [reflexivity|]); simpl.
  - rewrite lookup_insert_eq. split; [done|]. split; [by intros h0 [= ->]|].
    split; [by intros k Hk; rewrite lookup_insert_ne|].
    split.
    + intros [Hb Hi]. split; simpl.
      * intros k v0. rewrite lookup_insert. case_decide; [intros [= <-]; simpl; eauto|eauto].
      * intros k1 k2 v1 v2. rewrite !lookup_insert.
        repeat case_decide; subst; try done; intros; simplify_eq/=; eauto.
    + rewrite map_size_insert_Some; [lia|eauto].
  - rewrite lookup_insert_eq. split; [done|]. split; [done|].
    split; [by intros k Hk; rewrite lookup_insert_ne|].
    split.
    + intros [Hb Hi]. split; simpl.
      * intros k v0. rewrite lookup_insert, length_app. simpl.
        case_decide; [intros [= <-]; simpl; lia|intros Hk; apply Hb in Hk; lia].
      * intros k1 k2 v1 v2. rewrite !lookup_insert.
        repeat case_decide; subst; try done; intros G1 G2 G3; simplify_eq/=; eauto.
        -- apply Hb in G2. lia.
        -- apply Hb in G1. lia.
    + rewrite map_size_insert_None by done. rewrite length_app. simpl. lia.
Qed.

Lemma acquireAll_spec rl keys : forall s,
  exists hs s',
    acquireAll rl keys s = (Ok hs, s') /\
    length hs = length keys /\
    (forall i key h, keys !! i = Some key -> hs !! i = Some h -> bucketOf s' key = Some h) /\
    (forall key h0, bucketOf s key = Some h0 -> bucketOf s' key = Some h0) /\
    (registry_wf s -> registry_wf s') /\
    (length (limiterHeap s') + size (limiters s) = length (limiterHeap s) + size (limiters s'))%nat.
Proof.
  induction keys as [|key rest IH]; intros s.
  - exists [], s. simpl. split; [reflexivity|]. split; [reflexivity|].
    split; [intros i key h Hi; by rewrite lookup_nil in Hi|].
    split; [done|]. split; [done|]. lia.
  - destruct (getLimiter_bucket rl key s) as (h & s1 & Hrun & Hnew & Hold & Hother & Hwf & Hcount).
    destruct (IH s1) as (hs & s2 & Hrest & Hlen & Hret & Hstable & Hwf' & Hcount').
    exists (h :: hs), s2. simpl. unfold bind at 1. rewrite Hrun.
    unfold bind at 1. rewrite Hrest. unfold ret.
    split; [reflexivity|]. split; [simpl; by rewrite Hlen|].
    split; [|split; [|split]].
    + intros [|i] k h'; simpl.
      * intros [= <-] [= <-]. by apply Hstable.
      * apply Hret.
    + intros k h0 Hk. apply Hstable.
      destruct (decide (k = key)) as [->|Hne].
      * by rewrite Hnew, (Hold _ Hk).
      * by rewrite Hother.
    + intros Hs. apply Hwf', Hwf, Hs.
    + lia.
Qed.

(** C5. Any sequence of [getLimiter] calls returns, for equal keys, the
    same bucket: the one the first call for the key returned (or the one
    the registry already held for it).  Every bucket handed out is the one
    the registry holds for the key afterwards; distinct keys never share a
    bucket, and exactly one bucket is allocated per key that was new, so the
    registry holds one bucket per distinct key. *)
Theorem C5_singleton_per_key rl keys s :
  registry_wf s ->
  exists hs s',
    acquireAll rl keys s = (Ok hs, s') /\
    length hs = length keys /\
    (forall i j key hi hj,
        keys !! i = Some key -> keys !! j = Some key ->
        hs !! i = Some hi -> hs !! j = Some hj -> hi = hj) /\
    (forall i key h, keys !! i = Some key -> hs !! i = Some h -> bucketOf s' key = Some h) /\
    (forall i key h h0, keys !! i = Some key -> hs !! i = Some h ->
        bucketOf s key = Some h0 -> h = h0) /\
    (forall k1 k2 h, bucketOf s' k1 = Some h -> bucketOf s' k2 = Some h -> k1 = k2) /\
    (length (limiterHeap s') - length (limiterHeap s) = size (limiters s') - size (limiters s))%nat.
Proof.
  intros Hwf.
  destruct (acquireAll_spec rl keys s) as (hs & s' & Hrun & Hlen & Hret & Hstable & Hwf' & Hcount).
  exists hs, s'. split; [done|]. split; [done|].
  split; [|split; [|split; [|split]]].
  - intros i j key hi hj Hi Hj Hhi Hhj.
    pose proof (Hret _ _ _ Hi Hhi) as E1. pose proof (Hret _ _ _ Hj Hhj) as E2. congruence.
  - exact Hret.
  - intros i key h h0 Hi Hh H0.
    pose proof (Hret _ _ _ Hi Hh) as E1. pose proof (Hstable _ _ H0) as E2. congruence.
  - destruct (Hwf' Hwf) as [_ Hinj]. intros k1 k2 h. unfold bucketOf.
    destruct (limiters s' !! k1) as [v1|] eqn:E1; [|done].
    destruct (limiters s' !! k2) as [v2|] eqn:E2; [|done].
    simpl. intros [= G1] [= G2]. eapply Hinj; eauto. congruence.
  - lia.
Qed.

(** *** The evictor *)

Lemma sweep_fold_lookup rl now (m0 m : gmap string visitorLimiter) k :
  map_fold (fun key v acc => if TTL rl <? now - lastSeen v then delete key acc else acc) m0 m !! k
  = match m !! k with
    | Some v => if TTL rl <? now - lastSeen v then None else m0 !! k
    | None => m0 !! k
    end.
Proof.
  revert m. apply (map_fold_weak_ind (fun (r : gmap string visitorLimiter) m =>
    r !! k = match m !! k with
             | Some v => if TTL rl <? now - lastSeen v then None else m0 !! k
             | None => m0 !! k
             end)).
  - by rewrite lookup_empty.
  - intros i x m r Hi IH. rewrite lookup_insert. case_decide as Hik.
    + subst i. rewrite Hi in IH. destruct (TTL rl <? now - lastSeen x).
      * apply lookup_delete_eq.
      * exact IH.
    + destruct (TTL rl <? now - lastSeen x); [rewrite lookup_delete_ne by done|]; exact IH.
Qed.

(** C6. After one sweep at time [now], the registry holds exactly the
    entries it held before whose idle time [now - lastSeen] does not exceed
    the ttl, each unchanged; every entry idle for longer is gone. *)
Theorem C6_sweep_removes_exactly_stale rl now s key :
  limiters (snd (cleanupStaleVisitors rl now s)) !! key =
  match limiters s !! key with
  | Some v => if TTL rl <? now - lastSeen v then None else Some v
  | None => None
  end.
Proof.
  unfold cleanupStaleVisitors, modify, sweep. simpl.
  rewrite sweep_fold_lookup. destruct (limiters s !! key) as [v|] eqn:E; reflexivity.
Qed.

(** ** Error normalisation *)

Lemma set_errHeap_ext (f g : list APIError -> list APIError) (s : World) :
  f (errHeap s) = g (errHeap s) -> set_errHeap f s = set_errHeap g s.
Proof. unfold set_errHeap. by intros ->. Qed.

Lemma set_errHeap_twice (f g : list APIError -> list APIError) (s : World) :
  set_errHeap f (set_errHeap g s) = set_errHeap (fun h => f (g h)) s.
Proof. reflexivity. Qed.

(** [normalizeError] on an error that carries an [*APIError]: the object
    is updated where it lives and its pointer is returned. *)
Lemma normalizeError_found a err requestID s p e0 :
  errors_As err = Some p ->
  errHeap s !! p = Some e0 ->
  normalizeError a err requestID s =
  (Ok p, set_errHeap (fun h =>
     <[p := mkAPIError (Code e0) (Message e0)
              (if production a then None else Details e0) requestID]> h) s).
Proof.
  intros Has Hp. unfold normalizeError, production. rewrite Has.
  assert (Hlt : (p < length (errHeap s))%nat) by (apply lookup_lt_is_Some; eauto).
  unfold bind, ret, storeAPIError. rewrite Hp. simpl.
  destruct (negb (String.eqb (LogLevel (appConfig a)) "debug")); simpl.
  - rewrite list_lookup_insert_eq by done. simpl. f_equal.
    rewrite set_errHeap_twice. apply set_errHeap_ext. apply list_insert_insert_eq.
  - reflexivity.
Qed.

(** [normalizeError] on any other error: a new 500 object. *)
Lemma normalizeError_fresh a err requestID s :
  errors_As err = None ->
  normalizeError a err requestID s =
  (Ok (length (errHeap s)),
   set_errHeap (fun h => h ++ [mkAPIError 500 "internal server error" None requestID]) s).
Proof.
  intros Has. unfold normalizeError. rewrite Has.
  unfold bind, ret, storeAPIError, NewAPIError. simpl.
  rewrite lookup_app_r by lia. rewrite Nat.sub_diag. simpl.
  assert (E : forall x : APIError,
             <[length (errHeap s) := x]> (errHeap s ++ [mkAPIError 500 "internal server error" None ""])
             = errHeap s ++ [x]).
  { intros x. rewrite insert_app_r_alt by lia. by rewrite Nat.sub_diag. }
  destruct (negb (String.eqb (LogLevel (appConfig a)) "debug")); simpl.
  - rewrite E. rewrite lookup_app_r by lia. rewrite Nat.sub_diag. simpl.
    f_equal. rewrite !set_errHeap_twice. apply set_errHeap_ext. rewrite E.
    rewrite insert_app_r_alt by lia. by rewrite Nat.sub_diag.
  - f_equal. rewrite set_errHeap_twice. apply set_errHeap_ext. apply E.
Qed.

Lemma encodeAPIError_no_details e j :
  Details e = None -> ~ In ("details", j) (encodeAPIError e).
Proof.
  intros Hd. unfold encodeAPIError. rewrite Hd. simpl.
  destruct (String.eqb (RequestID e) ""); simpl; intros H;
    repeat (destruct H as [H|H]; [discriminate H|]); exact H.
Qed.

(** C9. Outside debug mode the error [normalizeError] hands back for
    writing has no details, whatever error came in: an [APIError] built by
    a caller keeps its code and message (a 4xx validation failure stays a
    4xx) but loses the details attached to it, and the encoded body has no
    [details] field. *)
Theorem C9_details_removed_outside_debug a err requestID s :
  LogLevel (appConfig a) <> "debug" ->
  pointsTo s err ->
  exists p s' e,
    normalizeError a err requestID s = (Ok p, s') /\
    errHeap s' !! p = Some e /\
    Details e = None /\
    (forall j, ~ In ("details", j) (encodeAPIError e)) /\
    (forall p0 e0, errors_As err = Some p0 -> errHeap s !! p0 = Some e0 ->
        p = p0 /\ Code e = Code e0 /\ Message e = Message e0).
Proof.
  intros Hlevel Hvalid.
  assert (Hprod : production a = true).
  { unfold production. apply negb_true_iff. apply String.eqb_neq. exact Hlevel. }
  unfold pointsTo in Hvalid. destruct (errors_As err) as [p|] eqn:Has.
  - destruct Hvalid as [e0 He0].
    eexists p, _, _. rewrite (normalizeError_found a err requestID s p e0 Has He0).
    rewrite Hprod. split; [reflexivity|]. simpl.
    split; [apply list_lookup_insert_eq, lookup_lt_is_Some; eauto|].
    split; [reflexivity|].
    split; [intros j; by apply encodeAPIError_no_details|].
    intros p0 e1 [= <-] He1. rewrite He0 in He1. injection He1 as <-. done.
  - eexists _, _, _. rewrite (normalizeError_fresh a err requestID s Has).
    split; [reflexivity|]. simpl.
    split; [rewrite lookup_app_r by lia; by rewrite Nat.sub_diag|].
    split; [reflexivity|].
    split; [intros j; by apply encodeAPIError_no_details|].
    intros p0 e0 Hp0. discriminate Hp0.
Qed.

(** ** Frame properties *)

Lemma keeps_ret {A X} (f : World -> X) (a : A) : keeps f (ret a).
Proof. intros s. reflexivity. Qed.

Lemma keeps_panic {A X} (f : World -> X) v : keeps f (@panic A v).
Proof. intros s. reflexivity. Qed.

Lemma keeps_gets {A X} (f : World -> X) (g : World -> A) : keeps f (gets g).
Proof. intros s. reflexivity. Qed.

Lemma keeps_modify {X} (f : World -> X) (g : World -> World) :
  (forall s, f (g s) = f s) -> keeps f (modify g).
Proof. intros H s. apply H. Qed.

Lemma keeps_bind {A B X} (f : World -> X) (m : M A) (k : A -> M B) :
  keeps f m -> (forall a, keeps f (k a)) -> keeps f (bind m k).
Proof.
  intros Hm Hk s. unfold bind. specialize (Hm s).
  destruct (m s) as [[a|v] s1]; simpl in *.
  - rewrite <- Hm. apply Hk.
  - exact Hm.
Qed.

Lemma keeps_deferRecover {X} (f : World -> X) (m : M unit) (k : string -> M unit) :
  keeps f m -> (forall v, keeps f (k v)) -> keeps f (deferRecover m k).
Proof.
  intros Hm Hk s. unfold deferRecover. specialize (Hm s).
  destruct (m s) as [[a|v] s1]; simpl in *.
  - exact Hm.
  - rewrite <- Hm. apply Hk.
Qed.

(** For a computation given as a function of the world. *)
Ltac keeps_prim :=
  let s := fresh "s" in
  intros s; cbv beta delta [Now xid_New raw_WriteHeader newLoggingResponseWriter NewAPIError
                             loadAPIError storeAPIError allocLimiter];
  cbv zeta;
  repeat case_match; reflexivity.

Ltac keeps_step :=
  first
    [ solve [auto with frame]
    | apply keeps_ret | apply keeps_panic | apply keeps_gets
    | apply keeps_modify; intros ?; reflexivity
    | apply keeps_bind; [|intros ?]
    | apply keeps_deferRecover; [|intros ?]
    | match goal with
      | |- keeps _ (match ?x with _ => _ end) => destruct x
      end
    | solve [keeps_prim] ].

Create HintDb frame.

Ltac keeps_auto := repeat keeps_step.

Lemma WriteHeader_keeps_trace w code : keeps trace (WriteHeader w code).
Proof. induction w; simpl; keeps_auto. Qed.
Lemma WriteHeader_keeps_wg w code : keeps wg (WriteHeader w code).
Proof. induction w; simpl; keeps_auto. Qed.
#[local] Hint Resolve WriteHeader_keeps_trace WriteHeader_keeps_wg : frame.

Lemma setHeaders_keeps_trace w hdrs : keeps trace (setHeaders w hdrs).
Proof. induction hdrs as [|[k v] rest IH]; simpl; unfold Header_Set; keeps_auto. Qed.
Lemma setHeaders_keeps_wg w hdrs : keeps wg (setHeaders w hdrs).
Proof. induction hdrs as [|[k v] rest IH]; simpl; unfold Header_Set; keeps_auto. Qed.
#[local] Hint Resolve setHeaders_keeps_trace setHeaders_keeps_wg : frame.

Lemma runOps_keeps_trace w ops : keeps trace (runOps w ops).
Proof. induction ops as [|[k v|code|data] rest IH]; simpl; unfold Header_Set, Write; keeps_auto. Qed.
Lemma runOps_keeps_wg w ops : keeps wg (runOps w ops).
Proof. induction ops as [|[k v|code|data] rest IH]; simpl; unfold Header_Set, Write; keeps_auto. Qed.
#[local] Hint Resolve runOps_keeps_trace runOps_keeps_wg : frame.

Lemma handleError_keeps_trace a w err : keeps trace (handleError a w err).
Proof.
  unfold handleError, getRequestIDFromContext, normalizeError, logf, Header_Set, Write.
  keeps_auto.
Qed.
Lemma handleError_keeps_wg a w err : keeps wg (handleError a w err).
Proof.
  unfold handleError, getRequestIDFromContext, normalizeError, logf, Header_Set, Write.
  keeps_auto.
Qed.
#[local] Hint Resolve handleError_keeps_trace handleError_keeps_wg : frame.

Lemma consult_keeps_trace a r : keeps trace (consult a r).
Proof.
  unfold consult, getLimiter, limiterAllow. keeps_auto.
Qed.
Lemma consult_keeps_wg a r : keeps wg (consult a r).
Proof.
  unfold consult, getLimiter, limiterAllow. keeps_auto.
Qed.
Lemma consult_keeps_resp a r : keeps resp (consult a r).
Proof.
  unfold consult, getLimiter, limiterAllow. keeps_auto.
Qed.
#[local] Hint Resolve consult_keeps_trace consult_keeps_wg consult_keeps_resp : frame.
(** ** The rate-limit gate *)

Lemma gate_unfold a next w r s :
  rateLimiterMiddleware a next w r s =
  (enter SRateLimit ;;;
   if bypasses a r then next w r
   else let* allowed := consult a r in
        if negb allowed then denyResponse a w r else next w r) s.
Proof.
  unfold rateLimiterMiddleware, bypasses, consult, denyResponse, bind, enter, modify. simpl.
  destruct (Enabled (RateLimiter (appConfig a))); simpl; [|reflexivity].
  destruct (String.eqb (getClientIdentifier a r) "" &&
            negb (String.eqb (Strategy (RateLimiter (appConfig a))) "global")); [reflexivity|].
  destruct (rateLimiterSet a); [|reflexivity].
  destruct (getLimiter _ _ _) as [[lim|v] s1]; [|reflexivity].
  destruct (limiterAllow lim s1) as [[[|]|v] s2]; reflexivity.
Qed.

Lemma gate_bypass a next w r s :
  bypasses a r = true ->
  rateLimiterMiddleware a next w r s = next w r (set_trace (fun t => t ++ [SRateLimit]) s).
Proof. intros Hb. rewrite gate_unfold. unfold bind, enter, modify. by rewrite Hb. Qed.

Lemma gate_verdict a next w r s b s1 :
  bypasses a r = false ->
  consult a r (set_trace (fun t => t ++ [SRateLimit]) s) = (Ok b, s1) ->
  rateLimiterMiddleware a next w r s =
  if b then next w r s1 else denyResponse a w r s1.
Proof.
  intros Hb Hc. rewrite gate_unfold. unfold bind at 1, enter, modify. rewrite Hb.
  unfold bind at 1. rewrite Hc. by destruct b.
Qed.

(** What the gate is told depends on the registry and the clock only. *)
Lemma consult_sameRegistry a r s1 s2 :
  sameRegistry s1 s2 ->
  fst (consult a r s1) = fst (consult a r s2) /\
  sameRegistry (snd (consult a r s1)) (snd (consult a r s2)).
Proof.
  destruct s1 as [rs1 st1 lg1 mt1 lm1 lh1 eh1 cr1 xr1 wg1 tr1].
  destruct s2 as [rs2 st2 lg2 mt2 lm2 lh2 eh2 cr2 xr2 wg2 tr2].
  unfold sameRegistry. simpl. intros (-> & -> & ->).
  unfold consult, getLimiter, limiterAllow, gets, Now, allocLimiter, modify, ret, panic, bind.
  destruct (rateLimiterSet a); simpl; [|by repeat split].
  destruct (lm2 !! getClientIdentifier a r) as [v|]; simpl.
  - destruct (lh2 !! limiter v) as [l|]; simpl; [|by repeat split].
    destruct (Allow l _) as [ok l']. by repeat split.
  - rewrite lookup_app_r by lia. rewrite Nat.sub_diag. simpl.
    destruct (Allow _ _) as [ok l']. by repeat split.
Qed.

Lemma consult_transfer a r s1 s2 b s1' :
  sameRegistry s1 s2 ->
  consult a r s1 = (Ok b, s1') ->
  exists s2', consult a r s2 = (Ok b, s2').
Proof.
  intros Hs Hc. destruct (consult_sameRegistry a r s1 s2 Hs) as [Hfst _].
  rewrite Hc in Hfst. simpl in Hfst.
  destruct (consult a r s2) as [res s2']. simpl in Hfst. subst res. eauto.
Qed.

Lemma getClientIdentifier_token_empty a r :
  Strategy (RateLimiter (appConfig a)) = "token" ->
  getClientIdentifier a r = Header_Get r "Authorization".
Proof. intros Hs. unfold getClientIdentifier. by rewrite Hs. Qed.

(** C7, as the code has it.  Under the "token" strategy the client
    identifier is the raw Authorization header, and a request whose header
    is empty is not rate-limited: the gate hands it to the next stage in a
    world whose registry, limiters and clock it has not touched. *)
Theorem C7_empty_credential_skips_the_gate a next w r s :
  Strategy (RateLimiter (appConfig a)) = "token" ->
  Header_Get r "Authorization" = "" ->
  getClientIdentifier a r = "" /\
  rateLimiterMiddleware a next w r s = next w r (set_trace (fun t => t ++ [SRateLimit]) s).
Proof.
  intros Hs Hh.
  assert (Hid : getClientIdentifier a r = "")
    by (by rewrite getClientIdentifier_token_empty, Hh).
  split; [exact Hid|]. apply gate_bypass.
  unfold bypasses. rewrite Hid, Hs. simpl. apply orb_true_r.
Qed.

(** ** The chain on the router *)

Lemma Start_NewApp config :
  Start (NewApp config) =
  mkApp config
    ([MwRequestID; MwSecurityHeaders]
     ++ (if Enabled (RateLimiter config) then [MwRateLimiter] else [])
     ++ (if MetricsEnabled config then [MwMetrics] else [])
     ++ [MwLog; MwRecovery; MwTimeout (HandlerTimeout config)])
    (routerChain config)
    (Enabled (RateLimiter config)).
Proof.
  destruct config as [ll me ht st [en rps bu ttl str] [ce ao am ah eh ac ma]].
  destruct en, me, ce; reflexivity.
Qed.

Lemma setHeaders_run w hdrs : forall s,
  setHeaders w hdrs s = (Ok tt, set_resp (addHeaders hdrs) s).
Proof.
  induction hdrs as [|[k v] rest IH]; intros s; simpl.
  - by destruct s as [[] ].
  - unfold bind, Header_Set, modify. rewrite IH. reflexivity.
Qed.

(** The stages before the gate hand the request on, with its id in the
    context and in the response header, and leave the registry, the clock
    and what was sent so far alone. *)
Lemma prefix_run a config r s :
  corsPasses config r ->
  exists s1,
    (forall rest (h : HandlerFunc),
      wrap a ((if CORSEnabled (CORS config) then [MwCORS (corsOptions (CORS config))] else [])
              ++ [MwRequestID; MwSecurityHeaders] ++ rest) h RawWriter r s
      = wrap a rest h RawWriter
          (WithContext r (WithValue (rContext r) contextKeyRequestID (VString (xid (xidReads s))))) s1) /\
    sameRegistry s s1 /\
    trace s1 = trace s ++ (if CORSEnabled (CORS config) then [SCORS] else [])
                       ++ [SRequestID; SSecurityHeaders] /\
    sent s1 = sent s /\
    wg s1 = wg s /\
    errHeap s1 = errHeap s /\
    respHeader (resp s1) !! "X-Request-ID" = Some (xid (xidReads s)).
Proof.
  intros Hcors. unfold corsPasses in Hcors.
  destruct (CORSEnabled (CORS config)).
  - destruct (Hcors eq_refl) as [hdrs Hpass].
    eexists. split.
    + intros rest h. simpl. unfold corsMiddleware at 1. unfold bind at 1, enter, modify. rewrite Hpass.
      unfold bind at 1. rewrite setHeaders_run.
      unfold requestIDMiddleware, securityHeadersMiddleware, bind, enter, modify, xid_New,
        Header_Set. simpl. reflexivity.
    + unfold sameRegistry, sent. simpl. repeat split; try reflexivity.
      * by rewrite <- !app_assoc.
      * repeat (rewrite lookup_insert_ne by discriminate). apply lookup_insert_eq.
  - eexists. split.
    + intros rest h. simpl. unfold requestIDMiddleware, securityHeadersMiddleware, bind, enter, modify, xid_New,
        Header_Set. simpl. reflexivity.
    + unfold sameRegistry, sent. simpl. repeat split; try reflexivity.
      * by rewrite <- !app_assoc.
      * repeat (rewrite lookup_insert_ne by discriminate). apply lookup_insert_eq.
Qed.

Lemma denyResponse_raw a r s requestID :
  Value (rContext r) contextKeyRequestID = Some (VString requestID) ->
  exists s',
    denyResponse a RawWriter r s =
      (Panic "interface conversion: http.ResponseWriter is not *micro.loggingResponseWriter", s') /\
    trace s' = trace s /\ sent s' = sent s /\ wg s' = wg s.
Proof.
  intros Hid. eexists. split.
  - unfold denyResponse, Value_string. rewrite Hid.
    unfold JSONError, handleError, getRequestIDFromContext, bind, ret, logf, modify,
      NewAPIError, Header_Set, panic. simpl. reflexivity.
  - by repeat split.
Qed.

Lemma denyResponse_keeps_trace a w r : keeps trace (denyResponse a w r).
Proof. unfold denyResponse, Value_string, logf, Header_Set, JSONError. keeps_auto. Qed.

(** A request the gate denies, served by the chain [NewApp] and [Start]
    build: the stages before the gate run, the gate asks, and what is left
    is the gate's refusal branch, on the server's own writer. *)
Lemma serve_denied config r s :
  corsPasses config r ->
  denies (Start (NewApp config)) r s ->
  exists r' s2 requestID,
    (forall handler,
       ServeHTTP (Start (NewApp config)) handler r s =
       denyResponse (Start (NewApp config)) RawWriter r' s2) /\
    Value (rContext r') contextKeyRequestID = Some (VString requestID) /\
    trace s2 = trace s ++ (if CORSEnabled (CORS config) then [SCORS] else [])
                       ++ [SRequestID; SSecurityHeaders; SRateLimit] /\
    sent s2 = sent s /\ wg s2 = wg s.
Proof.
  intros Hcors [Hby [sd Hdeny]].
  rewrite Start_NewApp in *. set (a := mkApp _ _ _ _) in *.
  assert (Hen : Enabled (RateLimiter config) = true).
  { unfold bypasses in Hby. simpl in Hby. by destruct (Enabled (RateLimiter config)). }
  destruct (prefix_run a config r s Hcors) as (s1 & Hrun & Hreg & Htrace & Hsent & Hwg & _ & _).
  set (r' := WithContext r _) in Hrun.
  destruct (consult_transfer a r s (set_trace (fun t => t ++ [SRateLimit]) s1) false sd)
    as [s2 Hc]; [exact Hreg|exact Hdeny|].
  exists r', s2, (xid (xidReads s)).
  split; [|split; [reflexivity|]].
  - intros handler. unfold ServeHTTP. simpl routerMiddleware. unfold routerChain.
    rewrite Hrun. rewrite Hen. simpl.
    apply (gate_verdict a _ RawWriter r' s1 false s2); [exact Hby|exact Hc].
  - pose proof (consult_keeps_trace a r (set_trace (fun t => t ++ [SRateLimit]) s1)) as Kt.
    pose proof (consult_keeps_resp a r (set_trace (fun t => t ++ [SRateLimit]) s1)) as Kr.
    pose proof (consult_keeps_wg a r (set_trace (fun t => t ++ [SRateLimit]) s1)) as Kw.
    rewrite Hc in Kt, Kr, Kw. simpl in Kt, Kr, Kw.
    split; [|split].
    + rewrite Kt, Htrace. rewrite <- !app_assoc. reflexivity.
    + unfold sent in *. by rewrite Kr.
    + by rewrite Kw.
Qed.

(** C1. What the code does for a request the gate denies: the refusal
    branch calls [handleError] with the writer the server handed over, the
    type assertion in [getRequestIDFromContext] fails, and the request ends
    in a panic.  Nothing more is sent than had been sent before: no 429
    status, no Retry-After header on the wire, no JSON body. *)
Theorem C1_denied_request_panics_unanswered config handler r s :
  corsPasses config r ->
  denies (Start (NewApp config)) r s ->
  exists v s',
    ServeHTTP (Start (NewApp config)) handler r s = (Panic v, s') /\
    sent s' = sent s.
Proof.
  intros Hcors Hdeny.
  destruct (serve_denied config r s Hcors Hdeny)
    as (r' & s2 & rid & Hserve & Hid & _ & Hsent & _).
  destruct (denyResponse_raw (Start (NewApp config)) r' s2 rid Hid) as (s' & Hrun & _ & Hs & _).
  eexists _, s'. rewrite Hserve. split; [exact Hrun|]. by rewrite Hs.
Qed.

(** C2. A request the gate denies stops at the gate.  The stages that
    started are those in front of the gate and the gate; none behind it
    started, the terminal handler was not invoked (its invocations in the
    record are as many as before), and the outcome does not depend on which
    handler the route has. *)
Theorem C2_denied_request_halts_at_gate config handler r s :
  corsPasses config r ->
  denies (Start (NewApp config)) r s ->
  let s' := snd (ServeHTTP (Start (NewApp config)) handler r s) in
  trace s' = trace s ++ (if CORSEnabled (CORS config) then [SCORS] else [])
                     ++ [SRequestID; SSecurityHeaders; SRateLimit] /\
  count_occ Stage_eq_dec (trace s') STerminal = count_occ Stage_eq_dec (trace s) STerminal /\
  (forall handler',
      ServeHTTP (Start (NewApp config)) handler' r s =
      ServeHTTP (Start (NewApp config)) handler r s).
Proof.
  intros Hcors Hdeny.
  destruct (serve_denied config r s Hcors Hdeny)
    as (r' & s2 & rid & Hserve & Hid & Htrace & _ & _).
  simpl. rewrite Hserve.
  assert (Ht : trace (snd (denyResponse (Start (NewApp config)) RawWriter r' s2))
               = trace s ++ (if CORSEnabled (CORS config) then [SCORS] else [])
                         ++ [SRequestID; SSecurityHeaders; SRateLimit]).
  { rewrite denyResponse_keeps_trace. exact Htrace. }
  split; [exact Ht|]. split.
  - rewrite Ht. rewrite !count_occ_app.
    destruct (CORSEnabled (CORS config)); simpl; lia.
  - intros handler'. by rewrite !Hserve.
Qed.
(** ** The order of the stages *)

Lemma bind_trace {A B} (m : M A) (k : A -> M B) s :
  (forall x, keeps trace (k x)) ->
  trace (snd (bind m k s)) = trace (snd (m s)).
Proof.
  intros Hk. unfold bind. destruct (m s) as [[x|v] s1]; simpl; [apply Hk|reflexivity].
Qed.

Lemma Handle_extends a handler : extends (Handle a handler) [STerminal].
Proof.
  intros w r s. unfold Handle. unfold bind at 1, enter, modify.
  change (trace s ++ [STerminal])
    with (trace (set_trace (fun t => t ++ [STerminal]) s)).
  generalize (set_trace (fun t => t ++ [STerminal]) s). clear s.
  change (keeps trace
    (let* act := gets (fun s => handler s (rContext r) r) in
     modify (set_errHeap (fun h => h ++ hNewErrors act)) ;;;
     runOps w (hOps act) ;;;
     match hReturn act with
     | ReturnNil => ret tt
     | ReturnErr err => handleError a w err
     | Panics v => panic v
     end)).
  keeps_auto.
Qed.

Lemma forwards_extends a m next suffix :
  forwards m = true ->
  extends next suffix ->
  extends (middlewareFunc a m next) (stageOf m :: suffix).
Proof.
  intros Hf Hnext w r s.
  destruct m; try discriminate Hf; simpl.
  - unfold requestIDMiddleware, bind, enter, modify, xid_New, Header_Set. simpl.
    rewrite Hnext. simpl. by rewrite <- app_assoc.
  - unfold securityHeadersMiddleware, bind, enter, modify, Header_Set. simpl.
    rewrite Hnext. simpl. by rewrite <- app_assoc.
  - unfold metricsMiddleware. unfold bind at 1 2 3, enter, modify, Now, newLoggingResponseWriter.
    simpl. rewrite bind_trace.
    + rewrite Hnext. simpl. by rewrite <- app_assoc.
    + intros x. unfold Since, statusCode, observe. keeps_auto.
  - unfold logMiddleware. unfold bind at 1 2 3, enter, modify, Now, newLoggingResponseWriter.
    simpl. rewrite bind_trace.
    + rewrite Hnext. simpl. by rewrite <- app_assoc.
    + intros x. unfold Since, statusCode, lrwRequestID, Value_string, logf. keeps_auto.
  - unfold recoveryMiddleware. unfold bind at 1, enter, modify.
    unfold deferRecover.
    pose proof (Hnext w r (set_trace (fun t => t ++ [SRecovery]) s)) as Hn.
    destruct (next w r (set_trace (fun t => t ++ [SRecovery]) s)) as [[x|v] s1]; simpl in *.
    + rewrite Hn. by rewrite <- app_assoc.
    + assert (K : keeps trace
        (let* requestID := Value_string (rContext r) contextKeyRequestID in
         logf LError "panic recovered" [FAny "error" v; FString "request_id" requestID] ;;;
         let* apiErr := NewAPIError 500 "Internal server error" [] in
         handleError a w (ErrAPI apiErr))).
      { unfold Value_string, logf. keeps_auto. }
      rewrite K, Hn. by rewrite <- app_assoc.
  - unfold timeoutMiddleware, bind, enter, modify, Now. simpl.
    rewrite Hnext. simpl. by rewrite <- app_assoc.
Qed.

Lemma wrap_extends a mws next suffix :
  forallb forwards mws = true ->
  extends next suffix ->
  extends (wrap a mws next) (map stageOf mws ++ suffix).
Proof.
  induction mws as [|m rest IH]; simpl; intros Hf Hnext; [exact Hnext|].
  apply andb_true_iff in Hf as [Hm Hrest].
  apply forwards_extends; [exact Hm|]. by apply IH.
Qed.

(** C3, as the code has it.  The chain on the router is: the cross-origin
    stage first when CORS is enabled (it is registered on the router while
    the application is built, the others only when it starts), then
    request-id assignment, security headers, the rate-limit gate when rate
    limiting is enabled, metrics capture when metrics are enabled,
    structured logging, panic recovery and deadline enforcement, innermost.
    A request that the CORS stage hands on and the gate lets through starts
    exactly these stages in this order, and the terminal handler last. *)
Theorem C3_stage_order config handler r s :
  corsPasses config r ->
  grants (Start (NewApp config)) r s ->
  routerMiddleware (Start (NewApp config)) = routerChain config /\
  trace (snd (ServeHTTP (Start (NewApp config)) handler r s))
  = trace s ++ map stageOf (routerChain config) ++ [STerminal].
Proof.
  intros Hcors Hadm. rewrite Start_NewApp in *. set (a := mkApp _ _ _ _) in *.
  split; [reflexivity|].
  destruct (prefix_run a config r s Hcors) as (s1 & Hrun & Hreg & Htrace & _).
  unfold ServeHTTP. simpl routerMiddleware. unfold routerChain. rewrite Hrun.
  set (r' := WithContext r _).
  set (inner := (if MetricsEnabled config then [MwMetrics] else [])
                ++ [MwLog; MwRecovery; MwTimeout (HandlerTimeout config)]).
  assert (Hinner : extends (wrap a inner (Handle a handler)) (map stageOf inner ++ [STerminal])).
  { apply wrap_extends; [|apply Handle_extends].
    subst inner. by destruct (MetricsEnabled config). }
  assert (Hgoal : forall t : list Stage,
    t = trace s1 ++ (if Enabled (RateLimiter config) then [SRateLimit] else [])
                 ++ map stageOf inner ++ [STerminal] ->
    t = trace s ++ map stageOf
          ((if CORSEnabled (CORS config) then [MwCORS (corsOptions (CORS config))] else [])
           ++ [MwRequestID; MwSecurityHeaders]
           ++ (if Enabled (RateLimiter config) then [MwRateLimiter] else []) ++ inner)
        ++ [STerminal]).
  { intros t ->. rewrite Htrace.
    destruct (CORSEnabled (CORS config)), (Enabled (RateLimiter config));
      simpl; rewrite <- !app_assoc; reflexivity. }
  apply Hgoal. clear Hgoal.
  destruct (Enabled (RateLimiter config)) eqn:Hen; simpl.
  - destruct (bypasses a r) eqn:Hby.
    + rewrite gate_bypass by exact Hby. rewrite Hinner. simpl.
      by rewrite <- app_assoc.
    + destruct Hadm as [Habs|[sd Hc]]; [congruence|].
      destruct (consult_transfer a r s (set_trace (fun t => t ++ [SRateLimit]) s1) true sd)
        as [s2 Hc2]; [exact Hreg|exact Hc|].
      rewrite (gate_verdict a _ RawWriter r' s1 true s2 Hby Hc2). rewrite Hinner.
      pose proof (consult_keeps_trace a r (set_trace (fun t => t ++ [SRateLimit]) s1)) as Kt.
      rewrite Hc2 in Kt. simpl in Kt. rewrite Kt. by rewrite <- app_assoc.
  - rewrite Hinner. reflexivity.
Qed.
(** ** The pending-request counter *)

Lemma Handle_keeps_wg a handler w r : keeps wg (Handle a handler w r).
Proof. unfold Handle, enter. keeps_auto. Qed.

Lemma middleware_keeps_wg a m (next : HandlerFunc) :
  (forall w r, keeps wg (next w r)) ->
  forall w r, keeps wg (middlewareFunc a m next w r).
Proof.
  intros Hnext w r. destruct m; simpl.
  - unfold requestIDMiddleware, enter, Header_Set. keeps_auto.
  - unfold securityHeadersMiddleware, enter, Header_Set. keeps_auto.
  - unfold rateLimiterMiddleware, enter, getLimiter, limiterAllow, Value_string, logf,
      Header_Set, JSONError. keeps_auto.
  - unfold metricsMiddleware, enter, Since, statusCode, observe. keeps_auto.
  - unfold logMiddleware, enter, Since, statusCode, lrwRequestID, Value_string, logf. keeps_auto.
  - unfold recoveryMiddleware, enter, Value_string, logf. keeps_auto.
  - unfold timeoutMiddleware, enter. keeps_auto.
  - unfold corsMiddleware, enter. keeps_auto.
Qed.

Lemma wrap_keeps_wg a mws (h : HandlerFunc) :
  (forall w r, keeps wg (h w r)) ->
  forall w r, keeps wg (wrap a mws h w r).
Proof.
  intros Hh. induction mws as [|m rest IH]; simpl; [exact Hh|].
  by apply middleware_keeps_wg.
Qed.

Lemma set_wg_same n (s : World) : wg s = n -> set_wg (fun _ => n) s = s.
Proof. destruct s. simpl. by intros ->. Qed.

Lemma bind_agree_k {A B} n (m : M A) (k1 k2 : A -> M B) s :
  keeps wg m -> wg s = n ->
  (forall x s', wg s' = n -> k1 x s' = k2 x s') ->
  bind m k1 s = bind m k2 s.
Proof.
  intros Hm Hs Hk. unfold bind. specialize (Hm s).
  destruct (m s) as [[x|v] s1]; simpl in *; [|reflexivity].
  apply Hk. congruence.
Qed.

Lemma bind_agree_m {A B} (m1 m2 : M A) (k : A -> M B) s :
  m1 s = m2 s -> bind m1 k s = bind m2 k s.
Proof. intros H. unfold bind. by rewrite H. Qed.

Lemma deferRecover_agree (m1 m2 : M unit) k s :
  m1 s = m2 s -> deferRecover m1 k s = deferRecover m2 k s.
Proof. intros H. unfold deferRecover. by rewrite H. Qed.

Ltac agree_step H :=
  first
    [ apply H; assumption
    | reflexivity
    | apply bind_agree_m
    | apply deferRecover_agree
    | eapply bind_agree_k; [solve [keeps_auto] | eassumption | intros ? ? ?]
    | match goal with
      | |- (match ?x with _ => _ end) _ = _ => destruct x
      end ].

Lemma Handle_agree a handler n : agree n (Handle a handler) (Handle a (shownPending n handler)).
Proof.
  intros w r s Hs. unfold Handle, shownPending, bind, enter, modify, gets. simpl.
  rewrite set_wg_same by exact Hs. reflexivity.
Qed.

Lemma middleware_agree a m n next1 next2 :
  agree n next1 next2 -> agree n (middlewareFunc a m next1) (middlewareFunc a m next2).
Proof.
  intros Hnext w r s Hs. destruct m; simpl.
  - unfold requestIDMiddleware, enter, Header_Set. repeat agree_step Hnext.
  - unfold securityHeadersMiddleware, enter, Header_Set. repeat agree_step Hnext.
  - unfold rateLimiterMiddleware, enter, getLimiter, limiterAllow. repeat agree_step Hnext.
  - unfold metricsMiddleware, enter. repeat agree_step Hnext.
  - unfold logMiddleware, enter. repeat agree_step Hnext.
  - unfold recoveryMiddleware, enter. repeat agree_step Hnext.
  - unfold timeoutMiddleware, enter. repeat agree_step Hnext.
  - unfold corsMiddleware, enter. repeat agree_step Hnext.
Qed.

Lemma wrap_agree a mws n h1 h2 :
  agree n h1 h2 -> agree n (wrap a mws h1) (wrap a mws h2).
Proof.
  intros Hh. induction mws as [|m rest IH]; simpl; [exact Hh|].
  by apply middleware_agree.
Qed.

(** C8, as the code has it.  No stage and no route closure touches the
    counter of [App.wg]: whatever the chain, the handler and the request,
    serving leaves the counter as it was, and the handler behaves as if it
    were shown the counter the request found.  [gracefulShutdown] returns nil
    exactly when [server.Shutdown] returned nil and the counter is zero; it
    returns an error when [Shutdown] failed (the shutdown timeout elapsed
    before the connections drained), and otherwise waits. *)
Theorem C8_pending_count_untouched a handler r s env lc :
  wg (snd (ServeHTTP a handler r s)) = wg s /\
  ServeHTTP a handler r s = ServeHTTP a (shownPending (wg s) handler) r s /\
  (fst (fst (gracefulShutdown a env lc s)) = Returned None
     <-> shutdownErr env = None /\ wg s = 0) /\
  (shutdownErr env <> None ->
     exists e, fst (fst (gracefulShutdown a env lc s)) = Returned (Some e)) /\
  (fst (fst (gracefulShutdown a env lc s)) = Blocked
     <-> shutdownErr env = None /\ wg s <> 0).
Proof.
  split.
  - unfold ServeHTTP. apply wrap_keeps_wg. intros w r0. apply Handle_keeps_wg.
  - split; [unfold ServeHTTP;
             apply (wrap_agree a (routerMiddleware a) (wg s) _ _ (Handle_agree a handler (wg s)));
             reflexivity|].
    unfold gracefulShutdown.
    destruct (shutdownErr env) as [err|]; [destruct (closeErr env) as [cerr|]|];
      simpl.
    + split; [split; [discriminate|intros [? _]; discriminate]|].
      split; [eauto|]. split; [discriminate|intros [? _]; discriminate].
    + split; [split; [discriminate|intros [? _]; discriminate]|].
      split; [eauto|]. split; [discriminate|intros [? _]; discriminate].
    + destruct (wg s =? 0) eqn:E; simpl.
      * apply Z.eqb_eq in E.
        split; [split; [done|done]|]. split; [done|].
        split; [discriminate|intros [_ Hn]; done].
      * apply Z.eqb_neq in E.
        split; [split; [discriminate|intros [_ Hz]; done]|]. split; [done|].
        split; done.
Qed.
(** ** The request id in error bodies *)

(** A value stored under a [contextKey] is not found under a string key
    of the same spelling. *)
Lemma Value_other_key_type ctx name v key :
  Value (WithValue ctx (KContextKey name) v) (KString key) = Value ctx (KString key).
Proof. reflexivity. Qed.

Lemma WriteHeader_keeps_errHeap w code : keeps errHeap (WriteHeader w code).
Proof. induction w; simpl; keeps_auto. Qed.

Lemma WriteHeader_keeps_body w code : keeps (fun s => respBody (resp s)) (WriteHeader w code).
Proof. induction w; simpl; keeps_auto. Qed.

Lemma Write_run w b s :
  exists s' status headers,
    Write w b s = (Ok tt, s') /\
    wroteHeader (resp s') = Some (status, headers) /\
    respBody (resp s')
      = respBody (resp s) ++ (if bodyAllowedForStatus status then [b] else []) /\
    errHeap s' = errHeap s.
Proof.
  unfold Write, raw_Write, bind, raw_WriteHeader, ret. simpl.
  destruct (wroteHeader (resp s)) as [[status headers]|] eqn:E; simpl.
  - rewrite E. destruct (bodyAllowedForStatus status) eqn:Hb; simpl;
      eexists _, status, headers; (split; [reflexivity|]); simpl; rewrite ?E, ?Hb;
      repeat split; by rewrite ?app_nil_r.
  - eexists _, 200, _. split; [reflexivity|]. by repeat split.
Qed.

(** C4. What the code does with the request id of an error body.
    [handleError] looks the id up under the string key "request_id", the
    pipeline stores it under [contextKeyRequestID]; a context that holds
    the id only under the latter yields the empty id, so the [APIError]
    that is encoded has an empty [RequestID] and the body no [request_id]
    field, whatever X-Request-ID header the response carries.  The body
    written is that encoding, or nothing when the status sent allows no
    body. *)
Theorem C4_error_body_omits_request_id a cell ctx inner err s :
  Value ctx (KString "request_id") = None ->
  pointsTo s err ->
  exists p e res s',
    handleError a (LoggingWriter cell (Some ctx) inner) err s = (res, s') /\
    errHeap s' !! p = Some e /\
    RequestID e = "" /\
    (forall j, ~ In ("request_id", j) (encodeAPIError e)) /\
    (res = Ok tt ->
     exists status headers,
       wroteHeader (resp s') = Some (status, headers) /\
       respBody (resp s')
         = respBody (resp s) ++ (if bodyAllowedForStatus status
                                 then [BodyJSON (encodeAPIError e)] else [])).
Proof.
  intros Hkey Hvalid.
  assert (Hnorm : exists p s1 e,
            normalizeError a err "" s = (Ok p, s1) /\ errHeap s1 !! p = Some e /\
            RequestID e = "" /\ resp s1 = resp s).
  { unfold pointsTo in Hvalid. destruct (errors_As err) as [p|] eqn:Has.
    - destruct Hvalid as [e0 He0]. eexists p, _, _.
      rewrite (normalizeError_found a err "" s p e0 Has He0). split; [reflexivity|]. simpl.
      split; [apply list_lookup_insert_eq, lookup_lt_is_Some; eauto|]. by split.
    - eexists _, _, _. rewrite (normalizeError_fresh a err "" s Has).
      split; [reflexivity|]. simpl.
      split; [rewrite lookup_app_r by lia; by rewrite Nat.sub_diag|]. by split. }
  destruct Hnorm as (p & s1 & e & Hrun & Hp & Hid & Hresp).
  assert (Hfield : forall j, ~ In ("request_id", j) (encodeAPIError e)).
  { intros j. unfold encodeAPIError. rewrite Hid. simpl.
    rewrite app_nil_r. intros Hin.
    destruct Hin as [Hin|[Hin|Hin]]; try discriminate Hin.
    destruct (Details e) as [d|]; [|exact Hin].
    destruct (bool_decide (d = ∅)); [exact Hin|].
    destruct Hin as [Hin|Hin]; [discriminate Hin|exact Hin]. }
  set (w := LoggingWriter cell (Some ctx) inner).
  set (s2 := set_resp (fun r => mkResponse (<["Content-Type" := "application/json"]> (respHeader r))
                                  (wroteHeader r) (respBody r))
               (set_logs (fun ls => ls ++ [mkLog LError "request error"
                  [FError err; FString "request_id" ""; FInt "status_code" (Code e)]]) s1)).
  assert (Hhandle : handleError a w err s =
                    (WriteHeader w (Code e) ;;; Write w (BodyJSON (encodeAPIError e))) s2).
  { unfold handleError. unfold bind at 1. unfold w at 1, getRequestIDFromContext.
    rewrite Hkey. unfold ret at 1. unfold bind at 1. rewrite Hrun.
    unfold bind at 1, loadAPIError. rewrite Hp.
    unfold bind at 1 2, logf, Header_Set, modify. reflexivity. }
  pose proof (WriteHeader_keeps_errHeap w (Code e) s2) as Kh.
  pose proof (WriteHeader_keeps_body w (Code e) s2) as Kb.
  rewrite Hhandle. unfold bind.
  destruct (WriteHeader w (Code e) s2) as [[[]|v] s3]; simpl in Kh, Kb.
  - destruct (Write_run w (BodyJSON (encodeAPIError e)) s3)
      as (s4 & status & headers & Hw & Hsent & Hbody & Hheap).
    exists p, e, (Ok tt), s4. rewrite Hw. split; [reflexivity|].
    split; [by rewrite Hheap, Kh|]. split; [exact Hid|]. split; [exact Hfield|].
    intros _. exists status, headers. split; [exact Hsent|].
    rewrite Hbody, Kb. subst s2. simpl. by rewrite Hresp.
  - exists p, e, (Panic v), s3. split; [reflexivity|].
    split; [by rewrite Kh|]. split; [exact Hid|]. split; [exact Hfield|].
    intros Habs. discriminate Habs.
Qed.

(** ** The shared error object on the request path *)

(** What [handleError] leaves in the store of error objects is what
    [normalizeError] left there, called with the id the lookup found. *)
Lemma handleError_errHeap a cell ctx inner err s :
  Value ctx (KString "request_id") = None ->
  pointsTo s err ->
  exists p s1 res s',
    normalizeError a err "" s = (Ok p, s1) /\
    handleError a (LoggingWriter cell (Some ctx) inner) err s = (res, s') /\
    errHeap s' = errHeap s1.
Proof.
  intros Hkey Hvalid.
  assert (Hnorm : exists p s1 e,
            normalizeError a err "" s = (Ok p, s1) /\ errHeap s1 !! p = Some e).
  { unfold pointsTo in Hvalid. destruct (errors_As err) as [p|] eqn:Has.
    - destruct Hvalid as [e0 He0]. eexists p, _, _.
      rewrite (normalizeError_found a err "" s p e0 Has He0). split; [reflexivity|]. simpl.
      apply list_lookup_insert_eq, lookup_lt_is_Some; eauto.
    - eexists _, _, _. rewrite (normalizeError_fresh a err "" s Has).
      split; [reflexivity|]. simpl. rewrite lookup_app_r by lia. by rewrite Nat.sub_diag. }
  destruct Hnorm as (p & s1 & e & Hrun & Hp).
  set (w := LoggingWriter cell (Some ctx) inner).
  set (s2 := set_resp (fun r => mkResponse (<["Content-Type" := "application/json"]> (respHeader r))
                                  (wroteHeader r) (respBody r))
               (set_logs (fun ls => ls ++ [mkLog LError "request error"
                  [FError err; FString "request_id" ""; FInt "status_code" (Code e)]]) s1)).
  assert (Hhandle : handleError a w err s =
                    (WriteHeader w (Code e) ;;; Write w (BodyJSON (encodeAPIError e))) s2).
  { unfold handleError. unfold bind at 1. unfold w at 1, getRequestIDFromContext.
    rewrite Hkey. unfold ret at 1. unfold bind at 1. rewrite Hrun.
    unfold bind at 1, loadAPIError. rewrite Hp.
    unfold bind at 1 2, logf, Header_Set, modify. reflexivity. }
  pose proof (WriteHeader_keeps_errHeap w (Code e) s2) as Kh.
  exists p, s1. rewrite Hhandle. unfold bind.
  destruct (WriteHeader w (Code e) s2) as [[[]|v] s3]; simpl in Kh.
  - destruct (Write_run w (BodyJSON (encodeAPIError e)) s3)
      as (s4 & status & headers & Hw & _ & _ & Hheap).
    exists (Ok tt), s4. rewrite Hw. split; [exact Hrun|]. split; [reflexivity|].
    by rewrite Hheap, Kh.
  - exists (Panic v), s3. split; [exact Hrun|]. split; [reflexivity|]. exact Kh.
Qed.

(** C10. What the code does with an error object that is shared.
    [normalizeError] allocates nothing for an error that carries an
    [*APIError]: it returns the pointer it found and writes the request id
    it is given into the object behind it, so that two calls on the same
    object (the package-level [ErrInternalServer] is one) leave it holding
    the id of the later call, and every other object untouched.  But the
    id it is given on the request path is the one [handleError] looked up
    under the string key "request_id"; for a context that holds the
    request's id only under [contextKeyRequestID] that is the empty string:
    after the request the shared object holds the empty id, not the id of
    the request, and nothing was allocated. *)
Theorem C10_normalizeError_mutates_shared_object a err p e0 rid1 rid2 s :
  errors_As err = Some p ->
  errHeap s !! p = Some e0 ->
  (exists s1 s2,
    normalizeError a err rid1 s = (Ok p, s1) /\
    RequestID <$> errHeap s1 !! p = Some rid1 /\
    normalizeError a err rid2 s1 = (Ok p, s2) /\
    RequestID <$> errHeap s2 !! p = Some rid2 /\
    length (errHeap s2) = length (errHeap s) /\
    (forall q, q <> p -> errHeap s2 !! q = errHeap s !! q)) /\
  (forall cell ctx requestID inner,
     Value ctx (KString "request_id") = None ->
     exists res s',
       handleError a
         (LoggingWriter cell (Some (WithValue ctx contextKeyRequestID (VString requestID)))
                        inner) err s = (res, s') /\
       RequestID <$> errHeap s' !! p = Some "" /\
       length (errHeap s') = length (errHeap s) /\
       (forall q, q <> p -> errHeap s' !! q = errHeap s !! q)).
Proof.
  intros Has Hp.
  assert (Hlt : (p < length (errHeap s))%nat) by (apply lookup_lt_is_Some; eauto).
  split.
  - eexists _, _. rewrite (normalizeError_found a err rid1 s p e0 Has Hp).
    split; [reflexivity|]. simpl.
    rewrite list_lookup_insert_eq by done. split; [reflexivity|].
    erewrite normalizeError_found; [|exact Has|simpl; by apply list_lookup_insert_eq].
    split; [reflexivity|]. simpl.
    rewrite list_lookup_insert_eq by (by rewrite length_insert).
    split; [reflexivity|].
    split; [by rewrite !length_insert|].
    intros q Hq. by rewrite !list_lookup_insert_ne.
  - intros cell ctx requestID inner Hkey.
    assert (Hvalid : pointsTo s err) by (unfold pointsTo; rewrite Has; eauto).
    destruct (handleError_errHeap a cell
                (WithValue ctx contextKeyRequestID (VString requestID)) inner err s)
      as (p' & s1 & res & s' & Hnorm & Hrun & Hheap); [exact Hkey|exact Hvalid|].
    rewrite (normalizeError_found a err "" s p e0 Has Hp) in Hnorm.
    injection Hnorm as <- <-.
    exists res, s'. split; [exact Hrun|]. rewrite Hheap. simpl.
    split; [by rewrite list_lookup_insert_eq|].
    split; [by rewrite length_insert|].
    intros q Hq. by rewrite list_lookup_insert_ne.
Qed.

(** * Further properties of the package *)

(** ** The registry and the evictor, together *)

Lemma sweep_lookup rl now (m : gmap string visitorLimiter) key :
  sweep rl now m !! key =
  match m !! key with
  | Some v => if TTL rl <? now - lastSeen v then None else Some v
  | None => None
  end.
Proof.
  unfold sweep. rewrite sweep_fold_lookup.
  destruct (m !! key) as [v|] eqn:E; reflexivity.
Qed.

(** X1. Sweeps compose: a sweep followed by a later one leaves what the
    later one alone would leave (so a sweep repeated at the same time
    changes nothing), and a sweep never adds or alters an entry. *)
Theorem sweep_then_later_sweep rl t1 t2 (m : gmap string visitorLimiter) :
  t1 <= t2 ->
  sweep rl t2 (sweep rl t1 m) = sweep rl t2 m /\
  sweep rl t1 (sweep rl t1 m) = sweep rl t1 m /\
  sweep rl t1 m ⊆ m.
Proof.
  intros Hle.
  assert (Hcomp : forall a b, a <= b -> sweep rl b (sweep rl a m) = sweep rl b m).
  { intros a b Hab. apply map_eq. intros key. rewrite !sweep_lookup.
    destruct (m !! key) as [v|]; [|reflexivity].
    destruct (TTL rl <? a - lastSeen v) eqn:Ea; [|reflexivity].
    destruct (TTL rl <? b - lastSeen v) eqn:Eb; [reflexivity|].
    apply Z.ltb_lt in Ea. apply Z.ltb_ge in Eb. lia. }
  split; [by apply Hcomp|]. split; [apply Hcomp; lia|].
  apply map_subseteq_spec. intros key v. rewrite sweep_lookup.
  destruct (m !! key) as [v0|]; [|discriminate].
  destruct (TTL rl <? t1 - lastSeen v0); [discriminate|done].
Qed.

(** X2. A bucket that was just handed out survives every sweep that
    comes within the ttl of that call: [getLimiter] stamps the entry with
    the time of the call, and the sweep compares against that stamp. *)
Theorem acquired_bucket_survives_sweep rl key now s :
  now - clock (clockReads s) <= TTL rl ->
  exists h s',
    getLimiter rl key s = (Ok h, s') /\
    limiters (snd (cleanupStaleVisitors rl now s')) !! key
      = Some (mkVisitor h (clock (clockReads s))).
Proof.
  intros Hfresh. rewrite getLimiter_run.
  destruct (limiters s !! key) as [v|] eqn:E; eexists _, _; (split; [reflexivity|]);
    unfold cleanupStaleVisitors, modify; simpl; rewrite sweep_lookup, lookup_insert_eq; simpl;
    destruct (TTL rl <? now - clock (clockReads s)) eqn:Et; try reflexivity;
    apply Z.ltb_lt in Et; lia.
Qed.

(** X3. A client whose bucket was evicted starts over: the next
    [getLimiter] for its key allocates a new limiter with the configured
    rate and burst, different from the one it had, and no key is left in
    the registry that still points at the old one. *)
Theorem evicted_client_gets_new_bucket rl key now v s :
  registry_wf s ->
  limiters s !! key = Some v ->
  TTL rl < now - lastSeen v ->
  exists h s',
    getLimiter rl key (snd (cleanupStaleVisitors rl now s)) = (Ok h, s') /\
    h <> limiter v /\
    limiterHeap s' !! h = Some (NewLimiter (RequestsPerS rl) (Burst rl)) /\
    limiterHeap s' !! limiter v = limiterHeap s !! limiter v /\
    (forall k, bucketOf s' k <> Some (limiter v)).
Proof.
  intros [Hb Hinj] Hkey Hstale.
  assert (Hgone : limiters (snd (cleanupStaleVisitors rl now s)) !! key = None).
  { unfold cleanupStaleVisitors, modify. simpl. rewrite sweep_lookup, Hkey.
    apply Z.ltb_lt in Hstale. by rewrite Hstale. }
  pose proof (Hb _ _ Hkey) as Hlt.
  rewrite getLimiter_run, Hgone. eexists _, _. split; [reflexivity|]. simpl.
  split; [lia|]. split; [rewrite lookup_app_r by lia; by rewrite Nat.sub_diag|].
  split; [by rewrite lookup_app_l|].
  intros k. unfold bucketOf. simpl. rewrite lookup_insert. case_decide as Hk.
  - simpl. intros [= Habs]. lia.
  - rewrite sweep_lookup. destruct (limiters s !! k) as [vk|] eqn:Ek; [|discriminate].
    destruct (TTL rl <? now - lastSeen vk); [discriminate|]. simpl. intros [= Habs].
    apply Hk. symmetry. eapply Hinj; eauto.
Qed.

(** The clock never runs backwards. *)
Definition monotoneClock : Prop :=
  forall i j, (i <= j)%nat -> clock i <= clock j.

(** No entry of the registry is stamped later than the clock reads now. *)
Definition seenByNow (s : World) : Prop :=
  forall k v, limiters s !! k = Some v -> lastSeen v <= clock (clockReads s).

Lemma getLimiter_lastSeen rl key s :
  monotoneClock -> seenByNow s ->
  exists h s',
    getLimiter rl key s = (Ok h, s') /\ seenByNow s' /\
    forall k v, limiters s !! k = Some v ->
      exists v', limiters s' !! k = Some v' /\ lastSeen v <= lastSeen v' /\
                 limiter v' = limiter v.
Proof.
  intros Hmono Hseen. rewrite getLimiter_run.
  assert (Hstep : clock (clockReads s) <= clock (S (clockReads s))) by (apply Hmono; lia).
  destruct (limiters s !! key) as [v0|] eqn:E; eexists _, _; (split; [reflexivity|]); simpl.
  - split.
    + intros k v. simpl. rewrite lookup_insert. case_decide.
      * intros [= <-]. simpl. exact Hstep.
      * intros Hk. apply Hseen in Hk. lia.
    + intros k v Hk. rewrite lookup_insert. case_decide as Hd.
      * subst k. rewrite E in Hk. injection Hk as <-. eexists. split; [reflexivity|].
        simpl. split; [by apply Hseen in E|reflexivity].
      * exists v. split; [exact Hk|]. split; [lia|reflexivity].
  - split.
    + intros k v. simpl. rewrite lookup_insert. case_decide.
      * intros [= <-]. simpl. exact Hstep.
      * intros Hk. apply Hseen in Hk. lia.
    + intros k v Hk. rewrite lookup_insert. case_decide as Hd.
      * subst k. rewrite E in Hk. discriminate Hk.
      * exists v. split; [exact Hk|]. split; [lia|reflexivity].
Qed.

(** X4. Under a clock that never runs backwards, [getLimiter] only moves
    the last-seen stamp of an entry forward: over any sequence of calls
    every entry that was in the registry is still there, with the same
    bucket and a stamp that is not earlier. *)
Theorem lastSeen_never_decreases rl keys : forall s,
  monotoneClock -> seenByNow s ->
  exists hs s',
    acquireAll rl keys s = (Ok hs, s') /\ seenByNow s' /\
    forall k v, limiters s !! k = Some v ->
      exists v', limiters s' !! k = Some v' /\ lastSeen v <= lastSeen v' /\
                 limiter v' = limiter v.
Proof.
  induction keys as [|key rest IH]; intros s Hmono Hseen.
  - exists [], s. split; [reflexivity|]. split; [exact Hseen|].
    intros k v Hk. exists v. split; [exact Hk|]. split; [lia|reflexivity].
  - destruct (getLimiter_lastSeen rl key s Hmono Hseen) as (h & s1 & Hrun & Hseen1 & Hstep).
    destruct (IH s1 Hmono Hseen1) as (hs & s2 & Hrest & Hseen2 & Hsteps).
    exists (h :: hs), s2. simpl. unfold bind at 1. rewrite Hrun.
    unfold bind at 1. rewrite Hrest. split; [reflexivity|]. split; [exact Hseen2|].
    intros k v Hk. destruct (Hstep k v Hk) as (v1 & Hk1 & Hle1 & Hlim1).
    destruct (Hsteps k v1 Hk1) as (v2 & Hk2 & Hle2 & Hlim2).
    exists v2. split; [exact Hk2|]. split; [lia|congruence].
Qed.

(** X5. On a well-formed registry the gate's question never panics and
    leaves the registry well formed; it reads and writes the bucket of the
    request's client only: the entry of every other key, and the limiter
    that entry points at, are as they were. *)
Theorem consult_touches_one_bucket a r s :
  rateLimiterSet a = true ->
  registry_wf s ->
  exists b s',
    consult a r s = (Ok b, s') /\
    registry_wf s' /\
    forall k v, k <> getClientIdentifier a r -> limiters s !! k = Some v ->
      limiters s' !! k = Some v /\
      limiterHeap s' !! limiter v = limiterHeap s !! limiter v.
Proof.
  intros Hset Hwf. unfold consult. rewrite Hset.
  set (key := getClientIdentifier a r).
  destruct (getLimiter_bucket (RateLimiter (appConfig a)) key s)
    as (h & s1 & Hrun & Hnew & _ & _ & Hwf1 & _).
  specialize (Hwf1 Hwf). destruct Hwf1 as [Hb1 Hinj1].
  assert (Hothers : forall k, k <> key -> limiters s1 !! k = limiters s !! k).
  { intros k Hk. rewrite getLimiter_run in Hrun.
    destruct (limiters s !! key); injection Hrun as <- <-; simpl; by rewrite lookup_insert_ne. }
  assert (Hheap : forall p, (p < length (limiterHeap s))%nat ->
                            limiterHeap s1 !! p = limiterHeap s !! p).
  { intros p Hp. rewrite getLimiter_run in Hrun.
    destruct (limiters s !! key); injection Hrun as <- <-; simpl; [reflexivity|].
    by rewrite lookup_app_l. }
  unfold bucketOf in Hnew. destruct (limiters s1 !! key) as [vk|] eqn:Ek; [|discriminate].
  simpl in Hnew. injection Hnew as Hh.
  pose proof (Hb1 _ _ Ek) as Hlt. rewrite Hh in Hlt.
  destruct (lookup_lt_is_Some_2 _ _ Hlt) as [l Hl].
  unfold bind at 1. rewrite Hrun. unfold limiterAllow, bind, Now. simpl. rewrite Hl.
  destruct (Allow l (clock (clockReads s1))) as [ok l'] eqn:Ea.
  eexists _, _. split; [reflexivity|]. simpl. split.
  - split; simpl.
    + intros k v Hk. rewrite length_insert. eauto.
    + exact Hinj1.
  - intros k v Hk Hv. rewrite Hothers by exact Hk. split; [exact Hv|].
    destruct Hwf as [Hb _]. pose proof (Hb _ _ Hv) as Hltv.
    rewrite list_lookup_insert_ne.
    + by apply Hheap.
    + intros Heq. apply Hk. rewrite <- Hothers in Hv by exact Hk.
      eapply (Hinj1 k key v vk); eauto. congruence.
Qed.

(** ** The error path, case by case *)

(** The id [getRequestIDFromContext] finds through a logging writer. *)
Definition lookedUpID (context : option Context) : string :=
  match context with
  | Some ctx =>
      match Value ctx (KString "request_id") with
      | Some (VString reqID) => reqID
      | _ => ""
      end
  | None => ""
  end.

(** The object behind the pointer [normalizeError] returns. *)
Definition normalized (a : App) (s : World) (err : error) (requestID : string) : APIError :=
  match errors_As err with
  | Some p =>
      match errHeap s !! p with
      | Some e0 => mkAPIError (Code e0) (Message e0)
                     (if production a then None else Details e0) requestID
      | None => mkAPIError 0 "" None requestID
      end
  | None => mkAPIError 500 "internal server error" None requestID
  end.

Lemma WriteHeader_keeps_headers w code :
  keeps (fun s => respHeader (resp s)) (WriteHeader w code).
Proof. induction w; simpl; keeps_auto. Qed.

Lemma WriteHeader_keeps_logs w code : keeps logs (WriteHeader w code).
Proof. induction w; simpl; keeps_auto. Qed.

Lemma WriteHeader_keeps_cell w code cell : forall s,
  lrwStatus s !! cell = Some code ->
  lrwStatus (snd (WriteHeader w code s)) !! cell = Some code.
Proof.
  induction w as [|c ctx inner IH]; intros s Hc; simpl.
  - unfold raw_WriteHeader. repeat case_match; exact Hc.
  - unfold bind, modify. simpl. apply IH. simpl.
    destruct (decide (c = cell)) as [->|Hne].
    + apply list_lookup_insert_eq. apply lookup_lt_is_Some. eauto.
    + by rewrite list_lookup_insert_ne.
Qed.


(** The first status of a response goes out with the headers set so far. *)
Lemma WriteHeader_fresh w code : forall s,
  wroteHeader (resp s) = None -> 200 <= code <= 999 ->
  exists s', WriteHeader w code s = (Ok tt, s') /\
    resp s' = mkResponse (respHeader (resp s)) (Some (code, respHeader (resp s)))
                         (respBody (resp s)).
Proof.
  induction w as [|c ctx inner IH]; intros s Hnone Hcode; simpl.
  - unfold raw_WriteHeader. rewrite Hnone.
    assert (E1 : (code <? 100) || (999 <? code) = false).
    { apply orb_false_iff. split; [apply Z.ltb_ge|apply Z.ltb_ge]; lia. }
    assert (E2 : (100 <=? code) && (code <=? 199) && negb (code =? 101) = false).
    { apply andb_false_iff. left. apply andb_false_iff. right. apply Z.leb_gt. lia. }
    rewrite E1, E2. eexists. split; reflexivity.
  - unfold bind, modify. simpl.
    destruct (IH (set_lrwStatus (fun l => <[c := code]> l) s) Hnone Hcode) as (s' & H1 & H2).
    exists s'. split; [exact H1|exact H2].
Qed.

(** Once a status is out, a further one changes nothing for the client. *)
Lemma WriteHeader_started w code : forall s,
  is_Some (wroteHeader (resp s)) ->
  exists s', WriteHeader w code s = (Ok tt, s') /\ resp s' = resp s.
Proof.
  induction w as [|c ctx inner IH]; intros s [x Hx]; simpl.
  - unfold raw_WriteHeader. rewrite Hx. eexists. split; reflexivity.
  - unfold bind, modify. simpl.
    destruct (IH (set_lrwStatus (fun l => <[c := code]> l) s)) as (s' & H1 & H2);
      [simpl; eauto|].
    exists s'. split; [exact H1|exact H2].
Qed.

Lemma WriteHeader_invalid w code : forall s,
  wroteHeader (resp s) = None -> code < 100 \/ 999 < code ->
  exists s', WriteHeader w code s = (Panic "invalid WriteHeader code", s') /\ resp s' = resp s.
Proof.
  induction w as [|c ctx inner IH]; intros s Hnone Hcode; simpl.
  - unfold raw_WriteHeader. rewrite Hnone.
    assert (E1 : (code <? 100) || (999 <? code) = true).
    { apply orb_true_iff. destruct Hcode; [left|right]; apply Z.ltb_lt; lia. }
    rewrite E1. eexists. split; reflexivity.
  - unfold bind, modify. simpl.
    destruct (IH (set_lrwStatus (fun l => <[c := code]> l) s) Hnone Hcode) as (s' & H1 & H2).
    exists s'. split; [exact H1|exact H2].
Qed.

(** The world in which [handleError] starts to write: the error has been
    normalised with the id found through the writer and logged, and the
    content type is set. *)
Definition readyToWrite (a : App) (context : option Context) (err : error) (s : World) : World :=
  set_resp (fun r => mkResponse (<["Content-Type" := "application/json"]> (respHeader r))
                       (wroteHeader r) (respBody r))
    (set_logs (fun ls => ls ++ [mkLog LError "request error"
                 [FError err; FString "request_id" (lookedUpID context);
                  FInt "status_code" (Code (normalized a s err (lookedUpID context)))]])
       (set_errHeap (fun h => match errors_As err with
                              | Some p => <[p := normalized a s err (lookedUpID context)]> h
                              | None => h ++ [normalized a s err (lookedUpID context)]
                              end) s)).

Lemma handleError_writes a cell context inner err s :
  pointsTo s err ->
  handleError a (LoggingWriter cell context inner) err s
  = (WriteHeader (LoggingWriter cell context inner)
                 (Code (normalized a s err (lookedUpID context))) ;;;
     Write (LoggingWriter cell context inner)
           (BodyJSON (encodeAPIError (normalized a s err (lookedUpID context)))))
      (readyToWrite a context err s).
Proof.
  intros Hvalid. unfold handleError, readyToWrite.
  assert (Hid : getRequestIDFromContext (LoggingWriter cell context inner) s
                = (Ok (lookedUpID context), s)).
  { unfold getRequestIDFromContext, lookedUpID. destruct context as [ctx|]; [|reflexivity].
    destruct (Value ctx (KString "request_id")) as [[x|t]|]; reflexivity. }
  unfold bind at 1. rewrite Hid. unfold bind at 1.
  unfold normalized. unfold pointsTo in Hvalid.
  destruct (errors_As err) as [p|] eqn:Has.
  - destruct Hvalid as [e0 He0]. rewrite He0.
    rewrite (normalizeError_found a err _ s p e0 Has He0).
    unfold bind at 1, loadAPIError. simpl.
    rewrite list_lookup_insert_eq by (apply lookup_lt_is_Some; eauto).
    unfold bind at 1 2, logf, Header_Set, modify. reflexivity.
  - rewrite (normalizeError_fresh a err _ s Has).
    unfold bind at 1, loadAPIError. simpl.
    rewrite lookup_app_r by lia. rewrite Nat.sub_diag. simpl.
    unfold bind at 1 2, logf, Header_Set, modify. reflexivity.
Qed.

Lemma handleError_run a cell context inner err s :
  pointsTo s err ->
  exists s2,
    handleError a (LoggingWriter cell context inner) err s
    = (WriteHeader (LoggingWriter cell context inner)
                   (Code (normalized a s err (lookedUpID context))) ;;;
       Write (LoggingWriter cell context inner)
             (BodyJSON (encodeAPIError (normalized a s err (lookedUpID context))))) s2 /\
    resp s2 = mkResponse (<["Content-Type" := "application/json"]> (respHeader (resp s)))
                         (wroteHeader (resp s)) (respBody (resp s)) /\
    lrwStatus s2 = lrwStatus s /\
    errHeap s2 = match errors_As err with
                 | Some p => <[p := normalized a s err (lookedUpID context)]> (errHeap s)
                 | None => errHeap s ++ [normalized a s err (lookedUpID context)]
                 end /\
    logs s2 = logs s ++ [mkLog LError "request error"
                           [FError err; FString "request_id" (lookedUpID context);
                            FInt "status_code" (Code (normalized a s err (lookedUpID context)))]].
Proof.
  intros Hvalid. exists (readyToWrite a context err s).
  split; [by apply handleError_writes|]. by repeat split.
Qed.

(** The status on the wire once a write has run. *)
Definition sentAfterWrite (r : Response) : Z * gmap string string :=
  match wroteHeader r with
  | Some x => x
  | None => (200, respHeader r)
  end.

Lemma Encode_run w b s :
  Encode w b s =
  (Ok (if bodyAllowedForStatus (sentAfterWrite (resp s)).1 then None
       else Some ErrBodyNotAllowed),
   set_resp (fun r =>
               mkResponse (respHeader r) (Some (sentAfterWrite r))
                 (respBody r ++ (if bodyAllowedForStatus (sentAfterWrite r).1
                                 then [b] else []))) s).
Proof.
  destruct s as [[hdr [[status headers]|] body] ? ? ? ? ? ? ? ? ? ?];
    unfold Encode, raw_Write, bind, raw_WriteHeader, ret, set_resp, sentAfterWrite; simpl;
    [|reflexivity].
  destruct (bodyAllowedForStatus status); simpl; [reflexivity|].
  by rewrite app_nil_r.
Qed.

Lemma Write_appends w b s :
  Write w b s =
  (Ok tt,
   set_resp (fun r =>
               mkResponse (respHeader r) (Some (sentAfterWrite r))
                 (respBody r ++ (if bodyAllowedForStatus (sentAfterWrite r).1
                                 then [b] else []))) s).
Proof.
  unfold Write. change (raw_Write b) with (Encode w b).
  unfold bind. rewrite Encode_run. reflexivity.
Qed.



(** X8. An error whose code is no HTTP status (below 100 or above 999),
    handled before anything was sent, ends in a panic of the server's
    [WriteHeader]; nothing is sent. *)
Theorem handleError_invalid_code_panics a cell context inner err s :
  pointsTo s err ->
  wroteHeader (resp s) = None ->
  Code (normalized a s err (lookedUpID context)) < 100
    \/ 999 < Code (normalized a s err (lookedUpID context)) ->
  exists s',
    handleError a (LoggingWriter cell context inner) err s
      = (Panic "invalid WriteHeader code", s') /\
    sent s' = sent s.
Proof.
  intros Hvalid Hnone Hcode.
  destruct (handleError_run a cell context inner err s Hvalid) as (s2 & Hrun & Hresp & _).
  set (e := normalized a s err (lookedUpID context)) in *.
  set (w := LoggingWriter cell context inner) in *.
  assert (Hnone2 : wroteHeader (resp s2) = None) by (by rewrite Hresp).
  destruct (WriteHeader_invalid w (Code e) s2 Hnone2 Hcode) as (s3 & Hwh & Hresp3).
  rewrite Hrun. unfold bind. rewrite Hwh.
  eexists. split; [reflexivity|]. unfold sent. by rewrite Hresp3, Hresp.
Qed.

(** X9. An error that carries no [APIError] (an [errors.New] value of the
    service layer, for one) is answered, when nothing was sent before,
    with status 500 and the fixed message "internal server error": its own
    message is not in the body.  The envelope is a new object; the objects
    there were are untouched. *)
Theorem plain_error_is_masked a cell context inner err s :
  errors_As err = None ->
  wroteHeader (resp s) = None ->
  exists s',
    handleError a (LoggingWriter cell context inner) err s = (Ok tt, s') /\
    fst <$> wroteHeader (resp s') = Some 500 /\
    respBody (resp s') =
      respBody (resp s) ++
      [BodyJSON ([("code", JNum 500); ("message", JStr "internal server error")]
                 ++ (if String.eqb (lookedUpID context) "" then []
                     else [("request_id", JStr (lookedUpID context))]))] /\
    errHeap s' = errHeap s ++ [mkAPIError 500 "internal server error" None (lookedUpID context)].
Proof.
  intros Has Hnone.
  assert (Hvalid : pointsTo s err) by (unfold pointsTo; by rewrite Has).
  destruct (handleError_run a cell context inner err s Hvalid) as (s2 & Hrun & Hresp & _ & Hheap & _).
  assert (He : normalized a s err (lookedUpID context)
               = mkAPIError 500 "internal server error" None (lookedUpID context))
    by (unfold normalized; by rewrite Has).
  rewrite He in Hrun, Hheap. rewrite Has in Hheap. cbn [Code] in Hrun.
  set (w := LoggingWriter cell context inner) in *.
  assert (Hnone2 : wroteHeader (resp s2) = None) by (by rewrite Hresp).
  destruct (WriteHeader_fresh w 500 s2 Hnone2) as (s3 & Hwh & Hresp3); [lia|].
  pose proof (WriteHeader_keeps_errHeap w 500 s2) as Kh. rewrite Hwh in Kh. simpl in Kh.
  rewrite Hrun. unfold bind. rewrite Hwh, Write_appends.
  eexists. split; [reflexivity|]. simpl. rewrite Hresp3. simpl. rewrite Hresp. simpl.
  split; [reflexivity|]. split; [reflexivity|]. by rewrite Kh.
Qed.

(** X10. In debug mode the details a caller attached survive: the object
    keeps them, and the encoded body has a [details] field exactly when the
    map is not empty. *)
Theorem debug_mode_keeps_details a err p e0 d requestID s :
  LogLevel (appConfig a) = "debug" ->
  errors_As err = Some p ->
  errHeap s !! p = Some e0 ->
  Details e0 = Some d ->
  exists s',
    normalizeError a err requestID s = (Ok p, s') /\
    errHeap s' !! p = Some (mkAPIError (Code e0) (Message e0) (Some d) requestID) /\
    (d <> ∅ <->
     In ("details", JMap d)
        (encodeAPIError (mkAPIError (Code e0) (Message e0) (Some d) requestID))).
Proof.
  intros Hlevel Has Hp Hd.
  assert (Hprod : production a = false) by (unfold production; by rewrite Hlevel).
  rewrite (normalizeError_found a err requestID s p e0 Has Hp). rewrite Hprod, Hd.
  eexists. split; [reflexivity|]. simpl.
  split; [apply list_lookup_insert_eq, lookup_lt_is_Some; eauto|].
  unfold encodeAPIError. simpl. case_bool_decide as Hempty; simpl.
  - split; [done|]. intros [Hin|[Hin|Hin]]; try discriminate Hin.
    destruct (String.eqb requestID ""); simpl in Hin; [done|].
    destruct Hin as [Hin|Hin]; [discriminate Hin|done].
  - split; [|done]. intros _. right. right. by left.
Qed.

(** ** Panic recovery *)

Lemma WriteHeader_valid_ok w code s :
  200 <= code <= 999 -> fst (WriteHeader w code s) = Ok tt.
Proof.
  intros Hcode. destruct (wroteHeader (resp s)) as [x|] eqn:E.
  - destruct (WriteHeader_started w code s) as (s' & H & _); [eauto|]. by rewrite H.
  - destruct (WriteHeader_fresh w code s E Hcode) as (s' & H & _). by rewrite H.
Qed.

(** What the deferred function of [recoveryMiddleware] does with a panic,
    on a logging writer and with the request id in the context. *)
Lemma recovery_handler_run a cell context inner r requestID v s :
  Value (rContext r) contextKeyRequestID = Some (VString requestID) ->
  exists s1,
    (let* requestID := Value_string (rContext r) contextKeyRequestID in
     logf LError "panic recovered" [FAny "error" v; FString "request_id" requestID] ;;;
     let* apiErr := NewAPIError 500 "Internal server error" [] in
     handleError a (LoggingWriter cell context inner) (ErrAPI apiErr)) s
    = handleError a (LoggingWriter cell context inner) (ErrAPI (length (errHeap s))) s1 /\
    errHeap s1 = errHeap s ++ [mkAPIError 500 "Internal server error" None ""] /\
    logs s1 = logs s ++ [mkLog LError "panic recovered"
                           [FAny "error" v; FString "request_id" requestID]] /\
    resp s1 = resp s /\ lrwStatus s1 = lrwStatus s.
Proof.
  intros Hid. unfold Value_string. rewrite Hid.
  unfold bind, ret, logf, modify, NewAPIError. simpl.
  eexists. split; [reflexivity|]. by repeat split.
Qed.

Lemma recovered_envelope a (s1 : World) errs context :
  errHeap s1 = errs ++ [mkAPIError 500 "Internal server error" None ""] ->
  pointsTo s1 (ErrAPI (length errs)) /\
  normalized a s1 (ErrAPI (length errs)) (lookedUpID context)
  = mkAPIError 500 "Internal server error" None (lookedUpID context).
Proof.
  intros Hheap. unfold pointsTo, normalized. simpl. rewrite Hheap.
  rewrite lookup_app_r by lia. rewrite Nat.sub_diag. simpl.
  split; [eauto|]. by destruct (production a).
Qed.

(** X11. Fault conversion.  When the handler behind the recovery stage
    panics before anything was sent, on a logging writer and with the
    request id in the context, the stage returns normally; the client gets
    status 500 with the message "Internal server error", and the panic is
    logged with the request id. *)
Theorem recovery_answers_panic_with_500 a next cell context inner r requestID v s s1 :
  Value (rContext r) contextKeyRequestID = Some (VString requestID) ->
  next (LoggingWriter cell context inner) r (set_trace (fun t => t ++ [SRecovery]) s)
    = (Panic v, s1) ->
  wroteHeader (resp s1) = None ->
  exists s',
    recoveryMiddleware a next (LoggingWriter cell context inner) r s = (Ok tt, s') /\
    wroteHeader (resp s')
      = Some (500, <["Content-Type" := "application/json"]> (respHeader (resp s1))) /\
    respBody (resp s')
      = respBody (resp s1) ++
        [BodyJSON (encodeAPIError
                     (mkAPIError 500 "Internal server error" None (lookedUpID context)))] /\
    In (mkLog LError "panic recovered" [FAny "error" v; FString "request_id" requestID])
       (logs s').
Proof.
  intros Hid Hnext Hnone.
  unfold recoveryMiddleware. unfold bind at 1, enter, modify. unfold deferRecover.
  rewrite Hnext.
  destruct (recovery_handler_run a cell context inner r requestID v s1 Hid)
    as (s2 & Hrun & Hheap & Hlogs & Hresp & Hlrw).
  rewrite Hrun.
  destruct (recovered_envelope a s2 (errHeap s1) context Hheap) as [Hvalid Hnorm].
  destruct (handleError_run a cell context inner (ErrAPI (length (errHeap s1))) s2 Hvalid)
    as (s3 & Hrun3 & Hresp3 & _ & _ & Hlogs3).
  rewrite Hnorm in Hrun3. cbn [Code] in Hrun3.
  set (w := LoggingWriter cell context inner) in *.
  assert (Hnone3 : wroteHeader (resp s3) = None) by (by rewrite Hresp3, Hresp).
  destruct (WriteHeader_fresh w 500 s3 Hnone3) as (s4 & Hwh & Hresp4); [lia|].
  pose proof (WriteHeader_keeps_logs w 500 s3) as Kl. rewrite Hwh in Kl. simpl in Kl.
  rewrite Hrun3. unfold bind. rewrite Hwh, Write_appends.
  eexists. split; [reflexivity|]. simpl. rewrite Hresp4. simpl. rewrite Hresp3, Hresp. simpl.
  split; [reflexivity|]. split; [reflexivity|].
  rewrite Kl, Hlogs3, Hlogs. apply in_or_app. left. apply in_or_app. right. by left.
Qed.

Lemma handleError_recovered_ok a cell context inner (s1 : World) errs :
  errHeap s1 = errs ++ [mkAPIError 500 "Internal server error" None ""] ->
  fst (handleError a (LoggingWriter cell context inner) (ErrAPI (length errs)) s1) = Ok tt.
Proof.
  intros Hheap.
  destruct (recovered_envelope a s1 errs context Hheap) as [Hvalid Hnorm].
  destruct (handleError_run a cell context inner (ErrAPI (length errs)) s1 Hvalid)
    as (s2 & Hrun & _).
  rewrite Hnorm in Hrun. cbn [Code] in Hrun. rewrite Hrun. unfold bind.
  pose proof (WriteHeader_valid_ok (LoggingWriter cell context inner) 500 s2) as Hok.
  destruct (WriteHeader (LoggingWriter cell context inner) 500 s2) as [[[]|v] s3];
    simpl in Hok.
  - by rewrite Write_appends.
  - discriminate Hok; lia.
Qed.

(** X12. On a logging writer and with the request id in the context, the
    recovery stage lets no panic through, whatever the stages and the
    handler behind it do and whatever was already sent. *)
Theorem recovery_contains_every_panic a next cell context inner r requestID s :
  Value (rContext r) contextKeyRequestID = Some (VString requestID) ->
  fst (recoveryMiddleware a next (LoggingWriter cell context inner) r s) = Ok tt.
Proof.
  intros Hid. unfold recoveryMiddleware. unfold bind at 1, enter, modify. unfold deferRecover.
  destruct (next _ r _) as [[[]|v] s1]; [reflexivity|].
  destruct (recovery_handler_run a cell context inner r requestID v s1 Hid)
    as (s2 & Hrun & Hheap & _).
  rewrite Hrun. by apply handleError_recovered_ok.
Qed.

(** The same, for use below. *)
Lemma recovery_returns a next cell context inner r requestID s :
  Value (rContext r) contextKeyRequestID = Some (VString requestID) ->
  fst (recoveryMiddleware a next (LoggingWriter cell context inner) r s) = Ok tt.
Proof.
  intros Hid. unfold recoveryMiddleware. unfold bind at 1, enter, modify. unfold deferRecover.
  destruct (next _ r _) as [[[]|v] s1]; [reflexivity|].
  destruct (recovery_handler_run a cell context inner r requestID v s1 Hid)
    as (s2 & Hrun & Hheap & _).
  rewrite Hrun. by apply handleError_recovered_ok.
Qed.

(** X13. The recovery stage depends on the stages in front of it: when
    the handler behind it panics and the context holds no request id, or
    the writer is not a logging writer, the deferred function panics in
    turn and the panic leaves the stage; nothing is sent. *)
Theorem recovery_panics_without_id_or_logging_writer a next w r v s s1 :
  next w r (set_trace (fun t => t ++ [SRecovery]) s) = (Panic v, s1) ->
  (forall x, Value (rContext r) contextKeyRequestID <> Some (VString x)) \/ w = RawWriter ->
  exists v' s',
    recoveryMiddleware a next w r s = (Panic v', s') /\ sent s' = sent s1.
Proof.
  intros Hnext Hcase.
  unfold recoveryMiddleware. unfold bind at 1, enter, modify. unfold deferRecover.
  rewrite Hnext. unfold Value_string.
  destruct (Value (rContext r) contextKeyRequestID) as [[x|t]|] eqn:Hv.
  - destruct Hcase as [Hno| ->]; [by destruct (Hno x)|].
    unfold bind, logf, modify, NewAPIError, handleError, getRequestIDFromContext, panic, ret.
    simpl. eexists _, _. split; reflexivity.
  - unfold bind, panic. eexists _, _. split; reflexivity.
  - unfold bind, panic. eexists _, _. split; reflexivity.
Qed.

(** ** Fault isolation in the chain *)

Lemma log_ok a (next : HandlerFunc) w r requestID s :
  Value (rContext r) contextKeyRequestID = Some (VString requestID) ->
  (forall cell s1, fst (next (LoggingWriter cell (Some (rContext r)) w) r s1) = Ok tt) ->
  fst (logMiddleware a next w r s) = Ok tt.
Proof.
  intros Hid Hnext. unfold logMiddleware.
  unfold bind at 1 2 3, enter, modify, Now, newLoggingResponseWriter. simpl.
  unfold bind at 1. specialize (Hnext (length (lrwStatus s))).
  match goal with |- context [next ?lw r ?s0] =>
    specialize (Hnext s0); destruct (next lw r s0) as [[[]|v] s2] end;
    simpl in Hnext; [|discriminate Hnext].
  unfold bind, statusCode, gets, Since, Now, lrwRequestID, Value_string, logf, modify, ret.
  simpl. by rewrite Hid.
Qed.

(** The metrics stage can label its observations for the request: method
    and path are valid UTF-8.  (The server accepts only a token as method;
    the path is the decoded one and can hold any byte.) *)
Definition labelsAccepted (r : Request) : bool :=
  utf8_ValidString (Method r) && utf8_ValidString (URLPath r).

Lemma observe_accepted e :
  forallb utf8_ValidString (labelValues e) = true ->
  observe e = modify (set_metrics (fun ms => ms ++ [e])).
Proof. intros H. unfold observe. by rewrite H. Qed.

Lemma labelsAccepted_counter r status :
  forallb utf8_ValidString (labelValues (CounterInc (Method r) (URLPath r) status))
  = labelsAccepted r.
Proof. unfold labelsAccepted. simpl. by rewrite andb_true_r. Qed.

Lemma labelsAccepted_histogram r d :
  forallb utf8_ValidString (labelValues (HistogramObserve (Method r) (URLPath r) d))
  = labelsAccepted r.
Proof. unfold labelsAccepted. simpl. by rewrite andb_true_r. Qed.

Lemma metrics_ok a (next : HandlerFunc) w r s :
  labelsAccepted r = true ->
  (forall cell s1, fst (next (LoggingWriter cell (Some (rContext r)) w) r s1) = Ok tt) ->
  fst (metricsMiddleware a next w r s) = Ok tt.
Proof.
  intros Hl Hnext. unfold metricsMiddleware.
  unfold bind at 1 2 3, enter, modify, Now, newLoggingResponseWriter. simpl.
  unfold bind at 1. specialize (Hnext (length (lrwStatus s))).
  match goal with |- context [next ?lw r ?s0] =>
    specialize (Hnext s0); destruct (next lw r s0) as [[[]|v] s2] end;
    simpl in Hnext; [|discriminate Hnext].
  unfold bind, Since, Now, statusCode, gets. simpl.
  rewrite !observe_accepted
    by (by rewrite ?labelsAccepted_counter, ?labelsAccepted_histogram).
  reflexivity.
Qed.

(** With a label the counter refuses, the stage panics once the stages
    behind it have returned. *)
Lemma metrics_refused a (next : HandlerFunc) w r s :
  labelsAccepted r = false ->
  (forall cell s1, fst (next (LoggingWriter cell (Some (rContext r)) w) r s1) = Ok tt) ->
  fst (metricsMiddleware a next w r s) = Panic "label value is not valid UTF-8".
Proof.
  intros Hl Hnext. unfold metricsMiddleware.
  unfold bind at 1 2 3, enter, modify, Now, newLoggingResponseWriter. simpl.
  unfold bind at 1. specialize (Hnext (length (lrwStatus s))).
  match goal with |- context [next ?lw r ?s0] =>
    specialize (Hnext s0); destruct (next lw r s0) as [[[]|v] s2] end;
    simpl in Hnext; [|discriminate Hnext].
  unfold bind, Since, Now, statusCode, gets. simpl.
  unfold observe at 1. by rewrite labelsAccepted_counter, Hl.
Qed.

(** The stages behind the gate: logging, recovery and the deadline, with
    metrics in front of them when enabled. *)
Lemma inner_stages_ok a config (h : HandlerFunc) w r requestID s :
  Value (rContext r) contextKeyRequestID = Some (VString requestID) ->
  (MetricsEnabled config = true -> labelsAccepted r = true) ->
  fst (wrap a ((if MetricsEnabled config then [MwMetrics] else [])
               ++ [MwLog; MwRecovery; MwTimeout (HandlerTimeout config)]) h w r s) = Ok tt.
Proof.
  intros Hid Hl.
  assert (Hlog : forall w0 s0,
            fst (wrap a [MwLog; MwRecovery; MwTimeout (HandlerTimeout config)] h w0 r s0) = Ok tt).
  { intros w0 s0. simpl. apply (log_ok a _ w0 r requestID s0 Hid).
    intros cell s1. by apply (recovery_returns a _ cell _ w0 r requestID s1). }
  destruct (MetricsEnabled config); simpl.
  - apply metrics_ok; [by apply Hl|]. intros cell s1. apply Hlog.
  - apply Hlog.
Qed.

Lemma inner_stages_refused a config (h : HandlerFunc) w r requestID s :
  Value (rContext r) contextKeyRequestID = Some (VString requestID) ->
  MetricsEnabled config = true ->
  labelsAccepted r = false ->
  fst (wrap a ((if MetricsEnabled config then [MwMetrics] else [])
               ++ [MwLog; MwRecovery; MwTimeout (HandlerTimeout config)]) h w r s)
  = Panic "label value is not valid UTF-8".
Proof.
  intros Hid Hm Hl. rewrite Hm. simpl.
  apply metrics_refused; [exact Hl|].
  intros cell s1. apply (log_ok a _ _ r requestID s1 Hid).
  intros cell' s2. by apply (recovery_returns a _ cell' _ _ r requestID s2).
Qed.

(** What the gate leaves to the stages behind it, for a request it lets
    through. *)
Lemma granted_run config (h : HandlerFunc) r s :
  corsPasses config r ->
  grants (Start (NewApp config)) r s ->
  exists w r' s2,
    Method r' = Method r /\ URLPath r' = URLPath r /\
    Value (rContext r') contextKeyRequestID = Some (VString (xid (xidReads s))) /\
    wrap (Start (NewApp config)) (routerMiddleware (Start (NewApp config))) h RawWriter r s
    = wrap (Start (NewApp config))
        ((if MetricsEnabled config then [MwMetrics] else [])
         ++ [MwLog; MwRecovery; MwTimeout (HandlerTimeout config)]) h w r' s2.
Proof.
  intros Hcors Hgr. rewrite Start_NewApp in *. set (a := mkApp _ _ _ _) in *.
  destruct (prefix_run a config r s Hcors) as (s1 & Hrun & Hreg & _).
  simpl routerMiddleware. unfold routerChain. rewrite Hrun.
  set (r' := WithContext r _).
  assert (Hid : Value (rContext r') contextKeyRequestID = Some (VString (xid (xidReads s))))
    by reflexivity.
  destruct (Enabled (RateLimiter config)) eqn:Hen; simpl.
  - destruct (bypasses a r) eqn:Hby.
    + rewrite gate_bypass by exact Hby. by eexists _, r', _.
    + destruct Hgr as [Habs|[sd Hc]]; [congruence|].
      destruct (consult_transfer a r s (set_trace (fun t => t ++ [SRateLimit]) s1) true sd)
        as [s2 Hc2]; [exact Hreg|exact Hc|].
      rewrite (gate_verdict a _ RawWriter r' s1 true s2 Hby Hc2). by eexists _, r', _.
  - by eexists _, r', _.
Qed.

(** X14. Whatever the route's handler does (return an error with any
    code, write twice, panic), no panic leaves the chain [NewApp] and
    [Start] build, for a request that the cross-origin stage hands on and
    the gate lets through, provided the metrics stage, when there is one,
    can label the request: it sits in front of the recovery stage. *)
Theorem default_chain_contains_every_panic config (h : HandlerFunc) r s :
  corsPasses config r ->
  grants (Start (NewApp config)) r s ->
  (MetricsEnabled config = true -> labelsAccepted r = true) ->
  fst (wrap (Start (NewApp config)) (routerMiddleware (Start (NewApp config))) h RawWriter r s)
  = Ok tt.
Proof.
  intros Hcors Hgr Hl.
  destruct (granted_run config h r s Hcors Hgr) as (w & r' & s2 & Hm & Hp & Hid & Hrun).
  rewrite Hrun. apply (inner_stages_ok _ config h w r' _ s2 Hid).
  intros Hen. unfold labelsAccepted. rewrite Hm, Hp. by apply Hl.
Qed.

(** X26. The converse: with metrics enabled, a request whose path (or
    method) is not valid UTF-8 ends in a panic that reaches the server,
    whatever the route's handler does.  The stages behind the metrics
    stage return, recovery included, and the counter then refuses the
    label. *)
Theorem unlabelled_request_panics_in_metrics config (h : HandlerFunc) r s :
  corsPasses config r ->
  grants (Start (NewApp config)) r s ->
  MetricsEnabled config = true ->
  labelsAccepted r = false ->
  fst (wrap (Start (NewApp config)) (routerMiddleware (Start (NewApp config))) h RawWriter r s)
  = Panic "label value is not valid UTF-8".
Proof.
  intros Hcors Hgr Hen Hl.
  destruct (granted_run config h r s Hcors Hgr) as (w & r' & s2 & Hm & Hp & Hid & Hrun).
  rewrite Hrun. apply (inner_stages_refused _ config h w r' _ s2 Hid Hen).
  unfold labelsAccepted. rewrite Hm, Hp. exact Hl.
Qed.

(** The cells of the logging writers a writer is built from. *)
Fixpoint cellsOf (w : ResponseWriter) : list nat :=
  match w with
  | RawWriter => []
  | LoggingWriter cell _ inner => cell :: cellsOf inner
  end.

(** A request as the terminal handler of the chain receives it: with its
    id and a deadline in the context. *)
Definition asServed (r : Request) (requestID : string) (deadline : Time) : Request :=
  WithContext r
    (WithTimeout (WithValue (rContext r) contextKeyRequestID (VString requestID)) deadline).

(** A route handler that panics for the request, whatever the writer and
    the deadline, without having written anything. *)
Definition panicsUnanswered (h : HandlerFunc) (r : Request) (requestID : string) : Prop :=
  forall w deadline s,
    exists v s', h w (asServed r requestID deadline) s = (Panic v, s') /\
                 resp s' = resp s /\ lrwStatus s' = lrwStatus s /\ metrics s' = metrics s.

(** The body of the internal-fault response. *)
Definition faultEnvelope (requestID : string) : Body :=
  BodyJSON (encodeAPIError (mkAPIError 500 "Internal server error" None requestID)).

Lemma WriteHeader_keeps_length w code :
  keeps (fun s => length (lrwStatus s)) (WriteHeader w code).
Proof.
  induction w as [|c ctx inner IH]; simpl.
  - keeps_auto.
  - apply keeps_bind; [|intros ?; exact IH].
    apply keeps_modify. intros s. simpl. apply length_insert.
Qed.

Lemma WriteHeader_records_all w code : forall s c,
  In c (cellsOf w) -> (c < length (lrwStatus s))%nat ->
  lrwStatus (snd (WriteHeader w code s)) !! c = Some code.
Proof.
  induction w as [|cell ctx inner IH]; intros s c Hin Hlt; simpl in *; [done|].
  unfold bind, modify. simpl.
  destruct (decide (c = cell)) as [->|Hne].
  - apply WriteHeader_keeps_cell. simpl. by apply list_lookup_insert_eq.
  - destruct Hin as [Heq|Hin]; [congruence|].
    apply IH; [exact Hin|]. simpl. by rewrite length_insert.
Qed.

Lemma WriteHeader_keeps_metrics w code : keeps metrics (WriteHeader w code).
Proof. induction w; simpl; keeps_auto. Qed.

(** The world in which the deferred function of the recovery stage calls
    [handleError]. *)
Definition recoveredWorld (requestID v : string) (s : World) : World :=
  set_errHeap (fun h => h ++ [mkAPIError 500 "Internal server error" None ""])
    (set_logs (fun ls => ls ++ [mkLog LError "panic recovered"
                                  [FAny "error" v; FString "request_id" requestID]]) s).

Lemma recovery_handler_calls a w r requestID v s :
  Value (rContext r) contextKeyRequestID = Some (VString requestID) ->
  (let* requestID := Value_string (rContext r) contextKeyRequestID in
   logf LError "panic recovered" [FAny "error" v; FString "request_id" requestID] ;;;
   let* apiErr := NewAPIError 500 "Internal server error" [] in
   handleError a w (ErrAPI apiErr)) s
  = handleError a w (ErrAPI (length (errHeap s))) (recoveredWorld requestID v s).
Proof.
  intros Hid. unfold Value_string. rewrite Hid.
  unfold bind, ret, logf, modify, NewAPIError. reflexivity.
Qed.

Lemma recovered_response a cell context inner r requestID v s1 :
  Value (rContext r) contextKeyRequestID = Some (VString requestID) ->
  wroteHeader (resp s1) = None ->
  exists s',
    (let* requestID := Value_string (rContext r) contextKeyRequestID in
     logf LError "panic recovered" [FAny "error" v; FString "request_id" requestID] ;;;
     let* apiErr := NewAPIError 500 "Internal server error" [] in
     handleError a (LoggingWriter cell context inner) (ErrAPI apiErr)) s1 = (Ok tt, s') /\
    resp s' = mkResponse (<["Content-Type" := "application/json"]> (respHeader (resp s1)))
                (Some (500, <["Content-Type" := "application/json"]> (respHeader (resp s1))))
                (respBody (resp s1) ++ [faultEnvelope (lookedUpID context)]) /\
    (forall c, In c (cellsOf (LoggingWriter cell context inner)) ->
               (c < length (lrwStatus s1))%nat -> lrwStatus s' !! c = Some 500) /\
    length (lrwStatus s') = length (lrwStatus s1) /\
    metrics s' = metrics s1.
Proof.
  intros Hid Hnone.
  rewrite (recovery_handler_calls a _ r requestID v s1 Hid).
  set (s2 := recoveredWorld requestID v s1).
  destruct (recovered_envelope a s2 (errHeap s1) context eq_refl) as [Hvalid Hnorm].
  change (length (errHeap s1)) with (length (errHeap s1)) in Hvalid.
  rewrite (handleError_writes a cell context inner _ s2 Hvalid). rewrite Hnorm. cbn [Code].
  set (w := LoggingWriter cell context inner).
  set (s3 := readyToWrite a context (ErrAPI (length (errHeap s1))) s2).
  assert (Hnone3 : wroteHeader (resp s3) = None) by exact Hnone.
  destruct (WriteHeader_fresh w 500 s3 Hnone3) as (s4 & Hwh & Hresp4); [lia|].
  pose proof (WriteHeader_keeps_metrics w 500 s3) as Km.
  pose proof (WriteHeader_keeps_length w 500 s3) as Kn.
  pose proof (WriteHeader_records_all w 500 s3) as Kc.
  rewrite Hwh in Km, Kn, Kc. simpl in Km, Kn, Kc.
  unfold bind. rewrite Hwh, Write_appends.
  eexists. split; [reflexivity|]. simpl. rewrite Hresp4. simpl.
  split; [reflexivity|]. split; [exact Kc|]. split; [exact Kn|exact Km].
Qed.

Lemma log_recovery_timeout_panic a d (h : HandlerFunc) w r requestID s :
  Value (rContext r) contextKeyRequestID = Some (VString requestID) ->
  wroteHeader (resp s) = None ->
  (forall w' deadline s0,
      exists v s', h w' (WithContext r (WithTimeout (rContext r) deadline)) s0 = (Panic v, s') /\
                   resp s' = resp s0 /\ lrwStatus s' = lrwStatus s0 /\ metrics s' = metrics s0) ->
  exists s' dur,
    wrap a [MwLog; MwRecovery; MwTimeout d] h w r s = (Ok tt, s') /\
    resp s' = mkResponse (<["Content-Type" := "application/json"]> (respHeader (resp s)))
                (Some (500, <["Content-Type" := "application/json"]> (respHeader (resp s))))
                (respBody (resp s) ++ [faultEnvelope (lookedUpID (Some (rContext r)))]) /\
    last (logs s') = Some (mkLog LInfo "request processed"
                             [FString "method" (Method r); FString "path" (URLPath r);
                              FString "remote_addr" (RemoteAddr r); FInt "status" 500;
                              FDuration "duration" dur; FString "request_id" requestID]) /\
    (forall c, In c (cellsOf w) -> (c < length (lrwStatus s))%nat ->
               lrwStatus s' !! c = Some 500) /\
    metrics s' = metrics s.
Proof.
  intros Hid Hnone Hh. simpl.
  unfold logMiddleware. unfold bind at 1 2 3, enter, modify, Now, newLoggingResponseWriter.
  simpl.
  set (lrw := LoggingWriter (length (lrwStatus s)) (Some (rContext r)) w).
  match goal with |- context [bind (recoveryMiddleware a ?nx lrw r) ?post ?s0] =>
    set (sa := s0); set (k := post) end.
  assert (Hrec : exists se,
    recoveryMiddleware a (timeoutMiddleware a d h) lrw r sa = (Ok tt, se) /\
    resp se = mkResponse (<["Content-Type" := "application/json"]> (respHeader (resp s)))
                (Some (500, <["Content-Type" := "application/json"]> (respHeader (resp s))))
                (respBody (resp s) ++ [faultEnvelope (lookedUpID (Some (rContext r)))]) /\
    (forall c, In c (cellsOf lrw) -> (c < length (lrwStatus sa))%nat ->
               lrwStatus se !! c = Some 500) /\
    metrics se = metrics s).
  { unfold recoveryMiddleware. unfold bind at 1, enter, modify. unfold deferRecover.
    unfold timeoutMiddleware at 1. unfold bind at 1 2, enter, modify, Now. simpl.
    match goal with |- context [h lrw ?rq ?s0] =>
      match rq with context [WithTimeout _ ?dl] =>
        change rq with (WithContext r (WithTimeout (rContext r) dl));
        destruct (Hh lrw dl s0) as (v & sd & Hrun & Hr & Hl & Hm)
      end
    end.
    rewrite Hrun.
    destruct (recovered_response a (length (lrwStatus s)) (Some (rContext r)) w r requestID v sd
                Hid) as (se & Hse & Hresp & Hcells & Hlen & Hmet).
    { rewrite Hr. exact Hnone. }
    exists se. split; [exact Hse|]. rewrite Hr in Hresp. split; [exact Hresp|].
    split.
    - intros c Hc Hlt. apply Hcells; [exact Hc|]. rewrite Hl. exact Hlt.
    - rewrite Hmet, Hm. reflexivity. }
  destruct Hrec as (se & Hrun & Hresp & Hcells & Hmet).
  unfold bind at 1. rewrite Hrun. subst k. cbv beta.
  assert (Hstatus : lrwStatus se !! length (lrwStatus s) = Some 500).
  { apply Hcells; [by left|]. subst sa. simpl. rewrite length_app. simpl. lia. }
  unfold bind, statusCode, gets, Since, Now, lrwRequestID, Value_string, logf, modify, ret, lrw.
  simpl. rewrite Hid, Hstatus. simpl.
  eexists _, _. split; [reflexivity|]. simpl.
  split; [exact Hresp|]. split; [by rewrite last_snoc|].
  split; [|exact Hmet].
  intros c Hc Hlt. apply Hcells; [by right|]. subst sa. simpl. rewrite length_app. lia.
Qed.

Lemma inner_stages_panic a config (h : HandlerFunc) w r requestID s :
  Value (rContext r) contextKeyRequestID = Some (VString requestID) ->
  (MetricsEnabled config = true -> labelsAccepted r = true) ->
  wroteHeader (resp s) = None ->
  (forall w' deadline s0,
      exists v s', h w' (WithContext r (WithTimeout (rContext r) deadline)) s0 = (Panic v, s') /\
                   resp s' = resp s0 /\ lrwStatus s' = lrwStatus s0 /\ metrics s' = metrics s0) ->
  exists s' dur,
    wrap a ((if MetricsEnabled config then [MwMetrics] else [])
            ++ [MwLog; MwRecovery; MwTimeout (HandlerTimeout config)]) h w r s = (Ok tt, s') /\
    resp s' = mkResponse (<["Content-Type" := "application/json"]> (respHeader (resp s)))
                (Some (500, <["Content-Type" := "application/json"]> (respHeader (resp s))))
                (respBody (resp s) ++ [faultEnvelope (lookedUpID (Some (rContext r)))]) /\
    last (logs s') = Some (mkLog LInfo "request processed"
                             [FString "method" (Method r); FString "path" (URLPath r);
                              FString "remote_addr" (RemoteAddr r); FInt "status" 500;
                              FDuration "duration" dur; FString "request_id" requestID]) /\
    (MetricsEnabled config = true ->
     In (CounterInc (Method r) (URLPath r) 500) (metrics s')).
Proof.
  intros Hid Hl Hnone Hh. destruct (MetricsEnabled config); simpl app.
  - specialize (Hl eq_refl).
    change (wrap a (MwMetrics :: ?l) h) with (metricsMiddleware a (wrap a l h)).
    unfold metricsMiddleware.
    unfold bind at 1 2 3, enter, modify, Now, newLoggingResponseWriter. simpl.
    set (lrw := LoggingWriter (length (lrwStatus s)) (Some (rContext r)) RawWriter).
    match goal with |- context [bind (logMiddleware a ?nx ?lw r) ?post ?s0] =>
      destruct (log_recovery_timeout_panic a (HandlerTimeout config) h lw r requestID s0
                  Hid Hnone Hh) as (se & dur & Hrun & Hresp & Hlog & Hcells & Hmet)
    end.
    simpl in Hrun. unfold bind at 1. rewrite Hrun.
    match type of Hcells with forall c, In c (cellsOf ?lw) -> _ =>
      assert (Hstatus : lrwStatus se !! length (lrwStatus s) = Some 500)
        by (apply Hcells; [by left|]; simpl; rewrite length_app; simpl; lia)
    end.
    unfold bind, Since, Now, statusCode, gets. simpl.
    rewrite !observe_accepted
      by (by rewrite ?labelsAccepted_counter, ?labelsAccepted_histogram).
    unfold modify, ret. simpl.
    rewrite Hstatus. simpl.
    eexists _, dur. split; [reflexivity|]. simpl.
    split; [exact Hresp|]. split; [exact Hlog|].
    intros _. apply in_or_app. left. apply in_or_app. right. by left.
  - destruct (log_recovery_timeout_panic a (HandlerTimeout config) h w r requestID s
                Hid Hnone Hh) as (se & dur & Hrun & Hresp & Hlog & _ & _).
    exists se, dur. split; [exact Hrun|]. split; [exact Hresp|]. split; [exact Hlog|].
    discriminate.
Qed.

Lemma prefix_run_headers a config r s :
  corsPasses config r ->
  exists s1,
    (forall rest (h : HandlerFunc),
      wrap a ((if CORSEnabled (CORS config) then [MwCORS (corsOptions (CORS config))] else [])
              ++ [MwRequestID; MwSecurityHeaders] ++ rest) h RawWriter r s
      = wrap a rest h RawWriter
          (WithContext r (WithValue (rContext r) contextKeyRequestID (VString (xid (xidReads s))))) s1) /\
    sameRegistry s s1 /\
    sent s1 = sent s /\
    respHeader (resp s1) !! "X-Request-ID" = Some (xid (xidReads s)) /\
    respHeader (resp s1) !! "X-Content-Type-Options" = Some "nosniff" /\
    respHeader (resp s1) !! "X-Frame-Options" = Some "DENY" /\
    respHeader (resp s1) !! "X-XSS-Protection" = Some "1; mode=block" /\
    respHeader (resp s1) !! "Strict-Transport-Security"
      = Some "max-age=63072000; includeSubDomain".
Proof.
  intros Hcors. unfold corsPasses in Hcors.
  destruct (CORSEnabled (CORS config)).
  - destruct (Hcors eq_refl) as [hdrs Hpass].
    eexists. split.
    + intros rest h. simpl. unfold corsMiddleware at 1. unfold bind at 1, enter, modify.
      rewrite Hpass. unfold bind at 1. rewrite setHeaders_run.
      unfold requestIDMiddleware, securityHeadersMiddleware, bind, enter, modify, xid_New,
        Header_Set. simpl. reflexivity.
    + unfold sameRegistry, sent. simpl. repeat split; try reflexivity;
        repeat (rewrite lookup_insert_ne by discriminate); apply lookup_insert_eq.
  - eexists. split.
    + intros rest h. simpl. unfold requestIDMiddleware, securityHeadersMiddleware, bind, enter,
        modify, xid_New, Header_Set. simpl. reflexivity.
    + unfold sameRegistry, sent. simpl. repeat split; try reflexivity;
        repeat (rewrite lookup_insert_ne by discriminate); apply lookup_insert_eq.
Qed.

Lemma panicking_route_run config (h : HandlerFunc) r s :
  corsPasses config r ->
  grants (Start (NewApp config)) r s ->
  (MetricsEnabled config = true -> labelsAccepted r = true) ->
  wroteHeader (resp s) = None ->
  panicsUnanswered h r (xid (xidReads s)) ->
  exists s' hdrs dur,
    wrap (Start (NewApp config)) (routerMiddleware (Start (NewApp config))) h RawWriter r s
      = (Ok tt, s') /\
    wroteHeader (resp s') = Some (500, hdrs) /\
    hdrs !! "X-Request-ID" = Some (xid (xidReads s)) /\
    hdrs !! "Content-Type" = Some "application/json" /\
    hdrs !! "X-Content-Type-Options" = Some "nosniff" /\
    hdrs !! "X-Frame-Options" = Some "DENY" /\
    hdrs !! "X-XSS-Protection" = Some "1; mode=block" /\
    hdrs !! "Strict-Transport-Security" = Some "max-age=63072000; includeSubDomain" /\
    respBody (resp s') = respBody (resp s) ++ [faultEnvelope (lookedUpID (Some (rContext r)))] /\
    last (logs s') = Some (mkLog LInfo "request processed"
                             [FString "method" (Method r); FString "path" (URLPath r);
                              FString "remote_addr" (RemoteAddr r); FInt "status" 500;
                              FDuration "duration" dur;
                              FString "request_id" (xid (xidReads s))]) /\
    (MetricsEnabled config = true ->
     In (CounterInc (Method r) (URLPath r) 500) (metrics s')).
Proof.
  intros Hcors Hgr Hl Hnone Hpanic. rewrite Start_NewApp in *. set (a := mkApp _ _ _ _) in *.
  destruct (prefix_run_headers a config r s Hcors)
    as (s1 & Hrun & Hreg & Hsent & H1 & H2 & H3 & H4 & H5).
  simpl routerMiddleware. unfold routerChain. rewrite Hrun.
  set (r' := WithContext r _).
  assert (Hid : Value (rContext r') contextKeyRequestID = Some (VString (xid (xidReads s))))
    by reflexivity.
  assert (Hh : forall w' deadline s0,
      exists v s', h w' (WithContext r' (WithTimeout (rContext r') deadline)) s0 = (Panic v, s') /\
                   resp s' = resp s0 /\ lrwStatus s' = lrwStatus s0 /\ metrics s' = metrics s0).
  { intros w' deadline s0. exact (Hpanic w' deadline s0). }
  assert (Hinner : forall sg, resp sg = resp s1 ->
    exists s' hdrs dur,
      wrap a ((if MetricsEnabled config then [MwMetrics] else [])
              ++ [MwLog; MwRecovery; MwTimeout (HandlerTimeout config)]) h RawWriter r' sg
        = (Ok tt, s') /\
      wroteHeader (resp s') = Some (500, hdrs) /\
      hdrs !! "X-Request-ID" = Some (xid (xidReads s)) /\
      hdrs !! "Content-Type" = Some "application/json" /\
      hdrs !! "X-Content-Type-Options" = Some "nosniff" /\
      hdrs !! "X-Frame-Options" = Some "DENY" /\
      hdrs !! "X-XSS-Protection" = Some "1; mode=block" /\
      hdrs !! "Strict-Transport-Security" = Some "max-age=63072000; includeSubDomain" /\
      respBody (resp s') = respBody (resp s) ++ [faultEnvelope (lookedUpID (Some (rContext r)))] /\
      last (logs s') = Some (mkLog LInfo "request processed"
                               [FString "method" (Method r); FString "path" (URLPath r);
                                FString "remote_addr" (RemoteAddr r); FInt "status" 500;
                                FDuration "duration" dur;
                                FString "request_id" (xid (xidReads s))]) /\
      (MetricsEnabled config = true ->
       In (CounterInc (Method r) (URLPath r) 500) (metrics s'))).
  { intros sg Hsg.
    assert (Hnoneg : wroteHeader (resp sg) = None).
    { rewrite Hsg. unfold sent in Hsent. injection Hsent as Hw _. by rewrite Hw. }
    destruct (inner_stages_panic a config h RawWriter r' (xid (xidReads s)) sg Hid Hl Hnoneg Hh)
      as (s' & dur & Hwrap & Hresp & Hlog & Hmet).
    exists s', (<["Content-Type" := "application/json"]> (respHeader (resp sg))), dur.
    split; [exact Hwrap|]. rewrite Hresp, Hsg. simpl.
    split; [reflexivity|].
    repeat (split; [rewrite lookup_insert_ne by discriminate; assumption|]).
    split; [apply lookup_insert_eq|].
    repeat (split; [rewrite lookup_insert_ne by discriminate; assumption|]).
    split; [|split; [exact Hlog|exact Hmet]].
    unfold sent in Hsent. injection Hsent as _ Hb. by rewrite Hb. }
  destruct (Enabled (RateLimiter config)) eqn:Hen; simpl.
  - destruct (bypasses a r) eqn:Hby.
    + rewrite gate_bypass by exact Hby. apply Hinner. reflexivity.
    + destruct Hgr as [Habs|[sd Hc]]; [congruence|].
      destruct (consult_transfer a r s (set_trace (fun t => t ++ [SRateLimit]) s1) true sd)
        as [s2 Hc2]; [exact Hreg|exact Hc|].
      rewrite (gate_verdict a _ RawWriter r' s1 true s2 Hby Hc2).
      apply Hinner.
      pose proof (consult_keeps_resp a r (set_trace (fun t => t ++ [SRateLimit]) s1)) as Kr.
      rewrite Hc2 in Kr. exact Kr.
  - apply Hinner. reflexivity.
Qed.

(** X15. Fault isolation, end to end.  In the chain [NewApp] and [Start]
    build, a route whose handler panics before it has written anything is
    answered with status 500 and the body {code 500, message "Internal
    server error"}; the response carries the request id in X-Request-ID,
    the JSON content type and the security headers; the request is logged
    as processed with status 500 and its id, and counted with status 500
    when metrics are enabled.  No panic reaches the server.  This is for
    a request the metrics stage, when there is one, can label. *)
Theorem panicking_route_is_answered_500 config (h : HandlerFunc) r s :
  corsPasses config r ->
  grants (Start (NewApp config)) r s ->
  (MetricsEnabled config = true -> labelsAccepted r = true) ->
  wroteHeader (resp s) = None ->
  panicsUnanswered h r (xid (xidReads s)) ->
  exists s' hdrs dur,
    wrap (Start (NewApp config)) (routerMiddleware (Start (NewApp config))) h RawWriter r s
      = (Ok tt, s') /\
    wroteHeader (resp s') = Some (500, hdrs) /\
    hdrs !! "X-Request-ID" = Some (xid (xidReads s)) /\
    hdrs !! "Content-Type" = Some "application/json" /\
    hdrs !! "X-Content-Type-Options" = Some "nosniff" /\
    hdrs !! "X-Frame-Options" = Some "DENY" /\
    hdrs !! "X-XSS-Protection" = Some "1; mode=block" /\
    hdrs !! "Strict-Transport-Security" = Some "max-age=63072000; includeSubDomain" /\
    respBody (resp s') = respBody (resp s) ++ [faultEnvelope (lookedUpID (Some (rContext r)))] /\
    last (logs s') = Some (mkLog LInfo "request processed"
                             [FString "method" (Method r); FString "path" (URLPath r);
                              FString "remote_addr" (RemoteAddr r); FInt "status" 500;
                              FDuration "duration" dur;
                              FString "request_id" (xid (xidReads s))]) /\
    (MetricsEnabled config = true ->
     In (CounterInc (Method r) (URLPath r) 500) (metrics s')).
Proof. apply panicking_route_run. Qed.

(** A route registered with [Handle] whose handler panics at once. *)
Lemma Handle_panicsUnanswered a (handler : Handler) r requestID v :
  (forall s ctx r', hOps (handler s ctx r') = [] /\ hReturn (handler s ctx r') = Panics v) ->
  panicsUnanswered (Handle a handler) r requestID.
Proof.
  intros Hact w deadline s. unfold Handle, bind, enter, modify, gets. simpl.
  match goal with |- context [handler ?s0 ?c ?rq] => destruct (Hact s0 c rq) as [Ho Hr] end.
  rewrite Ho, Hr. simpl. unfold panic. eexists _, _. split; [reflexivity|]. by repeat split.
Qed.

(** ** Registration of middleware *)

Lemma applyMiddleware_fold mws : forall a,
  routerMiddleware (fold_left Router_Use mws a) = routerMiddleware a ++ mws /\
  middleware (fold_left Router_Use mws a) = middleware a /\
  appConfig (fold_left Router_Use mws a) = appConfig a /\
  rateLimiterSet (fold_left Router_Use mws a) = rateLimiterSet a.
Proof.
  induction mws as [|m rest IH]; intros a; simpl.
  - by rewrite app_nil_r.
  - destruct (IH (Router_Use a m)) as (H1 & H2 & H3 & H4).
    rewrite H1, H2, H3, H4. simpl. by rewrite <- app_assoc.
Qed.

(** X16. [Start] puts the middlewares collected by [Use] on the router
    behind those it already has, in the order of the [Use] calls, and
    leaves the collection in place.  So a middleware registered with [Use]
    after [NewApp] runs innermost, behind the deadline stage, and a second
    [Start] registers every collected stage once more. *)
Theorem Start_appends_collected_middleware a config m :
  routerMiddleware (Start a) = routerMiddleware a ++ middleware a /\
  middleware (Start a) = middleware a /\
  routerMiddleware (Start (Use (NewApp config) m)) = routerChain config ++ [m] /\
  routerMiddleware (Start (Start a)) = routerMiddleware a ++ middleware a ++ middleware a.
Proof.
  unfold Start, applyMiddleware.
  destruct (applyMiddleware_fold (middleware a) a) as (H1 & H2 & _).
  split; [exact H1|]. split; [exact H2|]. split.
  - destruct (applyMiddleware_fold (middleware (Use (NewApp config) m)) (Use (NewApp config) m))
      as (G1 & _).
    rewrite G1. clear.
    destruct config as [ll me ht st [en rps bu ttl str] [ce ao am ah eh ac ma]].
    destruct en, me, ce; reflexivity.
  - destruct (applyMiddleware_fold (middleware (fold_left Router_Use (middleware a) a))
                (fold_left Router_Use (middleware a) a)) as (G1 & _).
    rewrite G1, H1, H2. by rewrite <- app_assoc.
Qed.

(** ** The health endpoint *)

(** [HealthCheck]; [Check] returns nil or an error, here its message. *)
Record HealthCheck := mkHealthCheck {
  hcName : string;
  hcDescription : string;
  hcCheck : Context -> option string
}.

(** An entry of the [results] map of [healthHandler]. *)
Inductive CheckResult :=
| Healthy (timestamp : Time)
| Unhealthy (err : string) (timestamp : Time).

(** The JSON encoding of the health response (status text, checks and
    duration, the latter formatted by [Duration.String]) is the encoder's. *)
Variable renderHealth : string -> gmap string CheckResult -> Duration -> string.

(** [a.JSON(w, status, data)], which returns the encoder's error; the
    name [JSON] is the type of documents. *)
Definition App_JSON (a : App) (w : ResponseWriter) (status : Z) (data : Body)
    : M (option string) :=
  Header_Set w "Content-Type" "application/json" ;;;
  WriteHeader w status ;;;
  Encode w data.

(** [a.AddHealthCheck(name, check)], on the map [a.healthChecks]. *)
Definition AddHealthCheck (checks : gmap string HealthCheck) (name : string)
    (check : HealthCheck) : gmap string HealthCheck :=
  <[name := check]> checks.

(** The goroutines of [healthHandler], one per check: each runs its check
    and stores the outcome under its name with the time it finished.  They
    write different keys under a mutex; the model runs them one after
    another. *)
Fixpoint runChecks (ctx : Context) (checks : list (string * HealthCheck))
    (results : gmap string CheckResult) : M (gmap string CheckResult) :=
  match checks with
  | [] => ret results
  | (name, check) :: rest =>
      let err := hcCheck check ctx in
      let* now := Now in
      runChecks ctx rest
        (<[name := match err with
                   | Some e => Unhealthy e now
                   | None => Healthy now
                   end]> results)
  end.

Definition isHealthy (res : CheckResult) : bool :=
  match res with
  | Healthy _ => true
  | Unhealthy _ _ => false
  end.

(** [http.StatusText], for the two statuses the handler uses. *)
Definition StatusText (status : Z) : string :=
  if status =? 200 then "OK" else "Service Unavailable".

Definition healthHandler (a : App) (checks : gmap string HealthCheck) : HandlerFunc :=
  fun w r =>
    if (size checks =? 0)%nat
    then App_JSON a w 200 (BodyJSON [("status", JStr "OK")]) ;;; ret tt
    else
      let* now := Now in
      let ctx := WithTimeout (rContext r) (now + 5000000000) in
      let* results := runChecks ctx (map_to_list checks) ∅ in
      if (size results =? 0)%nat
      then App_JSON a w 200 (BodyJSON [("status", JStr "OK")]) ;;; ret tt
      else
        let status := if forallb isHealthy (map snd (map_to_list results)) then 200 else 503 in
        let* start := match Value ctx (KString "start_time") with
                      | Some (VTime t) => ret t
                      | Some (VString _) =>
                          panic "interface conversion: interface {} is string, not time.Time"
                      | None =>
                          panic "interface conversion: interface {} is nil, not time.Time"
                      end in
        let* d := Since start in
        App_JSON a w status (BodyRaw (renderHealth (StatusText status) results d)) ;;;
        ret tt.

Lemma keeps_clock_WriteHeader w code : keeps clockReads (WriteHeader w code).
Proof. induction w; simpl; keeps_auto. Qed.

Lemma runChecks_run ctx checks : forall results s,
  exists res,
    runChecks ctx checks results s
      = (Ok res, set_clockReads (fun n => (n + length checks)%nat) s) /\
    (forall name, is_Some (res !! name)
                  <-> is_Some (results !! name) \/ In name (map fst checks)).
Proof.
  induction checks as [|[name check] rest IH]; intros results s; simpl.
  - exists results. split.
    + unfold ret. f_equal. destruct s. unfold set_clockReads. simpl. f_equal. lia.
    + intros n. split; [by left|]. by intros [H|[]].
  - unfold bind, Now.
    destruct (IH (<[name := match hcCheck check ctx with
                            | Some e => Unhealthy e (clock (clockReads s))
                            | None => Healthy (clock (clockReads s))
                            end]> results) (set_clockReads S s)) as (res & Hrun & Hdom).
    exists res. rewrite Hrun. split.
    + f_equal. unfold set_clockReads. simpl. f_equal. lia.
    + intros n. rewrite Hdom. rewrite lookup_insert_is_Some. split.
      * intros [[->|[_ H]]|H]; [right; by left|by left|right; by right].
      * intros [H|[<-|H]]; [|left; by left|by right].
        destruct (decide (name = n)) as [->|Hne]; [left; by left|left; right; by split].
Qed.

Lemma healthHandler_panics a checks w r s :
  checks <> ∅ ->
  (forall t, Value (rContext r) (KString "start_time") <> Some (VTime t)) ->
  exists v s',
    healthHandler a checks w r s = (Panic v, s') /\
    s' = set_clockReads (fun n => (n + 1 + size checks)%nat) s.
Proof.
  intros Hne Hno. unfold healthHandler.
  assert (Hsize : size checks <> 0%nat) by (by intros H%map_size_empty_inv).
  apply Nat.eqb_neq in Hsize. rewrite Hsize.
  unfold bind at 1, Now. unfold bind at 1.
  destruct (runChecks_run (WithTimeout (rContext r) (clock (clockReads s) + 5000000000))
              (map_to_list checks) ∅ (set_clockReads S s)) as (res & Hrun & Hdom).
  rewrite Hrun.
  assert (Hres : size res <> 0%nat).
  { intros Habs%map_size_empty_inv. subst res.
    destruct (map_choose checks Hne) as (name & check & Hc).
    assert (is_Some ((∅ : gmap string CheckResult) !! name)) as [x Hx].
    { apply Hdom. right. apply in_map_iff. exists (name, check). split; [reflexivity|].
      apply list_elem_of_In. by apply elem_of_map_to_list. }
    by rewrite lookup_empty in Hx. }
  apply Nat.eqb_neq in Hres. rewrite Hres. simpl.
  unfold bind at 1.
  assert (Hs : set_clockReads (fun n => (n + length (map_to_list checks))%nat)
                 (set_clockReads S s)
               = set_clockReads (fun n => (n + 1 + size checks)%nat) s).
  { unfold set_clockReads. simpl. f_equal. rewrite length_map_to_list. lia. }
  destruct (Value (rContext r) (KString "start_time")) as [[x|t]|] eqn:E.
  - unfold panic. eexists _, _. split; [reflexivity|exact Hs].
  - by destruct (Hno t).
  - unfold panic. eexists _, _. split; [reflexivity|exact Hs].
Qed.

(** X17. The health endpoint with at least one check registered, on a
    request whose context holds no time under the string key "start_time"
    (nothing in the package stores one): the handler runs every check,
    reading the clock once for the deadline and once per check, and then
    panics on the type assertion before it has written anything, for
    healthy and unhealthy checks alike. *)
Theorem healthHandler_panics_with_checks a checks w r s :
  checks <> ∅ ->
  (forall t, Value (rContext r) (KString "start_time") <> Some (VTime t)) ->
  exists v s',
    healthHandler a checks w r s = (Panic v, s') /\
    sent s' = sent s /\
    clockReads s' = (clockReads s + 1 + size checks)%nat.
Proof.
  intros Hne Hno.
  destruct (healthHandler_panics a checks w r s Hne Hno) as (v & s' & Hrun & ->).
  exists v. eexists. split; [exact Hrun|]. split; reflexivity.
Qed.

(** X18. The health endpoint without checks answers 200 with the body
    {"status": "OK"} when nothing was sent before, without reading the
    clock. *)
Theorem healthHandler_without_checks a w r s :
  wroteHeader (resp s) = None ->
  exists s',
    healthHandler a ∅ w r s = (Ok tt, s') /\
    wroteHeader (resp s')
      = Some (200, <["Content-Type" := "application/json"]> (respHeader (resp s))) /\
    respBody (resp s') = respBody (resp s) ++ [BodyJSON [("status", JStr "OK")]] /\
    clockReads s' = clockReads s.
Proof.
  intros Hnone. unfold healthHandler. rewrite map_size_empty. simpl.
  unfold App_JSON. unfold bind at 1 2, Header_Set, modify. unfold bind at 1.
  match goal with |- context [WriteHeader w 200 ?s0] =>
    destruct (WriteHeader_fresh w 200 s0) as (s1 & Hwh & Hresp); [exact Hnone|lia|];
    pose proof (keeps_clock_WriteHeader w 200 s0) as Kc
  end.
  rewrite Hwh in Kc. simpl in Kc. rewrite Hwh, Encode_run. unfold ret.
  eexists. split; [reflexivity|]. unfold sentAfterWrite. simpl. rewrite Hresp. simpl.
  repeat split; try reflexivity. exact Kc.
Qed.

(** X19. The health endpoint behind the default chain of a new
    application, with at least one check registered: a request that passes
    CORS and the rate limit is answered with status 500 and the
    internal-fault envelope, whatever the checks report.  (The path of the
    route, /health, is a label the metrics stage accepts.) *)
Theorem health_route_answers_500_with_checks config checks r s :
  checks <> ∅ ->
  (forall t, Value (rContext r) (KString "start_time") <> Some (VTime t)) ->
  corsPasses config r ->
  grants (Start (NewApp config)) r s ->
  (MetricsEnabled config = true -> labelsAccepted r = true) ->
  wroteHeader (resp s) = None ->
  exists s',
    wrap (Start (NewApp config)) (routerMiddleware (Start (NewApp config)))
      (healthHandler (Start (NewApp config)) checks) RawWriter r s = (Ok tt, s') /\
    (exists headers, wroteHeader (resp s') = Some (500, headers)) /\
    respBody (resp s')
      = respBody (resp s) ++ [faultEnvelope (lookedUpID (Some (rContext r)))].
Proof.
  intros Hne Hno Hcors Hgr Hl Hnone.
  assert (Hp : panicsUnanswered (healthHandler (Start (NewApp config)) checks) r
                 (xid (xidReads s))).
  { intros w dl s0.
    destruct (healthHandler_panics (Start (NewApp config)) checks w
                (asServed r (xid (xidReads s)) dl) s0 Hne) as (v & s' & Hrun & ->).
    - intros t. simpl. apply Hno.
    - exists v. eexists. split; [exact Hrun|]. by repeat split. }
  destruct (panicking_route_run config _ r s Hcors Hgr Hl Hnone Hp)
    as (s' & hdrs & dur & Hrun & Hwrote & _ & _ & _ & _ & _ & _ & Hbody & _).
  exists s'. split; [exact Hrun|]. split; [by exists hdrs|exact Hbody].
Qed.

(** ** The user stack: repository, service and handlers *)

(** [models.User], without its time stamps, which the code here never
    reads; [ID] is an int32. *)
Record User := mkUser { ID : Z; Name : string; Email : string; Password : string }.

(** [models.CreateUserParams] and [models.UpdateUserParams], as the
    service fills them. *)
Record CreateUserParams := mkCreateUserParams {
  createName : string;
  createEmail : string;
  createPassword : string
}.

Record UpdateUserParams := mkUpdateUserParams {
  updateID : Z;
  updateName : string;
  updateEmail : string;
  updatePassword : string
}.

(** Errors of the generated queries, by what the repository asks of them:
    whether [errors.Is] finds the [ErrNoRows] of the pgx package the
    repository imports, or [errors.As] a [PgError] of that package. *)
Inductive DbError :=
| pgx_ErrNoRows
| pgx_PgError (code : string)
| DbFailure (text : string).

(** The [errors.New] values of the two packages; two of them have the same
    text and are different values. *)
Inductive Sentinel :=
| repository_ErrUserNotFound
| repository_ErrEmailExists
| repository_ErrInvalidInput
| service_ErrInvalidEmail
| service_ErrWeakPassword
| service_ErrUserNotFound
| service_ErrEmailExists
| service_ErrInvalidCredentials.

Global Instance Sentinel_eq_dec : EqDecision Sentinel.
Proof. solve_decision. Defined.

Definition Sentinel_Error (e : Sentinel) : string :=
  match e with
  | repository_ErrUserNotFound => "user not found"
  | repository_ErrEmailExists => "email already exists"
  | repository_ErrInvalidInput => "invalid input"
  | service_ErrInvalidEmail => "invalid email format"
  | service_ErrWeakPassword => "password must be at least 8 characters"
  | service_ErrUserNotFound => "user not found"
  | service_ErrEmailExists => "email already registered"
  | service_ErrInvalidCredentials => "invalid credentials"
  end.

(** The [error] values of the stack, with the identity [errors.Is] asks
    for: an error of the database, of bcrypt or of the response writer, a
    package value, a [fmt.Errorf] with [%w], or a [*APIError]. *)
Inductive Err :=
| EDriver (e : DbError)
| EBcrypt (text : string)
| EWrite (text : string)
| ESentinel (e : Sentinel)
| EWrapf (text : string) (inner : Err)
| EAPIError (p : nat).

Definition DbError_Error (e : DbError) : string :=
  match e with
  | pgx_ErrNoRows => "no rows in result set"
  | pgx_PgError code => code
  | DbFailure text => text
  end.

(** The same value as the error path sees it, which asks only for a
    [*APIError] in the chain. *)
Fixpoint asError (e : Err) : error :=
  match e with
  | EDriver d => ErrPlain (DbError_Error d)
  | EBcrypt text => ErrPlain text
  | EWrite text => ErrPlain text
  | ESentinel v => ErrPlain (Sentinel_Error v)
  | EWrapf text inner => ErrWrap text (asError inner)
  | EAPIError p => ErrAPI p
  end.

(** [errors.Is(err, target)] for a package value as target. *)
Fixpoint errors_Is (err : Err) (target : Sentinel) : bool :=
  match err with
  | ESentinel v => bool_decide (v = target)
  | EWrapf _ inner => errors_Is inner target
  | _ => false
  end.

(** [errors.Is(err, pgx.ErrNoRows)] on an error of the queries. *)
Definition isNoRows (err : DbError) : bool :=
  match err with
  | pgx_ErrNoRows => true
  | _ => false
  end.

Definition isDuplicateKeyError (err : DbError) : bool :=
  match err with
  | pgx_PgError code => String.eqb code "23505"
  | _ => false
  end.

(** A [micro.Logger]: the fields [With] has collected. *)
Definition Logger := list Field.

Definition With (l : Logger) (fs : list Field) : Logger := l ++ fs.

Definition Logger_Info (l : Logger) (m : string) (fs : list Field) : M unit :=
  logf LInfo m (l ++ fs).

Definition Logger_Warn (l : Logger) (m : string) (fs : list Field) : M unit :=
  logf LWarn m (l ++ fs).

Definition Logger_Error (l : Logger) (m : string) (fs : list Field) : M unit :=
  logf LError m (l ++ fs).

(** [a.Logger], which has no fields of its own. *)
Definition appLogger : Logger := [].

(** The field helpers of the package. *)
Definition MethodField (method : string) : Field := FString "method" method.
Definition UserIDField (id : Z) : Field := FInt "user_id" id.
Definition EmailField (email : string) : Field := FString "email" email.
Definition ErrorField (err : Err) : Field := FError (asError err).

(** The generated queries: the database's answers at the time of the
    request. *)
Record Queries := mkQueries {
  queries_CreateUser : Context -> CreateUserParams -> User + DbError;
  queries_GetUserByID : Context -> Z -> User + DbError;
  queries_GetUserByEmail : Context -> string -> User + DbError;
  queries_UpdateUser : Context -> UpdateUserParams -> User + DbError;
  queries_DeleteUser : Context -> Z -> option DbError
}.

(** The interface [UserRepository]. *)
Record UserRepository := mkUserRepository {
  repo_CreateUser : Context -> CreateUserParams -> M (User + Err);
  repo_GetUserByID : Context -> Z -> M (User + Err);
  repo_UpdateUser : Context -> UpdateUserParams -> M (User + Err);
  repo_DeleteUser : Context -> Z -> M (option Err);
  repo_GetUserByEmail : Context -> string -> M (User + Err)
}.

Record userRepo := mkUserRepo { repoQueries : Queries; repoLogger : Logger }.

(** [RegisterParams] and [UpdateParams] of the service; a nil pointer is
    [None]. *)
Record RegisterParams := mkRegisterParams {
  registerName : string;
  registerEmail : string;
  registerPassword : string
}.

Record UpdateParams := mkUpdateParams {
  paramsID : Z;
  paramsName : option string;
  paramsEmail : option string;
  paramsPassword : option string
}.

(** The anonymous struct [Login] decodes into. *)
Record Credentials := mkCredentials { credEmail : string; credPassword : string }.

(** The interface [UserService]. *)
Record UserService := mkUserService {
  svc_RegisterUser : Context -> RegisterParams -> M (User + Err);
  svc_GetUserByID : Context -> Z -> M (User + Err);
  svc_UpdateUser : Context -> UpdateParams -> M (User + Err);
  svc_DeleteUser : Context -> Z -> M (option Err);
  svc_Authenticate : Context -> string -> string -> M (User + Err)
}.

Record userService := mkUserServiceImpl { svcRepo : UserRepository; svcLogger : Logger }.

Record UserHandler := mkUserHandler { hService : UserService; hApp : App }.

(** What [a.Validator.Struct] returns: nil, validation errors (field and
    tag of each), or another error. *)
Inductive ValidationResult :=
| Valid
| ValidationErrors (ve : list (string * string))
| InvalidValidation.

(** A type [Decode] can fill: the JSON decoder on the request's body, and
    the validator on the value. *)
Class Bindable (T : Type) := {
  decodeBody : Request -> option T;
  Struct : T -> ValidationResult
}.

(** [int32(n)] for an int. *)
Definition int32 (n : Z) : Z := (n + 2 ^ 31) mod 2 ^ 32 - 2 ^ 31.

Section Users.

(** Outside the repository: how zap renders the parameters it is given
    with [zap.Any], bcrypt, the regular-expression matcher, the route
    variables of mux, and [strconv.Atoi]. *)
Variable anyCreateUserParams : CreateUserParams -> string.
Variable anyUpdateUserParams : UpdateUserParams -> string.
Variable GenerateFromPassword : string -> Z -> string + string.
Variable CompareHashAndPassword : string -> string -> option string.
Variable MatchString : string -> string -> bool.
Variable Vars : Request -> gmap string string.
Variable Atoi : string -> option Z.
Context {bindRegister : Bindable RegisterParams} {bindCredentials : Bindable Credentials}
        {bindUpdate : Bindable UpdateParams}.

(** *** repository *)

Definition userRepo_CreateUser (r : userRepo) (ctx : Context) (params : CreateUserParams)
    : M (User + Err) :=
  let logger := With (repoLogger r)
                  [FString "method" "CreateUser"; FAny "params" (anyCreateUserParams params)] in
  match queries_CreateUser (repoQueries r) ctx params with
  | inr err =>
      if isDuplicateKeyError err then
        Logger_Warn logger "duplicate email attempt" [] ;;;
        ret (inr (ESentinel repository_ErrEmailExists))
      else
        Logger_Error logger "failed to create user" [FError (asError (EDriver err))] ;;;
        ret (inr (EWrapf "failed to create user" (EDriver err)))
  | inl user =>
      Logger_Info logger "user created successfully" [] ;;;
      ret (inl user)
  end.

Definition userRepo_GetUserByID (r : userRepo) (ctx : Context) (id : Z) : M (User + Err) :=
  let logger := With (repoLogger r) [FString "method" "GetUserByID"; FInt "user_id" id] in
  match queries_GetUserByID (repoQueries r) ctx id with
  | inr err =>
      if isNoRows err then
        Logger_Warn logger "user not found" [] ;;;
        ret (inr (ESentinel repository_ErrUserNotFound))
      else
        Logger_Error logger "failed to get user" [FError (asError (EDriver err))] ;;;
        ret (inr (EWrapf "failed to get user" (EDriver err)))
  | inl user => ret (inl user)
  end.

Definition userRepo_GetUserByEmail (r : userRepo) (ctx : Context) (email : string)
    : M (User + Err) :=
  let logger := With (repoLogger r) [FString "method" "GetUserByID"; FString "email" email] in
  match queries_GetUserByEmail (repoQueries r) ctx email with
  | inr err =>
      if isNoRows err then
        Logger_Warn logger "user not found" [] ;;;
        ret (inr (ESentinel repository_ErrUserNotFound))
      else
        Logger_Error logger "failed to get user" [FError (asError (EDriver err))] ;;;
        ret (inr (EWrapf "failed to get user" (EDriver err)))
  | inl user => ret (inl user)
  end.

Definition userRepo_UpdateUser (r : userRepo) (ctx : Context) (params : UpdateUserParams)
    : M (User + Err) :=
  let logger := With (repoLogger r)
                  [FString "method" "UpdateUser"; FAny "params" (anyUpdateUserParams params)] in
  match queries_UpdateUser (repoQueries r) ctx params with
  | inr err =>
      if isNoRows err then
        Logger_Warn logger "user not found for update" [] ;;;
        ret (inr (ESentinel repository_ErrUserNotFound))
      else if isDuplicateKeyError err then
        Logger_Warn logger "duplicate email attempt in updint64ate" [] ;;;
        ret (inr (ESentinel repository_ErrEmailExists))
      else
        Logger_Error logger "failed to update user" [FError (asError (EDriver err))] ;;;
        ret (inr (EWrapf "failed to update user" (EDriver err)))
  | inl user =>
      Logger_Info logger "user updated successfully" [] ;;;
      ret (inl user)
  end.

Definition userRepo_DeleteUser (r : userRepo) (ctx : Context) (id : Z) : M (option Err) :=
  let logger := With (repoLogger r) [FString "method" "DeleteUser"; FInt "user_id" id] in
  match queries_DeleteUser (repoQueries r) ctx id with
  | Some err =>
      if isNoRows err then
        Logger_Warn logger "user not found for deletion" [] ;;;
        ret (Some (ESentinel repository_ErrUserNotFound))
      else
        Logger_Error logger "failed to delete user" [FError (asError (EDriver err))] ;;;
        ret (Some (EWrapf "failed to delete user" (EDriver err)))
  | None =>
      Logger_Info logger "user deleted successfully" [] ;;;
      ret None
  end.

Definition NewUserRepository (queries : Queries) (logger : Logger) : UserRepository :=
  let r := mkUserRepo queries (With logger [FString "component" "user-repository"]) in
  mkUserRepository (userRepo_CreateUser r) (userRepo_GetUserByID r) (userRepo_UpdateUser r)
                   (userRepo_DeleteUser r) (userRepo_GetUserByEmail r).

(** *** service *)

Definition validatePassword (password : string) : option Err :=
  if (String.length password <? 8)%nat then Some (ESentinel service_ErrWeakPassword)
  else None.

Definition isValidEmail (email : string) : bool :=
  MatchString "^[a-zA-Z0-9._%+-]+@[a-zA-Z0-9.-]+\.[a-zA-Z]{2,}$" email.

(** [bcrypt.DefaultCost]. *)
Definition DefaultCost : Z := 10.

Definition userService_RegisterUser (s : userService) (ctx : Context) (params : RegisterParams)
    : M (User + Err) :=
  let cost := DefaultCost in
  let logger := With (svcLogger s)
                  [MethodField "RegisterUser"; EmailField (registerEmail params)] in
  match validatePassword (registerPassword params) with
  | Some err =>
      Logger_Warn logger "password validation failed" [] ;;;
      ret (inr err)
  | None =>
      match GenerateFromPassword (registerPassword params) cost with
      | inr err =>
          Logger_Error logger "failed to hash password" [ErrorField (EBcrypt err)] ;;;
          ret (inr (EAPIError ErrInternalServer))
      | inl hashedPassword =>
          let* created := repo_CreateUser (svcRepo s) ctx
                            (mkCreateUserParams (registerName params) (registerEmail params)
                                                hashedPassword) in
          match created with
          | inr err =>
              if errors_Is err repository_ErrEmailExists then
                ret (inr (ESentinel service_ErrEmailExists))
              else
                Logger_Error logger "failed to create user" [ErrorField err] ;;;
                ret (inr (EAPIError ErrInternalServer))
          | inl user =>
              Logger_Info logger "user registered successfully" [UserIDField (ID user)] ;;;
              ret (inl user)
          end
      end
  end.

Definition userService_GetUserByID (s : userService) (ctx : Context) (id : Z)
    : M (User + Err) :=
  let logger := With (svcLogger s) [MethodField "GetUserByID"; UserIDField id] in
  let* found := repo_GetUserByID (svcRepo s) ctx id in
  match found with
  | inr err =>
      if errors_Is err repository_ErrUserNotFound then
        ret (inr (ESentinel service_ErrUserNotFound))
      else
        Logger_Error logger "failed to retrieve user" [ErrorField err] ;;;
        ret (inr (EAPIError ErrInternalServer))
  | inl user => ret (inl user)
  end.

Definition userService_UpdateUser (s : userService) (ctx : Context) (params : UpdateParams)
    : M (User + Err) :=
  let logger := With (svcLogger s) [MethodField "UpdateUser"; UserIDField (paramsID params)] in
  let updateParams := mkUpdateUserParams (paramsID params) "" "" "" in
  let updateParams :=
    match paramsName params with
    | Some name => mkUpdateUserParams (updateID updateParams) name
                     (updateEmail updateParams) (updatePassword updateParams)
    | None => updateParams
    end in
  let updateParams :=
    match paramsEmail params with
    | Some email => mkUpdateUserParams (updateID updateParams) (updateName updateParams)
                      email (updatePassword updateParams)
    | None => updateParams
    end in
  let* hashed :=
    match paramsPassword params with
    | Some password =>
        match validatePassword password with
        | Some err => ret (inr err)
        | None =>
            match GenerateFromPassword password DefaultCost with
            | inr err =>
                Logger_Error logger "failed to hash password" [ErrorField (EBcrypt err)] ;;;
                ret (inr (EAPIError ErrInternalServer))
            | inl hashedPassword =>
                ret (inl (mkUpdateUserParams (updateID updateParams) (updateName updateParams)
                            (updateEmail updateParams) hashedPassword))
            end
        end
    | None => ret (inl updateParams)
    end in
  match hashed with
  | inr err => ret (inr err)
  | inl updateParams =>
      let* updated := repo_UpdateUser (svcRepo s) ctx updateParams in
      match updated with
      | inr err =>
          if errors_Is err repository_ErrUserNotFound then
            ret (inr (ESentinel service_ErrUserNotFound))
          else if errors_Is err repository_ErrEmailExists then
            ret (inr (ESentinel service_ErrEmailExists))
          else
            Logger_Error logger "failed to update user" [ErrorField err] ;;;
            ret (inr (EAPIError ErrInternalServer))
      | inl user =>
          Logger_Info logger "user updated successfully" [] ;;;
          ret (inl user)
      end
  end.

Definition userService_DeleteUser (s : userService) (ctx : Context) (id : Z)
    : M (option Err) :=
  let logger := With (svcLogger s) [MethodField "DeleteUser"; UserIDField id] in
  let* failed := repo_DeleteUser (svcRepo s) ctx id in
  match failed with
  | Some err =>
      if errors_Is err repository_ErrUserNotFound then
        ret (Some (ESentinel service_ErrUserNotFound))
      else
        Logger_Error logger "failed to delete user" [ErrorField err] ;;;
        ret (Some (EAPIError ErrInternalServer))
  | None =>
      Logger_Info logger "user deleted successfully" [] ;;;
      ret None
  end.

Definition userService_Authenticate (s : userService) (ctx : Context) (email password : string)
    : M (User + Err) :=
  let logger := With (svcLogger s) [MethodField "Authenticate"; EmailField email] in
  if negb (isValidEmail email) then
    let* apiErr := NewAPIError 403 "invalid email data" [] in
    ret (inr (EAPIError apiErr))
  else
    let* found := repo_GetUserByEmail (svcRepo s) ctx email in
    match found with
    | inr err =>
        if errors_Is err repository_ErrUserNotFound then
          ret (inr (ESentinel service_ErrInvalidCredentials))
        else
          Logger_Error logger "failed to retrieve user" [ErrorField err] ;;;
          ret (inr (EAPIError ErrInternalServer))
    | inl user =>
        match CompareHashAndPassword (Password user) password with
        | Some err =>
            Logger_Warn logger "invalid password attempt" [] ;;;
            ret (inr (ESentinel service_ErrInvalidCredentials))
        | None => ret (inl user)
        end
    end.

Definition NewUserService (repo : UserRepository) (logger : Logger) : UserService :=
  let s := mkUserServiceImpl repo (With logger [FString "component" "user-service"]) in
  mkUserService (userService_RegisterUser s) (userService_GetUserByID s)
                (userService_UpdateUser s) (userService_DeleteUser s)
                (userService_Authenticate s).

(** *** The helpers of the application the handlers use *)

Definition URLParam (a : App) (r : Request) (name : string) : string :=
  default "" (Vars r !! name).

Definition URLParamInt (a : App) (r : Request) (name : string) : M (Z + Err) :=
  let val := URLParam a r name in
  match Atoi val with
  | None =>
      let* apiErr := NewAPIError 400 "invalid path parameter"
                       [Some ({["parameter" := name; "value" := val]} : gmap string string)] in
      ret (inr (EAPIError apiErr))
  | Some result => ret (inl result)
  end.

(** [a.Decode(r, v)]: the value [v] is filled, or an error returned. *)
Definition Decode {T} `{!Bindable T} (a : App) (r : Request) : M (T + Err) :=
  match decodeBody r with
  | None =>
      let* apiErr := NewAPIError 400 "invalid request body" [] in
      ret (inr (EAPIError apiErr))
  | Some v =>
      match Struct v with
      | Valid => ret (inl v)
      | err =>
          let validationErrors : gmap string string :=
            match err with
            | ValidationErrors ve => foldl (fun m fe => <[fe.1 := fe.2]> m) ∅ ve
            | _ => ∅
            end in
          let* apiError := NewAPIError 400 "validation failed" [] in
          (if String.eqb (LogLevel (appConfig a)) "debug"
           then storeAPIError apiError
                  (fun e => mkAPIError (Code e) (Message e) (Some validationErrors) (RequestID e))
           else ret tt) ;;;
          ret (inr (EAPIError apiError))
      end
  end.

(** *** handlers *)

Definition NewUserHandler (app : App) (service : UserService) : UserHandler :=
  mkUserHandler service app.

(** The map every handler answers with; the encoder writes a map's keys
    in sorted order. *)
Definition userBody (user : User) : Body :=
  BodyJSON [("email", JStr (Email user)); ("id", JNum (ID user)); ("name", JStr (Name user))].

Definition UserHandler_Register (h : UserHandler) (ctx : Context) (w : ResponseWriter)
    (r : Request) : M (option Err) :=
  let* decoded := Decode (T := RegisterParams) (hApp h) r in
  match decoded with
  | inr err => ret (Some err)
  | inl params =>
      let* registered := svc_RegisterUser (hService h) ctx params in
      match registered with
      | inr err => ret (Some err)
      | inl user =>
          let* err := App_JSON (hApp h) w 201 (userBody user) in
          ret (EWrite <$> err)
      end
  end.

Definition UserHandler_Login (h : UserHandler) (ctx : Context) (w : ResponseWriter)
    (r : Request) : M (option Err) :=
  let* decoded := Decode (T := Credentials) (hApp h) r in
  match decoded with
  | inr err => ret (Some err)
  | inl credentials =>
      let* authenticated := svc_Authenticate (hService h) ctx (credEmail credentials)
                              (credPassword credentials) in
      match authenticated with
      | inr err =>
          let* apiErr := NewAPIError 401 "invalid credentials" [] in
          ret (Some (EAPIError apiErr))
      | inl user =>
          let* err := App_JSON (hApp h) w 200 (userBody user) in
          ret (EWrite <$> err)
      end
  end.

Definition UserHandler_GetUser (h : UserHandler) (ctx : Context) (w : ResponseWriter)
    (r : Request) : M (option Err) :=
  let* parsed := URLParamInt (hApp h) r "id" in
  match parsed with
  | inr err =>
      let* apiErr := NewAPIError 400 "invalid user ID" [] in
      ret (Some (EAPIError apiErr))
  | inl userID =>
      let* found := svc_GetUserByID (hService h) ctx (int32 userID) in
      match found with
      | inr err =>
          if errors_Is err service_ErrUserNotFound then
            let* apiErr := NewAPIError 404 "user not found" [] in
            ret (Some (EAPIError apiErr))
          else
            let* apiErr := NewAPIError 500 "failed to retrieve user" [] in
            ret (Some (EAPIError apiErr))
      | inl user =>
          let* err := App_JSON (hApp h) w 200 (userBody user) in
          ret (EWrite <$> err)
      end
  end.

Definition UserHandler_UpdateUser (h : UserHandler) (ctx : Context) (w : ResponseWriter)
    (r : Request) : M (option Err) :=
  let* parsed := URLParamInt (hApp h) r "id" in
  match parsed with
  | inr err =>
      let* apiErr := NewAPIError 400 "invalid user ID" [] in
      ret (Some (EAPIError apiErr))
  | inl userID =>
      let* decoded := Decode (T := UpdateParams) (hApp h) r in
      match decoded with
      | inr err => ret (Some err)
      | inl params =>
          let params := mkUpdateParams (int32 userID) (paramsName params)
                          (paramsEmail params) (paramsPassword params) in
          let* updated := svc_UpdateUser (hService h) ctx params in
          match updated with
          | inr err =>
              if errors_Is err service_ErrUserNotFound then
                let* apiErr := NewAPIError 404 "user not found" [] in
                ret (Some (EAPIError apiErr))
              else if errors_Is err service_ErrEmailExists then
                let* apiErr := NewAPIError 409 "email already exists" [] in
                ret (Some (EAPIError apiErr))
              else
                let* apiErr := NewAPIError 500 "failed to update user" [] in
                ret (Some (EAPIError apiErr))
          | inl user =>
              let* err := App_JSON (hApp h) w 200 (userBody user) in
              ret (EWrite <$> err)
          end
      end
  end.

Definition UserHandler_DeleteUser (h : UserHandler) (ctx : Context) (w : ResponseWriter)
    (r : Request) : M (option Err) :=
  let* parsed := URLParamInt (hApp h) r "id" in
  match parsed with
  | inr err =>
      let* apiErr := NewAPIError 400 "invalid user ID" [] in
      ret (Some (EAPIError apiErr))
  | inl userID =>
      let* failed := svc_DeleteUser (hService h) ctx (int32 userID) in
      match failed with
      | Some err =>
          if errors_Is err service_ErrUserNotFound then
            let* apiErr := NewAPIError 404 "user not found" [] in
            ret (Some (EAPIError apiErr))
          else
            let* apiErr := NewAPIError 500 "failed to delete user" [] in
            ret (Some (EAPIError apiErr))
      | None => WriteHeader w 204 ;;; ret None
      end
  end.

(** The closure [HandleMethod] of a router group registers for a route,
    which is also the closure of [Handle], for a handler given as a
    computation. *)
Definition HandleMethod (a : App)
    (handler : Context -> ResponseWriter -> Request -> M (option Err)) : HandlerFunc :=
  fun w r =>
    enter STerminal ;;;
    let ctx := rContext r in
    let* err := handler ctx w r in
    match err with
    | Some err => handleError a w (asError err)
    | None => ret tt
    end.

(** The stack as [BootstrapServer] builds it. *)
Definition userStack (a : App) (queries : Queries) : UserHandler :=
  NewUserHandler a (NewUserService (NewUserRepository queries appLogger) appLogger).

End Users.

Section UsersProofs.

Variable anyCreateUserParams : CreateUserParams -> string.
Variable anyUpdateUserParams : UpdateUserParams -> string.
Variable GenerateFromPassword : string -> Z -> string + string.
Variable CompareHashAndPassword : string -> string -> option string.
Variable MatchString : string -> string -> bool.
Variable Vars : Request -> gmap string string.
Variable Atoi : string -> option Z.
Context {bindRegister : Bindable RegisterParams} {bindCredentials : Bindable Credentials}
        {bindUpdate : Bindable UpdateParams}.

Abbreviation stack := (userStack anyCreateUserParams anyUpdateUserParams GenerateFromPassword
                     CompareHashAndPassword MatchString).

Ltac stack_step1 :=
  cbn -[handleError WriteHeader Write Encode Nat.ltb String.eqb int32];
  unfold HandleMethod, UserHandler_Register, UserHandler_Login, UserHandler_GetUser,
    UserHandler_UpdateUser, UserHandler_DeleteUser, Decode, URLParamInt, URLParam,
    userService_RegisterUser, userService_GetUserByID, userService_UpdateUser,
    userService_DeleteUser, userService_Authenticate, validatePassword, isValidEmail,
    userRepo_CreateUser, userRepo_GetUserByID, userRepo_GetUserByEmail,
    userRepo_UpdateUser, userRepo_DeleteUser,
    Logger_Warn, Logger_Info, Logger_Error, logf, enter, modify, NewAPIError, bind, ret;
  cbn -[handleError WriteHeader Write Encode Nat.ltb String.eqb int32];
  repeat match goal with
         | |- context [bool_decide (?x = ?y)] =>
             first [ rewrite (bool_decide_eq_true_2 (x = y)) by reflexivity
                   | rewrite (bool_decide_eq_false_2 (x = y)) by discriminate ]
         end;
  cbn -[handleError WriteHeader Write Encode Nat.ltb String.eqb int32].

Ltac stack_step := do 3 stack_step1.

(** The envelope of an error without details. *)
Definition envelope (code : Z) (message requestID : string) : Body :=
  BodyJSON (encodeAPIError (mkAPIError code message None requestID)).

(** The response to an error handled before anything was sent. *)
Definition answered (s s' : World) (code : Z) (body : Body) : Prop :=
  wroteHeader (resp s')
    = Some (code, <["Content-Type" := "application/json"]> (respHeader (resp s))) /\
  respBody (resp s') = respBody (resp s) ++ [body].

Lemma handleError_answers a cell context inner err s :
  pointsTo s err ->
  wroteHeader (resp s) = None ->
  200 <= Code (normalized a s err (lookedUpID context)) <= 999 ->
  bodyAllowedForStatus (Code (normalized a s err (lookedUpID context))) = true ->
  exists s',
    handleError a (LoggingWriter cell context inner) err s = (Ok tt, s') /\
    answered s s' (Code (normalized a s err (lookedUpID context)))
      (BodyJSON (encodeAPIError (normalized a s err (lookedUpID context)))).
Proof.
  intros Hvalid Hnone Hcode Hbody.
  destruct (handleError_run a cell context inner err s Hvalid) as (s2 & Hrun & Hresp & Hlrw & _).
  set (e := normalized a s err (lookedUpID context)) in *.
  set (w := LoggingWriter cell context inner) in *.
  assert (Hnone2 : wroteHeader (resp s2) = None) by (by rewrite Hresp).
  destruct (WriteHeader_fresh w (Code e) s2 Hnone2 Hcode) as (s3 & Hwh & Hresp3).
  rewrite Hrun. unfold bind. rewrite Hwh, Write_appends.
  eexists. split; [reflexivity|]. unfold answered. simpl. rewrite Hresp3. simpl.
  rewrite Hresp. simpl. rewrite Hbody. by split.
Qed.

(** An error object without details, handled before anything was sent. *)
Lemma handleError_new a cell context inner code message requestID p s0 s :
  errHeap s !! p = Some (mkAPIError code message None requestID) ->
  200 <= code <= 999 ->
  bodyAllowedForStatus code = true ->
  wroteHeader (resp s0) = None ->
  resp s = resp s0 ->
  exists s',
    handleError a (LoggingWriter cell context inner) (ErrAPI p) s = (Ok tt, s') /\
    answered s0 s' code (envelope code message (lookedUpID context)).
Proof.
  intros Hlook Hcode Hbody Hnone Hresp.
  assert (Hn : normalized a s (ErrAPI p) (lookedUpID context)
               = mkAPIError code message None (lookedUpID context)).
  { unfold normalized. cbn [errors_As]. rewrite Hlook. simpl. by destruct (production a). }
  destruct (handleError_answers a cell context inner (ErrAPI p) s) as (s' & Hrun & Hans).
  - unfold pointsTo. cbn [errors_As]. by rewrite Hlook.
  - by rewrite Hresp.
  - by rewrite Hn.
  - by rewrite Hn.
  - exists s'. split; [exact Hrun|]. rewrite Hn in Hans. unfold answered in *.
    simpl in Hans. rewrite Hresp in Hans. exact Hans.
Qed.

Ltac answer_new :=
  eapply handleError_new;
  [ cbn; by apply list_lookup_middle | lia | reflexivity | eassumption | reflexivity ].

(** The package-level [ErrInternalServer] in a world: the object
    [NewAPIError] built at start, whose request id [normalizeError] may
    have written since. *)
Definition sentinelAsBuilt (s : World) : Prop :=
  exists requestID,
    errHeap s !! ErrInternalServer
    = Some (mkAPIError 500 "internal server error" None requestID).

(** The code keeps it so: the heap starts with it, allocation appends
    behind it, and the error path writes only its request id (and clears
    the details it does not have). *)
Lemma sentinelAsBuilt_start s : errHeap s = initialErrHeap -> sentinelAsBuilt s.
Proof. intros H. exists "". by rewrite H. Qed.

Lemma NewAPIError_keeps_sentinel code message details s :
  sentinelAsBuilt s -> sentinelAsBuilt (snd (NewAPIError code message details s)).
Proof.
  intros [requestID H]. exists requestID. simpl.
  apply lookup_app_l_Some. exact H.
Qed.

Lemma handleError_keeps_sentinel a cell context inner err s :
  pointsTo s err ->
  sentinelAsBuilt s ->
  sentinelAsBuilt (snd (handleError a (LoggingWriter cell context inner) err s)).
Proof.
  intros Hvalid [requestID H].
  rewrite (handleError_writes a cell context inner err s Hvalid).
  set (w := LoggingWriter cell context inner).
  set (e := normalized a s err (lookedUpID context)).
  assert (K : keeps errHeap (WriteHeader w (Code e) ;;; Write w (BodyJSON (encodeAPIError e)))).
  { apply keeps_bind; [apply WriteHeader_keeps_errHeap|]. intros _.
    unfold Write, raw_Write. keeps_auto. }
  unfold sentinelAsBuilt. rewrite (K (readyToWrite a context err s)). simpl.
  unfold pointsTo in Hvalid. subst e. unfold normalized.
  destruct (errors_As err) as [p|] eqn:Has.
  - destruct Hvalid as [e0 He0]. rewrite He0.
    destruct (decide (p = ErrInternalServer)) as [->|Hne].
    + rewrite H in He0. injection He0 as <-. simpl.
      exists (lookedUpID context).
      rewrite list_lookup_insert_eq by (apply lookup_lt_is_Some; eauto).
      by destruct (production a).
    + exists requestID. by rewrite list_lookup_insert_ne.
  - exists requestID. by apply lookup_app_l_Some.
Qed.

(** X20. A registration whose insert fails, for whatever reason, is
    answered 500 "internal server error".  When the repository takes the
    failure for a duplicate key, it and the service turn it into their own
    plain "email exists" values, the handler passes that on unchanged and
    the error path finds no [APIError] in it; otherwise the service
    returns [ErrInternalServer].  So a duplicate email is never reported
    to the client as such. *)
Theorem register_insert_failure_answers_500 a queries cell context inner r params hash e s :
  decodeBody r = Some params ->
  Struct params = Valid ->
  (8 <= String.length (registerPassword params))%nat ->
  GenerateFromPassword (registerPassword params) DefaultCost = inl hash ->
  queries_CreateUser queries (rContext r)
    (mkCreateUserParams (registerName params) (registerEmail params) hash) = inr e ->
  sentinelAsBuilt s ->
  wroteHeader (resp s) = None ->
  exists s',
    HandleMethod a (UserHandler_Register (stack a queries))
      (LoggingWriter cell context inner) r s = (Ok tt, s') /\
    answered s s' 500 (envelope 500 "internal server error" (lookedUpID context)).
Proof.
  intros Hdec Hval Hlen Hhash Hq [requestID Hsent] Hnone.
  apply Nat.ltb_ge in Hlen.
  stack_step. rewrite Hdec, Hval. stack_step. rewrite Hlen, Hhash. stack_step.
  rewrite Hq. destruct (isDuplicateKeyError e) eqn:Hdup; stack_step.
  - match goal with |- context [handleError _ _ ?err ?s0] =>
      destruct (handleError_answers a cell context inner err s0) as (s' & Hrun & Hans)
    end.
    + exact I.
    + exact Hnone.
    + simpl. lia.
    + reflexivity.
    + exists s'. split; [exact Hrun|]. exact Hans.
  - eapply handleError_new;
      [ cbn; exact Hsent | lia | reflexivity | eassumption | reflexivity ].
Qed.

(** X21. An update whose query fails is answered by the kind of failure
    as the repository sees it: 404 "user not found" for the pgx package's
    [ErrNoRows], 409 "email already exists" for a [PgError] of that
    package with code 23505, and 500 "failed to update user" for any other
    error. *)
Theorem update_user_failures a queries cell context inner r n params hashed e s :
  Atoi (URLParam Vars a r "id") = Some n ->
  decodeBody r = Some params ->
  Struct params = Valid ->
  match paramsPassword params with
  | Some password =>
      (8 <= String.length password)%nat /\
      GenerateFromPassword password DefaultCost = inl hashed
  | None => hashed = ""
  end ->
  queries_UpdateUser queries (rContext r)
    (mkUpdateUserParams (int32 n) (default "" (paramsName params))
                        (default "" (paramsEmail params)) hashed) = inr e ->
  wroteHeader (resp s) = None ->
  exists s',
    HandleMethod a (UserHandler_UpdateUser Vars Atoi (stack a queries))
      (LoggingWriter cell context inner) r s = (Ok tt, s') /\
    answered s s'
      (if isNoRows e then 404 else if isDuplicateKeyError e then 409 else 500)
      (envelope
         (if isNoRows e then 404 else if isDuplicateKeyError e then 409 else 500)
         (if isNoRows e then "user not found"
          else if isDuplicateKeyError e then "email already exists"
          else "failed to update user")
         (lookedUpID context)).
Proof.
  intros Hid Hdec Hval Hpw Hq Hnone.
  destruct params as [id nm em pw]. simpl in Hpw, Hq.
  unfold URLParam in Hid.
  stack_step. rewrite Hid. stack_step. rewrite Hdec, Hval.
  destruct pw as [password|].
  - destruct Hpw as [Hlen Hhash]. apply Nat.ltb_ge in Hlen.
    destruct nm as [nm|], em as [em|]; simpl in Hq; stack_step;
      rewrite Hlen, Hhash; stack_step; rewrite Hq;
      destruct (isNoRows e), (isDuplicateKeyError e); stack_step; answer_new.
  - subst hashed.
    destruct nm as [nm|], em as [em|]; simpl in Hq; stack_step; rewrite Hq;
      destruct (isNoRows e), (isDuplicateKeyError e); stack_step; answer_new.
Qed.

(** X22. A login that does not authenticate is answered 401 "invalid
    credentials" whatever the cause: an email the pattern rejects (for
    which the service built a 403), an email the database does not have, a
    failure of the database, or a wrong password. *)
Theorem login_failures_answer_alike a queries cell context inner r credentials s :
  decodeBody r = Some credentials ->
  Struct credentials = Valid ->
  (isValidEmail MatchString (credEmail credentials) = true ->
   forall user,
     queries_GetUserByEmail queries (rContext r) (credEmail credentials) = inl user ->
     CompareHashAndPassword (Password user) (credPassword credentials) <> None) ->
  wroteHeader (resp s) = None ->
  exists s',
    HandleMethod a (UserHandler_Login (stack a queries))
      (LoggingWriter cell context inner) r s = (Ok tt, s') /\
    answered s s' 401 (envelope 401 "invalid credentials" (lookedUpID context)).
Proof.
  intros Hdec Hval Hfail Hnone.
  stack_step. rewrite Hdec, Hval. stack_step.
  unfold isValidEmail in Hfail.
  destruct (MatchString _ (credEmail credentials)) eqn:Hm; stack_step; [|answer_new].
  destruct (queries_GetUserByEmail queries (rContext r) (credEmail credentials))
    as [user|e] eqn:Hq; stack_step.
  - destruct (CompareHashAndPassword (Password user) (credPassword credentials)) eqn:Hc;
      stack_step; [answer_new|].
    by destruct (Hfail eq_refl user eq_refl).
  - destruct (isNoRows e); stack_step; answer_new.
Qed.

(** X23. A user the database does not have (the query fails with the
    pgx package's [ErrNoRows]) is answered 404 "user not found"; any other
    failure of the query 500 "failed to retrieve user". *)
Theorem get_user_failures a queries cell context inner r n e s :
  Atoi (URLParam Vars a r "id") = Some n ->
  queries_GetUserByID queries (rContext r) (int32 n) = inr e ->
  wroteHeader (resp s) = None ->
  exists s',
    HandleMethod a (UserHandler_GetUser Vars Atoi (stack a queries))
      (LoggingWriter cell context inner) r s = (Ok tt, s') /\
    answered s s' (if isNoRows e then 404 else 500)
      (envelope (if isNoRows e then 404 else 500)
                (if isNoRows e then "user not found" else "failed to retrieve user")
                (lookedUpID context)).
Proof.
  intros Hid Hq Hnone. unfold URLParam in Hid.
  stack_step. rewrite Hid. stack_step. rewrite Hq.
  destruct (isNoRows e); stack_step; answer_new.
Qed.

(** X24. The id in the path is converted to int32 before the lookup, so
    the user served is the one stored under the id reduced modulo 2^32
    into the int32 range: status 200 with that user's id, name and email
    (never the password). *)
Theorem get_user_serves_wrapped_id a queries cell context inner r n user s :
  Atoi (URLParam Vars a r "id") = Some n ->
  queries_GetUserByID queries (rContext r) (int32 n) = inl user ->
  wroteHeader (resp s) = None ->
  exists s',
    HandleMethod a (UserHandler_GetUser Vars Atoi (stack a queries))
      (LoggingWriter cell context inner) r s = (Ok tt, s') /\
    answered s s' 200 (userBody user) /\
    - 2 ^ 31 <= int32 n < 2 ^ 31 /\
    (n - int32 n) mod 2 ^ 32 = 0.
Proof.
  intros Hid Hq Hnone. unfold URLParam in Hid.
  stack_step. rewrite Hid. stack_step. rewrite Hq. stack_step.
  unfold App_JSON, bind, Header_Set, modify. cbn -[WriteHeader Encode].
  match goal with |- context [WriteHeader ?w 200 ?s0] =>
    destruct (WriteHeader_fresh w 200 s0) as (s1 & Hwh & Hresp); [exact Hnone|lia|]
  end.
  rewrite Hwh, Encode_run. unfold sentAfterWrite. simpl. rewrite Hresp. simpl.
  eexists. split; [reflexivity|].
  split.
  - unfold answered. simpl. rewrite Hresp. simpl. by split.
  - unfold int32. split.
    + pose proof (Z.mod_pos_bound (n + 2 ^ 31) (2 ^ 32)). lia.
    + replace (n - ((n + 2 ^ 31) mod 2 ^ 32 - 2 ^ 31))
        with ((n + 2 ^ 31) - (n + 2 ^ 31) mod 2 ^ 32) by lia.
      rewrite Zminus_mod, Zmod_mod, Z.sub_diag. reflexivity.
Qed.

(** X25. A request body the validator rejects is answered 400
    "validation failed"; the failed fields and their tags are in the body
    when the log level is "debug" (and there is at least one), and never
    otherwise. *)
Theorem register_validation_failure_answers_400 a queries cell context inner r
    (params : RegisterParams) ve s :
  decodeBody r = Some params ->
  Struct params = ValidationErrors ve ->
  wroteHeader (resp s) = None ->
  exists s',
    HandleMethod a (UserHandler_Register (stack a queries))
      (LoggingWriter cell context inner) r s = (Ok tt, s') /\
    answered s s' 400
      (BodyJSON (encodeAPIError
         (mkAPIError 400 "validation failed"
            (if String.eqb (LogLevel (appConfig a)) "debug"
             then Some (foldl (fun m fe => <[fe.1 := fe.2]> m) ∅ ve)
             else None)
            (lookedUpID context)))).
Proof.
  intros Hdec Hval Hnone.
  stack_step. rewrite Hdec, Hval. stack_step.
  destruct (String.eqb (LogLevel (appConfig a)) "debug") eqn:Hdbg; stack_step.
  - unfold storeAPIError. cbn -[handleError]. rewrite list_lookup_middle by reflexivity.
    cbn -[handleError].
    match goal with |- context [handleError _ _ ?err ?s0] =>
      destruct (handleError_answers a cell context inner err s0) as (s' & Hrun & Hans);
      [| exact Hnone | | |]
    end.
    + unfold pointsTo. cbn. rewrite list_lookup_insert_eq; [by eexists|].
      rewrite length_app. simpl. lia.
    + unfold normalized, production. cbn. rewrite Hdbg.
      rewrite list_lookup_insert_eq; [simpl; lia|]. rewrite length_app. simpl. lia.
    + unfold normalized, production. cbn. rewrite Hdbg.
      rewrite list_lookup_insert_eq; [reflexivity|]. rewrite length_app. simpl. lia.
    + exists s'. split; [exact Hrun|].
      revert Hans. unfold normalized, production. cbn. rewrite Hdbg.
      rewrite list_lookup_insert_eq; [|rewrite length_app; simpl; lia].
      simpl. done.
  - answer_new.
Qed.

End UsersProofs.
End Micro.

(** ** A concrete instance

    Stand-ins for the external collaborators, to run the code on concrete
    requests: a limiter that is a plain budget of tokens without refill, a
    clock that advances one microsecond per reading, a fixed request id and
    a CORS handler that lets every request through. *)

Definition budgetLimiter : Type := Z.
Definition budgetNew (rps : Q) (burst : Z) : budgetLimiter := burst.
Definition budgetAllow (l : budgetLimiter) (now : Time) : bool * budgetLimiter :=
  if 0 <? l then (true, l - 1) else (false, l).
Definition microClock (n : nat) : Time := 1000 * Z.of_nat n.
Definition fixedXid (n : nat) : string := "9m4e2mr0ui3e8a215n4g".
Definition corsPassAll (opts : list CORSOption) (r : Request) : CORSDecision := CorsPass [].

(** The world at program start: nothing written, an empty registry, and
    the heap holding only [ErrInternalServer]. *)
Definition startWorld : @World budgetLimiter :=
  mkWorld (mkResponse ∅ None []) [] [] [] ∅ [] initialErrHeap 0 0 0 [].

(** The configuration of [getConfig] in [cmd], with a given strategy and
    burst. *)
Definition serviceConfig (strategy : string) (burst : Z) : Config :=
  mkConfig "info" true 30000000000 10000000000
    (mkRateLimiterConfig true (10 # 1) burst 3600000000000 strategy)
    (mkCORSConfig true ["https://yourdomain.com"; "https://app.yourdomain.com"]
       ["GET"; "POST"; "PUT"; "DELETE"; "OPTIONS"]
       ["Content-Type"; "Authorization"; "X-API-Key"]
       ["X-Request-ID"; "X-Rate-Limit-Remaining"] true 600).

Lemma startWorld_wf : registry_wf startWorld.
Proof.
  split; simpl.
  - intros k v Hk. by rewrite lookup_empty in Hk.
  - intros k1 k2 v1 v2 Hk. by rewrite lookup_empty in Hk.
Qed.

Lemma C5_singleton_per_key_witness :
  registry_wf startWorld /\
  exists hs s',
    acquireAll budgetNew microClock (RateLimiter (serviceConfig "ip" 20))
      ["10.0.0.1"; "10.0.0.2"; "10.0.0.1"] startWorld = (Ok hs, s') /\
    hs !! 0%nat = hs !! 2%nat.
Proof.
  split; [exact startWorld_wf|].
  destruct (C5_singleton_per_key budgetNew microClock (RateLimiter (serviceConfig "ip" 20))
              ["10.0.0.1"; "10.0.0.2"; "10.0.0.1"] startWorld startWorld_wf)
    as (hs & s' & Hrun & Hlen & Hsame & _).
  exists hs, s'. split; [exact Hrun|].
  destruct hs as [|h0 [|h1 [|h2 [|]]]]; try discriminate Hlen.
  simpl. f_equal. apply (Hsame 0%nat 2%nat "10.0.0.1"); reflexivity.
Defined.

(** A request from 10.0.0.1 without headers, and one route handler per
    outcome: success, the shared [ErrInternalServer], and a handler that
    reports the counter of [App.wg] it sees. *)
Definition plainRequest : Request :=
  mkRequest "GET" "/users/1" "10.0.0.1:5555" ∅ Background.

Definition okHandler : @Handler budgetLimiter :=
  fun s ctx r =>
    mkHandlerAct [] [OpHeaderSet "Content-Type" "application/json"; OpWriteHeader 200;
                     OpWrite (BodyRaw "{}")] ReturnNil.

Definition failingHandler : @Handler budgetLimiter :=
  fun s ctx r => mkHandlerAct [] [] (ReturnErr (ErrAPI ErrInternalServer)).

Definition pendingProbe : @Handler budgetLimiter :=
  fun s ctx r =>
    mkHandlerAct [] [OpHeaderSet "X-Pending" (if wg s =? 0 then "0" else "nonzero")] ReturnNil.

(** The application [BootstrapServer] starts, on the stand-ins. *)
Definition serve (config : Config) (handler : Handler) (r : Request) : M unit :=
  ServeHTTP budgetNew budgetAllow microClock fixedXid corsPassAll
            (Start (NewApp config)) handler r.

Lemma corsPassAll_passes config r : corsPasses corsPassAll config r.
Proof. intros _. by exists []. Qed.

(** *** Concrete runs *)

(** With a ttl of one hour, a bucket last used 61 minutes before the sweep
    is gone after it and one used 59 minutes before it is still there. *)
Example sweep_61_and_59_minutes :
  let rl := RateLimiter (serviceConfig "ip" 20) in
  let minute := 60000000000 in
  let m : gmap string visitorLimiter :=
    {[ "10.0.0.1" := mkVisitor 0 (100 * minute - 61 * minute);
       "10.0.0.2" := mkVisitor 1 (100 * minute - 59 * minute) ]} in
  sweep rl (100 * minute) m = {[ "10.0.0.2" := mkVisitor 1 (41 * minute) ]}.
Proof. vm_compute. reflexivity. Qed.

(** An exhausted bucket (burst 0): the gate denies the first request. *)
Lemma exhausted_denies :
  denies budgetNew budgetAllow microClock (Start (NewApp (serviceConfig "ip" 0)))
         plainRequest startWorld.
Proof. split; [reflexivity|]. eexists. vm_compute. reflexivity. Qed.

Lemma stocked_grants :
  grants budgetNew budgetAllow microClock (Start (NewApp (serviceConfig "ip" 20)))
         plainRequest startWorld.
Proof. right. eexists. vm_compute. reflexivity. Qed.

Lemma C1_denied_request_panics_unanswered_witness :
  corsPasses corsPassAll (serviceConfig "ip" 0) plainRequest /\
  denies budgetNew budgetAllow microClock (Start (NewApp (serviceConfig "ip" 0)))
         plainRequest startWorld /\
  exists v s',
    serve (serviceConfig "ip" 0) okHandler plainRequest startWorld = (Panic v, s') /\
    sent s' = (None, []).
Proof.
  split; [apply corsPassAll_passes|]. split; [exact exhausted_denies|].
  exact (C1_denied_request_panics_unanswered budgetNew budgetAllow microClock fixedXid corsPassAll
           (serviceConfig "ip" 0) okHandler plainRequest startWorld
           (corsPassAll_passes _ _) exhausted_denies).
Defined.

Lemma C2_denied_request_halts_at_gate_witness :
  corsPasses corsPassAll (serviceConfig "ip" 0) plainRequest /\
  denies budgetNew budgetAllow microClock (Start (NewApp (serviceConfig "ip" 0)))
         plainRequest startWorld /\
  trace (snd (serve (serviceConfig "ip" 0) okHandler plainRequest startWorld))
  = [SCORS; SRequestID; SSecurityHeaders; SRateLimit].
Proof.
  split; [apply corsPassAll_passes|]. split; [exact exhausted_denies|].
  exact (proj1 (C2_denied_request_halts_at_gate budgetNew budgetAllow microClock fixedXid
                  corsPassAll (serviceConfig "ip" 0) okHandler plainRequest startWorld
                  (corsPassAll_passes _ _) exhausted_denies)).
Defined.

Lemma C3_stage_order_witness :
  corsPasses corsPassAll (serviceConfig "ip" 20) plainRequest /\
  grants budgetNew budgetAllow microClock (Start (NewApp (serviceConfig "ip" 20)))
         plainRequest startWorld /\
  trace (snd (serve (serviceConfig "ip" 20) okHandler plainRequest startWorld))
  = [SCORS; SRequestID; SSecurityHeaders; SRateLimit; SMetrics; SLog; SRecovery; STimeout;
     STerminal].
Proof.
  split; [apply corsPassAll_passes|]. split; [exact stocked_grants|].
  exact (proj2 (C3_stage_order budgetNew budgetAllow microClock fixedXid corsPassAll
                  (serviceConfig "ip" 20) okHandler plainRequest startWorld
                  (corsPassAll_passes _ _) stocked_grants)).
Defined.

(** C3, the order as the specification gives it, fails for the service's
    own configuration: the cross-origin stage is the first on the router,
    not the last, and a request runs through the stages in that order. *)
Lemma C3_specified_order_counterexample :
  map stageOf (routerMiddleware (Start (NewApp (serviceConfig "ip" 20)))) <> specifiedOrder /\
  trace (snd (serve (serviceConfig "ip" 20) okHandler plainRequest startWorld))
    <> specifiedOrder ++ [STerminal] /\
  head (trace (snd (serve (serviceConfig "ip" 20) okHandler plainRequest startWorld)))
    = Some SCORS.
Proof.
  split; [|split].
  - vm_compute. discriminate.
  - vm_compute. discriminate.
  - vm_compute. reflexivity.
Qed.

(** The writer and context an error meets behind the logging stage: the
    request id is in the context, under [contextKeyRequestID]. *)
Definition loggedWriter : ResponseWriter :=
  LoggingWriter 0 (Some (WithValue Background contextKeyRequestID (VString (fixedXid 0))))
                RawWriter.

Definition loggedWorld : @World budgetLimiter :=
  mkWorld (mkResponse {["X-Request-ID" := fixedXid 0]} None []) [200] [] [] ∅ []
          initialErrHeap 0 1 0 [].

Lemma C4_error_body_omits_request_id_witness :
  Value (WithValue Background contextKeyRequestID (VString (fixedXid 0))) (KString "request_id")
    = None /\
  pointsTo loggedWorld (ErrAPI ErrInternalServer) /\
  exists p e res s',
    handleError (Start (NewApp (serviceConfig "ip" 20))) loggedWriter
                (ErrAPI ErrInternalServer) loggedWorld = (res, s') /\
    errHeap s' !! p = Some e /\
    RequestID e = "" /\
    (forall j, ~ In ("request_id", j) (encodeAPIError e)) /\
    (res = Ok tt ->
     exists status headers,
       wroteHeader (resp s') = Some (status, headers) /\
       respBody (resp s')
         = if bodyAllowedForStatus status then [BodyJSON (encodeAPIError e)] else []).
Proof.
  assert (Hp : pointsTo loggedWorld (ErrAPI ErrInternalServer))
    by (simpl; eexists; reflexivity).
  split; [reflexivity|]. split; [exact Hp|].
  exact (C4_error_body_omits_request_id (Start (NewApp (serviceConfig "ip" 20))) 0
           (WithValue Background contextKeyRequestID (VString (fixedXid 0))) RawWriter
           (ErrAPI ErrInternalServer) loggedWorld eq_refl Hp).
Defined.

(** The same through the whole chain: a request whose handler fails with
    [ErrInternalServer] is answered with status 500 and the header
    X-Request-ID set to the id of the request, and a body of [code] and
    [message] only.  The object encoded is [ErrInternalServer] itself: the
    heap has not grown. *)
Lemma failing_request_through_chain :
  let s' := snd (serve (serviceConfig "ip" 20) failingHandler plainRequest startWorld) in
  respHeader (resp s') !! "X-Request-ID" = Some "9m4e2mr0ui3e8a215n4g" /\
  fst <$> wroteHeader (resp s') = Some 500 /\
  respBody (resp s') =
    [BodyJSON [("code", JNum 500); ("message", JStr "internal server error")]] /\
  errHeap s' = initialErrHeap.
Proof. vm_compute. repeat split; reflexivity. Qed.

(** The denied request through the whole chain: a panic, a warning in the
    log, and nothing on the wire. *)
Lemma denied_request_through_chain :
  let res := serve (serviceConfig "ip" 0) okHandler plainRequest startWorld in
  fst res =
    Panic "interface conversion: http.ResponseWriter is not *micro.loggingResponseWriter" /\
  wroteHeader (resp (snd res)) = None /\
  respBody (resp (snd res)) = [] /\
  map msg (logs (snd res)) = ["rate limit exceeded"].
Proof. vm_compute. repeat split; reflexivity. Qed.

(** A request without Authorization header, under the "token" strategy. *)
Lemma C7_empty_credential_skips_the_gate_witness :
  Strategy (RateLimiter (appConfig (Start (NewApp (serviceConfig "token" 0))))) = "token" /\
  Header_Get plainRequest "Authorization" = "" /\
  getClientIdentifier (Start (NewApp (serviceConfig "token" 0))) plainRequest = "" /\
  rateLimiterMiddleware budgetNew budgetAllow microClock
    (Start (NewApp (serviceConfig "token" 0))) (fun _ _ => ret tt) RawWriter plainRequest
    startWorld
  = (Ok tt, set_trace (fun t => t ++ [SRateLimit]) startWorld).
Proof.
  split; [reflexivity|]. split; [reflexivity|].
  apply (C7_empty_credential_skips_the_gate budgetNew budgetAllow microClock
           (Start (NewApp (serviceConfig "token" 0))) (fun _ _ => ret tt) RawWriter
           plainRequest startWorld); reflexivity.
Defined.

(** C7, as the specification has it, fails: with the "token" strategy and
    every bucket exhausted (burst 0), a request without credential is
    served, and the registry holds no bucket under the empty key, nor any
    other. *)
Lemma C7_unauthenticated_bucket_counterexample :
  let res := serve (serviceConfig "token" 0) okHandler plainRequest startWorld in
  fst res = Ok tt /\
  bucketOf (snd res) "" = None /\
  limiterHeap (snd res) = [] /\
  In STerminal (trace (snd res)) /\
  fst <$> wroteHeader (resp (snd res)) = Some 200.
Proof. vm_compute. repeat split; try reflexivity. tauto. Qed.

(** C8, as the specification has it, fails: a handler that reports the
    counter it sees reports zero, the value before the request; no stage
    in front of it has counted the request in. *)
Lemma C8_pending_count_counterexample :
  wg startWorld = 0 /\
  respHeader (resp (snd (serve (serviceConfig "ip" 20) pendingProbe plainRequest startWorld)))
    !! "X-Pending" = Some "0" /\
  wg (snd (serve (serviceConfig "ip" 20) pendingProbe plainRequest startWorld)) = 0.
Proof. vm_compute. repeat split; reflexivity. Qed.

(** A validation failure with details, as [Decode] builds it in debug
    mode, normalised by an application that runs at level "info". *)
Definition validationWorld : @World budgetLimiter :=
  mkWorld (mkResponse ∅ None []) [] [] [] ∅ []
          (initialErrHeap ++ [mkAPIError 400 "validation failed"
                                (Some {["email" := "required"]}) ""])
          0 0 0 [].

Lemma C9_details_removed_outside_debug_witness :
  LogLevel (appConfig (Start (NewApp (serviceConfig "ip" 20)))) <> "debug" /\
  pointsTo validationWorld (ErrAPI 1) /\
  exists p s' e,
    normalizeError (Start (NewApp (serviceConfig "ip" 20))) (ErrAPI 1) "9m4e2mr0ui3e8a215n4g"
                   validationWorld = (Ok p, s') /\
    errHeap s' !! p = Some e /\
    Details e = None /\ Code e = 400.
Proof.
  destruct (C9_details_removed_outside_debug (Start (NewApp (serviceConfig "ip" 20)))
              (ErrAPI 1) "9m4e2mr0ui3e8a215n4g" validationWorld)
    as (p & s' & e & Hrun & Hp & Hd & _ & Hsame).
  - discriminate.
  - simpl. eexists. reflexivity.
  - split; [discriminate|]. split; [simpl; eexists; reflexivity|].
    exists p, s', e. split; [exact Hrun|]. split; [exact Hp|]. split; [exact Hd|].
    destruct (Hsame 1%nat (mkAPIError 400 "validation failed"
                (Some {["email" := "required"]}) "")) as (_ & Hc & _); [reflexivity..|].
    exact Hc.
Defined.

Lemma C10_normalizeError_mutates_shared_object_witness :
  errors_As (ErrAPI ErrInternalServer) = Some ErrInternalServer /\
  errHeap loggedWorld !! ErrInternalServer
    = Some (mkAPIError 500 "internal server error" None "") /\
  (exists s1 s2,
    normalizeError (Start (NewApp (serviceConfig "ip" 20))) (ErrAPI ErrInternalServer)
                   "request-1" loggedWorld = (Ok ErrInternalServer, s1) /\
    RequestID <$> errHeap s1 !! ErrInternalServer = Some "request-1" /\
    normalizeError (Start (NewApp (serviceConfig "ip" 20))) (ErrAPI ErrInternalServer)
                   "request-2" s1 = (Ok ErrInternalServer, s2) /\
    RequestID <$> errHeap s2 !! ErrInternalServer = Some "request-2" /\
    length (errHeap s2) = 1%nat) /\
  respHeader (resp loggedWorld) !! "X-Request-ID" = Some "9m4e2mr0ui3e8a215n4g" /\
  exists res s',
    handleError (Start (NewApp (serviceConfig "ip" 20))) loggedWriter
                (ErrAPI ErrInternalServer) loggedWorld = (res, s') /\
    RequestID <$> errHeap s' !! ErrInternalServer = Some "" /\
    length (errHeap s') = 1%nat.
Proof.
  destruct (C10_normalizeError_mutates_shared_object
              (Start (NewApp (serviceConfig "ip" 20))) (ErrAPI ErrInternalServer)
              ErrInternalServer (mkAPIError 500 "internal server error" None "")
              "request-1" "request-2" loggedWorld eq_refl eq_refl)
    as [(s1 & s2 & H1 & H2 & H3 & H4 & H5 & _) Hpath].
  split; [reflexivity|]. split; [reflexivity|].
  split; [exists s1, s2; repeat split; assumption|].
  split; [reflexivity|].
  destruct (Hpath 0%nat Background (fixedXid 0) RawWriter eq_refl)
    as (res & s' & Hrun & Hid & Hlen & _).
  exists res, s'. split; [exact Hrun|]. split; [exact Hid|exact Hlen].
Defined.

(** ** Further concrete runs *)

Definition serviceLimits : RateLimiterConfig := RateLimiter (serviceConfig "ip" 20).

(** A registry with one client, last seen at time 0, and its bucket. *)
Definition visitedWorld : @World budgetLimiter :=
  mkWorld (mkResponse ∅ None []) [] [] [] {["10.0.0.1" := mkVisitor 0 0]} [20]
          initialErrHeap 0 0 0 [].

Lemma visitedWorld_wf : registry_wf visitedWorld.
Proof.
  split; simpl.
  - intros k v [_ <-]%lookup_singleton_Some. simpl. lia.
  - intros k1 k2 v1 v2 [<- _]%lookup_singleton_Some [<- _]%lookup_singleton_Some _.
    reflexivity.
Qed.

Lemma sweep_then_later_sweep_witness :
  0 <= 60 /\
  sweep serviceLimits 60 (sweep serviceLimits 0 {["10.0.0.1" := mkVisitor 0 0]})
    = sweep serviceLimits 60 {["10.0.0.1" := mkVisitor 0 0]}.
Proof.
  assert (H : 0 <= 60) by lia.
  split; [exact H|].
  exact (proj1 (sweep_then_later_sweep serviceLimits 0 60 {["10.0.0.1" := mkVisitor 0 0]} H)).
Defined.

Lemma acquired_bucket_survives_sweep_witness :
  1000 - microClock (clockReads startWorld) <= TTL serviceLimits /\
  exists h s',
    getLimiter budgetNew microClock serviceLimits "10.0.0.1" startWorld = (Ok h, s') /\
    limiters (snd (cleanupStaleVisitors serviceLimits 1000 s')) !! "10.0.0.1"
      = Some (mkVisitor h 0).
Proof.
  split; [vm_compute; discriminate|].
  apply (acquired_bucket_survives_sweep budgetNew microClock serviceLimits "10.0.0.1" 1000
           startWorld).
  vm_compute. discriminate.
Defined.

Lemma evicted_client_gets_new_bucket_witness :
  registry_wf visitedWorld /\
  limiters visitedWorld !! "10.0.0.1" = Some (mkVisitor 0 0) /\
  TTL serviceLimits < 7200000000000 - 0 /\
  exists h s',
    getLimiter budgetNew microClock serviceLimits "10.0.0.1"
      (snd (cleanupStaleVisitors serviceLimits 7200000000000 visitedWorld)) = (Ok h, s') /\
    h <> 0%nat.
Proof.
  split; [exact visitedWorld_wf|]. split; [reflexivity|]. split; [reflexivity|].
  destruct (evicted_client_gets_new_bucket budgetNew microClock serviceLimits "10.0.0.1"
              7200000000000 (mkVisitor 0 0) visitedWorld visitedWorld_wf eq_refl eq_refl)
    as (h & s' & Hrun & Hne & _).
  exists h, s'. split; [exact Hrun|exact Hne].
Defined.

Lemma microClock_monotone : monotoneClock microClock.
Proof. intros i j Hij. unfold microClock. lia. Qed.

Lemma startWorld_seenByNow : seenByNow microClock startWorld.
Proof. intros k v Hk. simpl in Hk. by rewrite lookup_empty in Hk. Qed.

Lemma lastSeen_never_decreases_witness :
  monotoneClock microClock /\
  seenByNow microClock startWorld /\
  exists hs s',
    acquireAll budgetNew microClock serviceLimits ["10.0.0.1"; "10.0.0.2"; "10.0.0.1"]
      startWorld = (Ok hs, s') /\
    seenByNow microClock s'.
Proof.
  split; [exact microClock_monotone|]. split; [exact startWorld_seenByNow|].
  destruct (lastSeen_never_decreases budgetNew microClock serviceLimits
              ["10.0.0.1"; "10.0.0.2"; "10.0.0.1"] startWorld
              microClock_monotone startWorld_seenByNow)
    as (hs & s' & Hrun & Hseen & _).
  exists hs, s'. split; [exact Hrun|exact Hseen].
Defined.

Lemma consult_touches_one_bucket_witness :
  rateLimiterSet (Start (NewApp (serviceConfig "ip" 20))) = true /\
  registry_wf visitedWorld /\
  exists b s',
    consult budgetNew budgetAllow microClock (Start (NewApp (serviceConfig "ip" 20)))
      (mkRequest "GET" "/users/1" "10.0.0.2:5555" ∅ Background) visitedWorld = (Ok b, s') /\
    limiters s' !! "10.0.0.1" = Some (mkVisitor 0 0).
Proof.
  split; [reflexivity|]. split; [exact visitedWorld_wf|].
  destruct (consult_touches_one_bucket budgetNew budgetAllow microClock
              (Start (NewApp (serviceConfig "ip" 20)))
              (mkRequest "GET" "/users/1" "10.0.0.2:5555" ∅ Background) visitedWorld
              eq_refl visitedWorld_wf)
    as (b & s' & Hrun & _ & Hothers).
  exists b, s'. split; [exact Hrun|].
  apply (Hothers "10.0.0.1" (mkVisitor 0 0)); [vm_compute; discriminate|reflexivity].
Defined.

(** *** The error path *)

Definition loggedContext : Context :=
  WithValue Background contextKeyRequestID (VString (fixedXid 0)).


(** A world with an error object whose code is 0. *)
Definition zeroCodeWorld : @World budgetLimiter :=
  mkWorld (mkResponse ∅ None []) [200] [] [] ∅ []
          (initialErrHeap ++ [mkAPIError 0 "unset" None ""]) 0 1 0 [].

Definition debugConfig : Config :=
  mkConfig "debug" true 30000000000 10000000000
    (mkRateLimiterConfig true (10 # 1) 20 3600000000000 "ip")
    (mkCORSConfig false [] [] [] [] false 0).



Lemma handleError_invalid_code_panics_witness :
  pointsTo zeroCodeWorld (ErrAPI 1) /\
  wroteHeader (resp zeroCodeWorld) = None /\
  exists s',
    handleError (NewApp (serviceConfig "ip" 20)) loggedWriter (ErrAPI 1) zeroCodeWorld
      = (Panic "invalid WriteHeader code", s') /\
    sent s' = (None, []).
Proof.
  assert (Hp : pointsTo zeroCodeWorld (ErrAPI 1)) by (simpl; eexists; reflexivity).
  split; [exact Hp|]. split; [reflexivity|].
  apply (handleError_invalid_code_panics (NewApp (serviceConfig "ip" 20)) 0
           (Some loggedContext) RawWriter (ErrAPI 1) zeroCodeWorld Hp eq_refl).
  left. vm_compute. reflexivity.
Defined.

Lemma plain_error_is_masked_witness :
  errors_As (ErrPlain "email already registered") = None /\
  wroteHeader (resp loggedWorld) = None /\
  exists s',
    handleError (NewApp (serviceConfig "ip" 20)) loggedWriter
      (ErrPlain "email already registered") loggedWorld = (Ok tt, s') /\
    respBody (resp s')
      = [BodyJSON [("code", JNum 500); ("message", JStr "internal server error")]].
Proof.
  split; [reflexivity|]. split; [reflexivity|].
  destruct (plain_error_is_masked (NewApp (serviceConfig "ip" 20)) 0 (Some loggedContext)
              RawWriter (ErrPlain "email already registered") loggedWorld eq_refl eq_refl)
    as (s' & Hrun & _ & Hbody & _).
  exists s'. split; [exact Hrun|exact Hbody].
Defined.

Lemma debug_mode_keeps_details_witness :
  LogLevel (appConfig (NewApp debugConfig)) = "debug" /\
  errHeap validationWorld !! 1%nat
    = Some (mkAPIError 400 "validation failed" (Some {["email" := "required"]}) "") /\
  exists s',
    normalizeError (NewApp debugConfig) (ErrAPI 1) "9m4e2mr0ui3e8a215n4g" validationWorld
      = (Ok 1%nat, s') /\
    errHeap s' !! 1%nat
      = Some (mkAPIError 400 "validation failed" (Some {["email" := "required"]})
                "9m4e2mr0ui3e8a215n4g").
Proof.
  split; [reflexivity|]. split; [reflexivity|].
  destruct (debug_mode_keeps_details (NewApp debugConfig) (ErrAPI 1) 1
              (mkAPIError 400 "validation failed" (Some {["email" := "required"]}) "")
              {["email" := "required"]} "9m4e2mr0ui3e8a215n4g" validationWorld
              eq_refl eq_refl eq_refl eq_refl)
    as (s' & Hrun & Hobj & _).
  exists s'. split; [exact Hrun|exact Hobj].
Defined.

(** *** Recovery *)

(** The request as the stages behind [requestIDMiddleware] see it. *)
Definition identifiedRequest : Request := WithContext plainRequest loggedContext.

Definition panickingNext : @HandlerFunc budgetLimiter := fun _ _ => panic "boom".

Lemma recovery_answers_panic_with_500_witness :
  Value (rContext identifiedRequest) contextKeyRequestID = Some (VString (fixedXid 0)) /\
  panickingNext loggedWriter identifiedRequest
    (set_trace (fun t => t ++ [SRecovery]) loggedWorld)
    = (Panic "boom", set_trace (fun t => t ++ [SRecovery]) loggedWorld) /\
  exists s',
    recoveryMiddleware (NewApp (serviceConfig "ip" 20)) panickingNext loggedWriter
      identifiedRequest loggedWorld = (Ok tt, s') /\
    fst <$> wroteHeader (resp s') = Some 500.
Proof.
  split; [reflexivity|]. split; [reflexivity|].
  destruct (recovery_answers_panic_with_500 (NewApp (serviceConfig "ip" 20)) panickingNext 0
              (Some loggedContext) RawWriter identifiedRequest (fixedXid 0) "boom" loggedWorld
              (set_trace (fun t => t ++ [SRecovery]) loggedWorld) eq_refl eq_refl eq_refl)
    as (s' & Hrun & Hw & _).
  exists s'. split; [exact Hrun|]. by rewrite Hw.
Defined.

Lemma recovery_contains_every_panic_witness :
  Value (rContext identifiedRequest) contextKeyRequestID = Some (VString (fixedXid 0)) /\
  fst (recoveryMiddleware (NewApp (serviceConfig "ip" 20)) panickingNext loggedWriter
         identifiedRequest loggedWorld) = Ok tt.
Proof.
  split; [reflexivity|].
  exact (recovery_contains_every_panic (NewApp (serviceConfig "ip" 20)) panickingNext 0
           (Some loggedContext) RawWriter identifiedRequest (fixedXid 0) loggedWorld eq_refl).
Defined.

Lemma recovery_panics_without_id_or_logging_writer_witness :
  panickingNext RawWriter identifiedRequest
    (set_trace (fun t => t ++ [SRecovery]) startWorld)
    = (Panic "boom", set_trace (fun t => t ++ [SRecovery]) startWorld) /\
  exists v' s',
    recoveryMiddleware (NewApp (serviceConfig "ip" 20)) panickingNext RawWriter
      identifiedRequest startWorld = (Panic v', s') /\
    sent s' = (None, []).
Proof.
  split; [reflexivity|].
  apply (recovery_panics_without_id_or_logging_writer (NewApp (serviceConfig "ip" 20))
           panickingNext RawWriter identifiedRequest "boom" startWorld
           (set_trace (fun t => t ++ [SRecovery]) startWorld) eq_refl).
  right. reflexivity.
Defined.

(** A route handler that panics at once. *)
Definition panickingHandler : @Handler budgetLimiter :=
  fun s ctx r => mkHandlerAct [] [] (Panics "boom").

Lemma plainRequest_labelsAccepted config :
  MetricsEnabled config = true -> labelsAccepted plainRequest = true.
Proof. reflexivity. Qed.

Lemma default_chain_contains_every_panic_witness :
  corsPasses corsPassAll (serviceConfig "ip" 20) plainRequest /\
  grants budgetNew budgetAllow microClock (Start (NewApp (serviceConfig "ip" 20)))
         plainRequest startWorld /\
  (MetricsEnabled (serviceConfig "ip" 20) = true -> labelsAccepted plainRequest = true) /\
  fst (serve (serviceConfig "ip" 20) panickingHandler plainRequest startWorld) = Ok tt.
Proof.
  split; [apply corsPassAll_passes|]. split; [exact stocked_grants|].
  split; [apply plainRequest_labelsAccepted|].
  exact (default_chain_contains_every_panic budgetNew budgetAllow microClock fixedXid
           corsPassAll (serviceConfig "ip" 20)
           (Handle (Start (NewApp (serviceConfig "ip" 20))) panickingHandler)
           plainRequest startWorld (corsPassAll_passes _ _) stocked_grants
           (plainRequest_labelsAccepted _)).
Defined.

(** A request for /users/%ff: the decoded path ends in the byte 255, which
    is not valid UTF-8; and a route handler that answers 200. *)
Definition undecodableRequest : Request :=
  mkRequest "GET" ("/users/" ++ String (ascii_of_nat 255) EmptyString)%string
            "10.0.0.1:5555" ∅ Background.

Lemma undecodable_grants :
  grants budgetNew budgetAllow microClock (Start (NewApp (serviceConfig "ip" 20)))
         undecodableRequest startWorld.
Proof. right. eexists. vm_compute. reflexivity. Qed.

Lemma unlabelled_request_panics_in_metrics_witness :
  corsPasses corsPassAll (serviceConfig "ip" 20) undecodableRequest /\
  grants budgetNew budgetAllow microClock (Start (NewApp (serviceConfig "ip" 20)))
         undecodableRequest startWorld /\
  MetricsEnabled (serviceConfig "ip" 20) = true /\
  labelsAccepted undecodableRequest = false /\
  fst (serve (serviceConfig "ip" 20) okHandler undecodableRequest startWorld)
  = Panic "label value is not valid UTF-8".
Proof.
  split; [apply corsPassAll_passes|]. split; [exact undecodable_grants|].
  split; [reflexivity|]. split; [reflexivity|].
  exact (unlabelled_request_panics_in_metrics budgetNew budgetAllow microClock fixedXid
           corsPassAll (serviceConfig "ip" 20)
           (Handle (Start (NewApp (serviceConfig "ip" 20))) okHandler)
           undecodableRequest startWorld (corsPassAll_passes _ _) undecodable_grants
           eq_refl eq_refl).
Defined.

Lemma panicking_route_is_answered_500_witness :
  corsPasses corsPassAll (serviceConfig "ip" 20) plainRequest /\
  grants budgetNew budgetAllow microClock (Start (NewApp (serviceConfig "ip" 20)))
         plainRequest startWorld /\
  (MetricsEnabled (serviceConfig "ip" 20) = true -> labelsAccepted plainRequest = true) /\
  wroteHeader (resp startWorld) = None /\
  panicsUnanswered (Handle (Start (NewApp (serviceConfig "ip" 20))) panickingHandler)
    plainRequest (fixedXid (xidReads startWorld)) /\
  exists s',
    serve (serviceConfig "ip" 20) panickingHandler plainRequest startWorld = (Ok tt, s') /\
    fst <$> wroteHeader (resp s') = Some 500 /\
    respBody (resp s') = [faultEnvelope ""].
Proof.
  assert (Hp : panicsUnanswered
                 (Handle (Start (NewApp (serviceConfig "ip" 20))) panickingHandler)
                 plainRequest (fixedXid (xidReads startWorld))).
  { apply Handle_panicsUnanswered with (v := "boom"). intros s ctx r. by split. }
  split; [apply corsPassAll_passes|]. split; [exact stocked_grants|].
  split; [apply plainRequest_labelsAccepted|].
  split; [reflexivity|]. split; [exact Hp|].
  destruct (panicking_route_is_answered_500 budgetNew budgetAllow microClock fixedXid
              corsPassAll (serviceConfig "ip" 20)
              (Handle (Start (NewApp (serviceConfig "ip" 20))) panickingHandler)
              plainRequest startWorld (corsPassAll_passes _ _) stocked_grants
              (plainRequest_labelsAccepted _) eq_refl Hp)
    as (s' & hdrs & dur & Hrun & Hw & _ & _ & _ & _ & _ & _ & Hbody & _).
  exists s'. split; [exact Hrun|]. split; [by rewrite Hw|exact Hbody].
Defined.

(** *** The health endpoint *)

Definition statusOnly (status : string) (results : gmap string CheckResult) (d : Duration)
    : string := status.

Definition databaseCheck : gmap string HealthCheck :=
  {["database" := mkHealthCheck "database" "the pool answers a ping" (fun _ => None)]}.

Lemma databaseCheck_nonempty : databaseCheck <> ∅.
Proof. apply insert_non_empty. Qed.

Lemma plainRequest_no_start_time t :
  Value (rContext plainRequest) (KString "start_time") <> Some (VTime t).
Proof. discriminate. Qed.

Lemma healthHandler_panics_with_checks_witness :
  databaseCheck <> ∅ /\
  (forall t, Value (rContext plainRequest) (KString "start_time") <> Some (VTime t)) /\
  exists v s',
    healthHandler microClock statusOnly (NewApp (serviceConfig "ip" 20)) databaseCheck
      loggedWriter plainRequest loggedWorld = (Panic v, s') /\
    sent s' = (None, []) /\
    clockReads s' = 2%nat.
Proof.
  split; [exact databaseCheck_nonempty|]. split; [exact plainRequest_no_start_time|].
  exact (healthHandler_panics_with_checks microClock statusOnly
           (NewApp (serviceConfig "ip" 20)) databaseCheck loggedWriter plainRequest
           loggedWorld databaseCheck_nonempty plainRequest_no_start_time).
Defined.

Lemma healthHandler_without_checks_witness :
  wroteHeader (resp loggedWorld) = None /\
  exists s',
    healthHandler microClock statusOnly (NewApp (serviceConfig "ip" 20)) ∅
      loggedWriter plainRequest loggedWorld = (Ok tt, s') /\
    fst <$> wroteHeader (resp s') = Some 200 /\
    respBody (resp s') = [BodyJSON [("status", JStr "OK")]].
Proof.
  split; [reflexivity|].
  destruct (healthHandler_without_checks microClock statusOnly
              (NewApp (serviceConfig "ip" 20)) loggedWriter plainRequest loggedWorld eq_refl)
    as (s' & Hrun & Hw & Hbody & _).
  exists s'. split; [exact Hrun|]. split; [by rewrite Hw|exact Hbody].
Defined.

Lemma health_route_answers_500_with_checks_witness :
  databaseCheck <> ∅ /\
  (forall t, Value (rContext plainRequest) (KString "start_time") <> Some (VTime t)) /\
  corsPasses corsPassAll (serviceConfig "ip" 20) plainRequest /\
  grants budgetNew budgetAllow microClock (Start (NewApp (serviceConfig "ip" 20)))
         plainRequest startWorld /\
  (MetricsEnabled (serviceConfig "ip" 20) = true -> labelsAccepted plainRequest = true) /\
  wroteHeader (resp startWorld) = None /\
  exists s',
    wrap budgetNew budgetAllow microClock fixedXid corsPassAll
      (Start (NewApp (serviceConfig "ip" 20)))
      (routerMiddleware (Start (NewApp (serviceConfig "ip" 20))))
      (healthHandler microClock statusOnly (Start (NewApp (serviceConfig "ip" 20)))
         databaseCheck)
      RawWriter plainRequest startWorld = (Ok tt, s') /\
    respBody (resp s') = [faultEnvelope ""].
Proof.
  split; [exact databaseCheck_nonempty|]. split; [exact plainRequest_no_start_time|].
  split; [apply corsPassAll_passes|]. split; [exact stocked_grants|].
  split; [apply plainRequest_labelsAccepted|]. split; [reflexivity|].
  destruct (health_route_answers_500_with_checks budgetNew budgetAllow microClock fixedXid
              corsPassAll statusOnly (serviceConfig "ip" 20) databaseCheck plainRequest
              startWorld databaseCheck_nonempty plainRequest_no_start_time
              (corsPassAll_passes _ _) stocked_grants (plainRequest_labelsAccepted _) eq_refl)
    as (s' & Hrun & _ & Hbody).
  exists s'. split; [exact Hrun|exact Hbody].
Defined.

(** *** The user stack *)

Definition alice : User := mkUser 1 "Alice" "alice@example.com" "$2a$10$correct horse".

(** The error of the driver for an insert or update that hits the unique
    index on the email: not a [PgError] of the package the repository
    imports. *)
Definition uniqueViolation : DbError :=
  DbFailure "ERROR: duplicate key value violates unique constraint (SQLSTATE 23505)".

(** A database that holds one user, with id 1: inserts and updates hit
    the unique index on the email, other ids and emails are not found. *)
Definition oneUserDb : Queries :=
  mkQueries
    (fun _ _ => inr uniqueViolation)
    (fun _ id => if id =? 1 then inl alice else inr pgx_ErrNoRows)
    (fun _ email => if String.eqb email "alice@example.com" then inl alice
                    else inr pgx_ErrNoRows)
    (fun _ _ => inr uniqueViolation)
    (fun _ id => if id =? 1 then None else Some pgx_ErrNoRows).

Definition showCreate (p : CreateUserParams) : string := createEmail p.
Definition showUpdate (p : UpdateUserParams) : string := updateEmail p.

(** A stand-in for bcrypt: the hash is the password behind a prefix. *)
Definition prefixHash (password : string) (cost : Z) : string + string :=
  inl ("$2a$10$" ++ password)%string.
Definition prefixCompare (hash password : string) : option string :=
  if String.eqb hash ("$2a$10$" ++ password)%string then None
  else Some "hashedPassword is not the hash of the given password".
Definition matchAll (pattern text : string) : bool := true.

(** Route variables and [Atoi] for the one path used below. *)
Definition idBeyondInt32 (r : Request) : gmap string string := {["id" := "4294967297"]}.
Definition idTwo (r : Request) : gmap string string := {["id" := "2"]}.
Definition atoi (s : string) : option Z :=
  if String.eqb s "4294967297" then Some 4294967297
  else if String.eqb s "2" then Some 2 else None.

(** Request bodies and the validator's verdict on them. *)
Definition aliceRegisters : Bindable RegisterParams :=
  Build_Bindable RegisterParams
    (fun _ => Some (mkRegisterParams "Alice" "alice@example.com" "correct horse"))
    (fun _ => Valid).

Definition malformedRegistration : Bindable RegisterParams :=
  Build_Bindable RegisterParams
    (fun _ => Some (mkRegisterParams "A" "alice" "correct horse"))
    (fun _ => ValidationErrors [("Name", "min"); ("Email", "email")]).

Definition wrongPassword : Bindable Credentials :=
  Build_Bindable Credentials
    (fun _ => Some (mkCredentials "alice@example.com" "battery staple"))
    (fun _ => Valid).

Definition aliceChangesEmail : Bindable UpdateParams :=
  Build_Bindable UpdateParams
    (fun _ => Some (mkUpdateParams 0 None (Some "bob@example.com") None))
    (fun _ => Valid).

Definition serviceApp : App := Start (NewApp (serviceConfig "ip" 20)).

Lemma loggedWorld_sentinel : sentinelAsBuilt loggedWorld.
Proof. by exists "". Qed.

Lemma register_insert_failure_answers_500_witness :
  (8 <= String.length "correct horse")%nat /\
  sentinelAsBuilt loggedWorld /\
  wroteHeader (resp loggedWorld) = None /\
  exists s',
    HandleMethod serviceApp
      (UserHandler_Register (bindRegister := aliceRegisters)
         (userStack showCreate showUpdate prefixHash prefixCompare matchAll serviceApp
                    oneUserDb))
      loggedWriter plainRequest loggedWorld = (Ok tt, s') /\
    answered loggedWorld s' 500 (envelope 500 "internal server error" "").
Proof.
  assert (Hlen : (8 <= String.length "correct horse")%nat) by (simpl; lia).
  split; [exact Hlen|]. split; [exact loggedWorld_sentinel|]. split; [reflexivity|].
  exact (@register_insert_failure_answers_500 budgetLimiter showCreate showUpdate prefixHash
           prefixCompare matchAll aliceRegisters serviceApp oneUserDb 0 (Some loggedContext)
           RawWriter plainRequest (mkRegisterParams "Alice" "alice@example.com" "correct horse")
           "$2a$10$correct horse" uniqueViolation loggedWorld
           eq_refl eq_refl Hlen eq_refl eq_refl loggedWorld_sentinel eq_refl).
Defined.

Lemma update_user_failures_witness :
  atoi (URLParam idTwo serviceApp plainRequest "id") = Some 2 /\
  wroteHeader (resp loggedWorld) = None /\
  exists s',
    HandleMethod serviceApp
      (UserHandler_UpdateUser (bindUpdate := aliceChangesEmail) idTwo atoi
         (userStack showCreate showUpdate prefixHash prefixCompare matchAll serviceApp
                    oneUserDb))
      loggedWriter plainRequest loggedWorld = (Ok tt, s') /\
    answered loggedWorld s' 500 (envelope 500 "failed to update user" "").
Proof.
  split; [reflexivity|]. split; [reflexivity|].
  exact (@update_user_failures budgetLimiter showCreate showUpdate prefixHash
           prefixCompare matchAll idTwo atoi aliceChangesEmail serviceApp oneUserDb 0
           (Some loggedContext) RawWriter plainRequest 2
           (mkUpdateParams 0 None (Some "bob@example.com") None) "" uniqueViolation
           loggedWorld eq_refl eq_refl eq_refl eq_refl eq_refl eq_refl).
Defined.

Lemma login_failures_answer_alike_witness :
  prefixCompare (Password alice) "battery staple" <> None /\
  wroteHeader (resp loggedWorld) = None /\
  exists s',
    HandleMethod serviceApp
      (UserHandler_Login (bindCredentials := wrongPassword)
         (userStack showCreate showUpdate prefixHash prefixCompare matchAll serviceApp
                    oneUserDb))
      loggedWriter plainRequest loggedWorld = (Ok tt, s') /\
    answered loggedWorld s' 401 (envelope 401 "invalid credentials" "").
Proof.
  split; [discriminate|]. split; [reflexivity|].
  apply (@login_failures_answer_alike budgetLimiter showCreate showUpdate prefixHash
           prefixCompare matchAll wrongPassword serviceApp oneUserDb 0 (Some loggedContext)
           RawWriter plainRequest (mkCredentials "alice@example.com" "battery staple")
           loggedWorld eq_refl eq_refl); [|reflexivity].
  intros _ user Huser. injection Huser as <-. discriminate.
Defined.

Lemma get_user_failures_witness :
  atoi (URLParam idTwo serviceApp plainRequest "id") = Some 2 /\
  queries_GetUserByID oneUserDb (rContext plainRequest) (int32 2) = inr pgx_ErrNoRows /\
  wroteHeader (resp loggedWorld) = None /\
  exists s',
    HandleMethod serviceApp
      (UserHandler_GetUser idTwo atoi
         (userStack showCreate showUpdate prefixHash prefixCompare matchAll serviceApp
                    oneUserDb))
      loggedWriter plainRequest loggedWorld = (Ok tt, s') /\
    answered loggedWorld s' 404 (envelope 404 "user not found" "").
Proof.
  split; [reflexivity|]. split; [reflexivity|]. split; [reflexivity|].
  exact (@get_user_failures budgetLimiter showCreate showUpdate prefixHash prefixCompare
           matchAll idTwo atoi serviceApp oneUserDb 0 (Some loggedContext) RawWriter
           plainRequest 2 pgx_ErrNoRows loggedWorld eq_refl eq_refl eq_refl).
Defined.

Lemma get_user_serves_wrapped_id_witness :
  atoi (URLParam idBeyondInt32 serviceApp plainRequest "id") = Some 4294967297 /\
  queries_GetUserByID oneUserDb (rContext plainRequest) (int32 4294967297) = inl alice /\
  wroteHeader (resp loggedWorld) = None /\
  exists s',
    HandleMethod serviceApp
      (UserHandler_GetUser idBeyondInt32 atoi
         (userStack showCreate showUpdate prefixHash prefixCompare matchAll serviceApp
                    oneUserDb))
      loggedWriter plainRequest loggedWorld = (Ok tt, s') /\
    answered loggedWorld s' 200 (userBody alice).
Proof.
  split; [reflexivity|]. split; [reflexivity|]. split; [reflexivity|].
  destruct (@get_user_serves_wrapped_id budgetLimiter showCreate showUpdate prefixHash
              prefixCompare matchAll idBeyondInt32 atoi serviceApp oneUserDb 0
              (Some loggedContext) RawWriter plainRequest 4294967297 alice loggedWorld
              eq_refl eq_refl eq_refl)
    as (s' & Hrun & Hans & _).
  exists s'. split; [exact Hrun|exact Hans].
Defined.

Lemma register_validation_failure_answers_400_witness :
  wroteHeader (resp loggedWorld) = None /\
  exists s',
    HandleMethod serviceApp
      (UserHandler_Register
         (bindRegister := malformedRegistration)
         (userStack showCreate showUpdate prefixHash prefixCompare matchAll serviceApp
                    oneUserDb))
      loggedWriter plainRequest loggedWorld = (Ok tt, s') /\
    answered loggedWorld s' 400 (envelope 400 "validation failed" "").
Proof.
  split; [reflexivity|].
  exact (@register_validation_failure_answers_400 budgetLimiter showCreate showUpdate
           prefixHash prefixCompare matchAll malformedRegistration serviceApp oneUserDb 0
           (Some loggedContext) RawWriter plainRequest
           (mkRegisterParams "A" "alice" "correct horse")
           [("Name", "min"); ("Email", "email")] loggedWorld eq_refl eq_refl eq_refl).
Defined.
